(** * Student ETL pipeline: validators, transformer, loader, orchestrator

    A shallow embedding of [etl/transform.py], [etl/load.py], [etl/etl.py]
    and of the two field validators of [api/main.py], with the properties
    of the transform-and-load pipeline stated and proved over it.

    Conventions of the embedding.
    - Text is ASCII: a Python [str] is a [string] whose characters are the
      code points below 128.  Statements that depend on [str.lower] or
      [str.title] say so by assuming ASCII text.
    - A cell of a data frame is classified by what pandas and [float()] read
      in it: absent, a number, or text that is not a number.  Numbers are
      finite and kept as rationals; the code only compares and clamps them.
      The cells of the text columns hold text or are absent.
    - The record [row.to_dict()] hands to the loader has a key for each
      column of the frame.  In it an absent text cell is [None], an absent
      number is NaN or, in the column step 6 has cast to Int64, [pd.NA],
      and an absent date is NaT.  psycopg2 sends [None] as [NULL], NaN as
      ['NaN'::float] and NaT as ['NaT'::timestamp], and cannot adapt
      [pd.NA].
    - The store is PostgreSQL behind psycopg2: a statement the server
      refuses leaves the tables as they were and the transaction aborted;
      until the next commit or rollback every statement is refused, and a
      commit of an aborted transaction is a rollback.
    - [datetime.now()] is an input of the functions that read the clock. *)

From Stdlib Require Import ZArith QArith List String Ascii Bool Lia.
From stdpp Require Import base gmap strings pretty.
Import ListNotations.

Close Scope Q_scope.
Open Scope Z_scope.
Open Scope string_scope.
Open Scope list_scope.

(** ** Python text primitives *)

Module Text.

Definition code (c : ascii) : N := N_of_ascii c.

Definition in_range (lo hi : N) (c : ascii) : bool :=
  ((lo <=? code c) && (code c <=? hi))%N.

(** [str.isspace] on ASCII, which is also the class [\s] of [re]. *)
Definition is_space (c : ascii) : bool :=
  in_range 9 13 c || in_range 28 32 c.

(** The class [\d] on ASCII. *)
Definition is_digit (c : ascii) : bool := in_range 48 57 c.

Definition is_upper (c : ascii) : bool := in_range 65 90 c.
Definition is_lower (c : ascii) : bool := in_range 97 122 c.
Definition is_alpha (c : ascii) : bool := is_upper c || is_lower c.
Definition is_alnum (c : ascii) : bool := is_alpha c || is_digit c.

Definition lower_char (c : ascii) : ascii :=
  if is_upper c then ascii_of_N (code c + 32) else c.

Definition upper_char (c : ascii) : ascii :=
  if is_lower c then ascii_of_N (code c - 32) else c.

Definition one_of (set : string) (c : ascii) : bool :=
  existsb (Ascii.eqb c) (list_ascii_of_string set).

Fixpoint lstrip (s : list ascii) : list ascii :=
  match s with
  | c :: s' => if is_space c then lstrip s' else s
  | [] => []
  end.

Definition rstrip (s : list ascii) : list ascii := rev (lstrip (rev s)).

(** [s.strip()] *)
Definition strip (s : list ascii) : list ascii := rstrip (lstrip s).

(** [s.lower()] *)
Definition lower (s : list ascii) : list ascii := map lower_char s.

(** [s.upper()] *)
Definition upper (s : list ascii) : list ascii := map upper_char s.

(** [s.title()]: a letter that follows a letter is lowered, any other
    letter is raised. *)
Fixpoint title_from (previous_is_cased : bool) (s : list ascii) : list ascii :=
  match s with
  | [] => []
  | c :: s' =>
      (if previous_is_cased then lower_char c else upper_char c)
        :: title_from (is_alpha c) s'
  end.

Definition title (s : list ascii) : list ascii := title_from false s.

(** [re.sub(r'\s+', ' ', s)] *)
Fixpoint collapse_spaces (in_run : bool) (s : list ascii) : list ascii :=
  match s with
  | [] => []
  | c :: s' =>
      if is_space c
      then (if in_run then collapse_spaces true s'
            else " "%char :: collapse_spaces true s')
      else c :: collapse_spaces false s'
  end.

(** [re.sub(cls, '', s)] for a one-character class [cls]. *)
Definition remove_class (cls : ascii -> bool) (s : list ascii) : list ascii :=
  List.filter (fun c => negb (cls c)) s.

(** *** The fragment of [re] the module uses

    Both patterns of [transform.py] are a sequence of character classes,
    each with a repetition range, between [^] and [$].  [re.match] finds a
    match exactly when some split of the subject exists, which is what the
    matcher below searches for. *)

Record atom := Atom {
  cls : ascii -> bool;
  at_least : nat;
  at_most : option nat          (* [None]: unbounded *)
}.

(** [$] without [re.MULTILINE]: the end, or just before a final newline. *)
Definition at_dollar (s : list ascii) : bool :=
  match s with
  | [] => true
  | [c] => Ascii.eqb c "010"%char
  | _ => false
  end.

Definition exhausted (n : option nat) : bool :=
  match n with Some O => true | _ => false end.

Fixpoint match_atom (c : ascii -> bool) (k : list ascii -> bool)
    (lo : nat) (hi : option nat) (s : list ascii) {struct s} : bool :=
  (Nat.eqb lo 0 && k s)
  || match s with
     | [] => false
     | a :: s' =>
         c a && negb (exhausted hi)
         && match_atom c k (Nat.pred lo) (option_map Nat.pred hi) s'
     end.

(** [re.match('^' + p + '$', s)] as a truth value. *)
Fixpoint re_match (p : list atom) : list ascii -> bool :=
  match p with
  | [] => at_dollar
  | a :: p' => match_atom (cls a) (re_match p') (at_least a) (at_most a)
  end.

End Text.

(** ** Cells *)

(** A cell that may hold a number. *)
Inductive scalar :=
| SNull                         (* NaN / None *)
| SNum (x : Q)                  (* reads as the number [x] *)
| SText (s : string).           (* text that does not read as a number *)

(** A cell of [graduation_year]: a [scalar], or [pd.NA], the missing
    value of the nullable integer dtype that step 6 of
    [transform_students] gives the column. *)
Inductive nullable :=
| NA
| Plain (v : scalar).

Coercion Plain : scalar >-> nullable.

(** A cell that may hold a date (days since the epoch), as
    [pd.to_datetime(errors='coerce')] reads it in its column: a date, or
    text it turns into NaT (text that is no date, or a date in another
    format than the one it settled on for the column). *)
Inductive date_cell :=
| DNull
| DDate (d : Z)
| DText (s : string).           (* text that [pd.to_datetime] coerces to NaT *)

(** ** [class DataTransformer]: field validators and normalisers *)

Module DataTransformer.
Import Text.

Definition VALID_GENDERS : gset string :=
  {[ "Male"; "Female"; "Other"; "Prefer not to say" ]}.

Definition VALID_STATUSES : gset string :=
  {[ "Active"; "Inactive"; "Graduated"; "Suspended"; "On Leave" ]}.

Definition VALID_DEPARTMENTS : gset string :=
  {[ "CS"; "MATH"; "PHY"; "ENG"; "BIO"; "CHEM"; "ECON"; "PSY" ]}.

(** [r'^[a-zA-Z0-9._%+-]+@[a-zA-Z0-9.-]+\.[a-zA-Z]{2,}$'] *)
Definition EMAIL_PATTERN : list atom :=
  [ Atom (fun c => is_alnum c || one_of "._%+-" c) 1 None;
    Atom (one_of "@") 1 (Some 1%nat);
    Atom (fun c => is_alnum c || one_of ".-" c) 1 None;
    Atom (one_of ".") 1 (Some 1%nat);
    Atom is_alpha 2 None ].

Definition validate_email (email : option string) : bool :=
  match email with
  | None => false
  | Some e => re_match EMAIL_PATTERN (strip (list_ascii_of_string e))
  end.

(** The class [[\s\-$$$$\+]] of [validate_phone]: white space, a dash, a
    dollar sign (written four times), a plus sign. *)
Definition phone_formatting (c : ascii) : bool :=
  is_space c || one_of "-$$$$+" c.

(** [r'^\d{10,15}$'] *)
Definition PHONE_PATTERN : list atom := [ Atom is_digit 10 (Some 15%nat) ].

Definition validate_phone (phone : option string) : bool :=
  match phone with
  | None => true
  | Some p =>
      match strip (list_ascii_of_string p) with
      | [] => true
      | _ =>
          let cleaned := remove_class phone_formatting (list_ascii_of_string p) in
          re_match PHONE_PATTERN cleaned
      end
  end.

Definition validate_gpa (gpa : scalar) : bool :=
  match gpa with
  | SNull => true
  | SNum x => Qle_bool 0 x && Qle_bool x 4
  | SText _ => false            (* [float(gpa)] raises ValueError *)
  end.

Definition clean_string (value : option string) : option string :=
  match value with
  | None => None
  | Some v =>
      let cleaned := strip (list_ascii_of_string v) in
      let cleaned := collapse_spaces false cleaned in
      match cleaned with
      | [] => None
      | _ => Some (string_of_list_ascii cleaned)
      end
  end.

Definition normalize_name (name : option string) : option string :=
  match clean_string name with
  | Some cleaned => Some (string_of_list_ascii (title (list_ascii_of_string cleaned)))
  | None => None
  end.

Definition normalize_email (email : option string) : option string :=
  match clean_string email with
  | Some cleaned => Some (string_of_list_ascii (lower (list_ascii_of_string cleaned)))
  | None => None
  end.

End DataTransformer.

(** ** Data frames *)

Module Frame.

(** One record of the students table, column by column. *)
Record row := Row {
  student_code : option string;
  first_name : option string;
  last_name : option string;
  email : option string;
  date_of_birth : date_cell;
  gender : option string;
  phone : option string;
  department_code : option string;
  graduation_year : nullable;
  gpa : scalar
}.

(** A data frame: its column names and its rows, each under its index
    label.  Filtering a frame keeps the labels of the rows that stay. *)
Record table := Table {
  columns : list string;
  rows : list (Z * row)
}.

Definition has_column (df : table) (c : string) : bool :=
  bool_decide (c ∈ columns df).

Definition set_first_name (v : option string) (r : row) : row :=
  Row (student_code r) v (last_name r) (email r) (date_of_birth r)
      (gender r) (phone r) (department_code r) (graduation_year r) (gpa r).
Definition set_last_name (v : option string) (r : row) : row :=
  Row (student_code r) (first_name r) v (email r) (date_of_birth r)
      (gender r) (phone r) (department_code r) (graduation_year r) (gpa r).
Definition set_email (v : option string) (r : row) : row :=
  Row (student_code r) (first_name r) (last_name r) v (date_of_birth r)
      (gender r) (phone r) (department_code r) (graduation_year r) (gpa r).
Definition set_date_of_birth (v : date_cell) (r : row) : row :=
  Row (student_code r) (first_name r) (last_name r) (email r) v
      (gender r) (phone r) (department_code r) (graduation_year r) (gpa r).
Definition set_gender (v : option string) (r : row) : row :=
  Row (student_code r) (first_name r) (last_name r) (email r) (date_of_birth r)
      v (phone r) (department_code r) (graduation_year r) (gpa r).
Definition set_graduation_year (v : nullable) (r : row) : row :=
  Row (student_code r) (first_name r) (last_name r) (email r) (date_of_birth r)
      (gender r) (phone r) (department_code r) v (gpa r).
Definition set_gpa (v : scalar) (r : row) : row :=
  Row (student_code r) (first_name r) (last_name r) (email r) (date_of_birth r)
      (gender r) (phone r) (department_code r) (graduation_year r) v.

(** [df[c] = df[c].apply(f)], row by row, labels kept. *)
Definition apply_rows (f : row -> row) (rs : list (Z * row)) : list (Z * row) :=
  map (fun ir => (fst ir, f (snd ir))) rs.

(** [df[mask]] *)
Definition select (mask : row -> bool) (rs : list (Z * row)) : list (Z * row) :=
  List.filter (fun ir => mask (snd ir)) rs.

End Frame.
Export Frame.

(** A Python call either returns or raises. *)
Inductive result (A : Type) :=
| Return (a : A)
| Raise (e : string).
Arguments Return {A} a.
Arguments Raise {A} e.

(** ** [DataTransformer.transform_students] *)

Module Transform.
Import Text DataTransformer.

(** The value an error entry quotes. *)
Inductive cell :=
| TextCell (v : option string)
| NumCell (v : scalar).

(** The two shapes of entries in [validation_errors]. *)
Inductive validation_error :=
| RowError (row : Z) (column : string) (value : cell) (error : string)
| ColumnError (column : string) (error : string).

(** The two lists a [DataTransformer] carries. *)
Record transformer := Transformer {
  validation_errors : list validation_error;
  transformation_log : list string
}.

(** [for idx, row in invalid.iterrows(): errors.append(...)] *)
Definition report (bad : row -> bool) (entry : Z -> row -> validation_error)
    (rs : list (Z * row)) : list validation_error :=
  map (fun ir => entry (fst ir) (snd ir)) (select bad rs).

Definition email_error (idx : Z) (r : row) : validation_error :=
  RowError idx "email" (TextCell (email r)) "Invalid email format".

Definition gpa_error (idx : Z) (r : row) : validation_error :=
  RowError idx "gpa" (NumCell (gpa r)) "Invalid GPA (must be 0.0-4.0)".

(** The text of a set in an f-string lists its members in an order Python
    does not fix; the declared order stands for it. *)
Definition department_error (idx : Z) (r : row) : validation_error :=
  RowError idx "department_code" (TextCell (department_code r))
    "Invalid department code. Valid: {'CS', 'MATH', 'PHY', 'ENG', 'BIO', 'CHEM', 'ECON', 'PSY'}".

Definition gender_error (idx : Z) (r : row) : validation_error :=
  RowError idx "gender" (TextCell (gender r))
    "Invalid gender. Valid: {'Male', 'Female', 'Other', 'Prefer not to say'}".

(** [pd.to_numeric(x, errors='coerce')] *)
Definition to_numeric (v : scalar) : scalar :=
  match v with
  | SText _ => SNull
  | _ => v
  end.

(** [x.clip(lower, upper)]: NaN stays NaN. *)
Definition clip (lower upper : Q) (v : scalar) : scalar :=
  match v with
  | SNum x =>
      if Qle_bool lower x
      then (if Qle_bool x upper then SNum x else SNum upper)
      else SNum lower
  | _ => v
  end.

(** The two assignments that end step 3. *)
Definition coerce_gpa (v : scalar) : scalar := clip 0 4 (to_numeric v).

(** [isin(valid) = False] and [notna()] *)
Definition unknown_in (valid : gset string) (v : option string) : bool :=
  match v with
  | Some s => negb (bool_decide (s ∈ valid))
  | None => false
  end.

(** [lambda x: x.strip().title() if pd.notna(x) else None] *)
Definition normalize_gender (v : option string) : option string :=
  match v with
  | Some x => Some (string_of_list_ascii (title (strip (list_ascii_of_string x))))
  | None => None
  end.

Definition is_integral (v : nullable) : bool :=
  match v with
  | Plain (SNum x) => (Qnum x mod Zpos (Qden x) =? 0)%Z
  | _ => true
  end.

(** [pd.to_numeric(x, errors='coerce').astype('Int64')] on a cell of a
    column the cast accepts: what is not a number becomes [pd.NA]. *)
Definition to_Int64 (v : nullable) : nullable :=
  match v with
  | Plain (SNum x) => Plain (SNum x)
  | _ => NA
  end.

(** [pd.to_datetime(x, errors='coerce').dt.date] *)
Definition to_date (v : date_cell) : date_cell :=
  match v with
  | DText _ => DNull
  | _ => v
  end.

(** The text of the TypeError [astype('Int64')] raises: it is pandas' and
    names the dtype it found, which the embedding does not follow. *)
Definition unsafe_cast : string :=
  "cannot safely cast non-equivalent float64 to int64".

(** [cast_types] with the mapping of step 6: [graduation_year] to [int],
    [gpa] to [float], [date_of_birth] to ['date'].  [astype('Int64')]
    raises when a number of the column has a fractional part; the
    exception is caught, reported, and the column is left as it was. *)
Definition cast_types (df : table) (rs : list (Z * row))
    : list (Z * row) * list validation_error :=
  let '(rs, errs) :=
    if has_column df "graduation_year" then
      if forallb (fun ir => is_integral (graduation_year (snd ir))) rs
      then (apply_rows (fun r => set_graduation_year (to_Int64 (graduation_year r)) r) rs, [])
      else (rs, [ColumnError "graduation_year" ("Type casting failed: " +:+ unsafe_cast)])
    else (rs, []) in
  let rs :=
    if has_column df "gpa"
    then apply_rows (fun r => set_gpa (to_numeric (gpa r)) r) rs
    else rs in
  let rs :=
    if has_column df "date_of_birth"
    then apply_rows (fun r => set_date_of_birth (to_date (date_of_birth r)) r) rs
    else rs in
  (rs, errs).

(** [df.drop_duplicates(subset=[key], keep='first')]: a row stays unless
    an earlier row has the same value under [key]; two absent values are
    the same value. *)
Fixpoint drop_duplicates_from (seen : list (option string))
    (key : row -> option string) (rs : list (Z * row)) : list (Z * row) :=
  match rs with
  | [] => []
  | ir :: rs' =>
      if bool_decide (key (snd ir) ∈ seen)
      then drop_duplicates_from seen key rs'
      else ir :: drop_duplicates_from (key (snd ir) :: seen) key rs'
  end.

Definition drop_duplicates := drop_duplicates_from [].

(** [deduplicate(df, subset=[key], keep='first')]: the frame and the line
    added to the log, if any. *)
Definition deduplicate (key : row -> option string) (rs : list (Z * row))
    : list (Z * row) * list string :=
  let initial_count := length rs in
  let df_deduped := drop_duplicates key rs in
  let removed_count := (initial_count - length df_deduped)%nat in
  (df_deduped,
   if (0 <? removed_count)%nat
   then ["Deduplication: removed " +:+ pretty removed_count +:+ " records"]
   else []).

(** Steps 1 to 6 change cells and never drop a row. *)
Definition clean_strings (df : table) (rs : list (Z * row)) : list (Z * row) :=
  let rs := if has_column df "first_name"
            then apply_rows (fun r => set_first_name (normalize_name (first_name r)) r) rs
            else rs in
  let rs := if has_column df "last_name"
            then apply_rows (fun r => set_last_name (normalize_name (last_name r)) r) rs
            else rs in
  if has_column df "email"
  then apply_rows (fun r => set_email (normalize_email (email r)) r) rs
  else rs.

(** Steps 1 to 6 of [transform_students]: the frame with its cells
    normalised and coerced, and the entries of [validation_errors]. *)
Definition validate_rows (df : table) : list (Z * row) * list validation_error :=
  (* Step 1: clean string fields *)
  let rs := clean_strings df (rows df) in
  (* Step 2: validate emails *)
  let errors :=
    if has_column df "email"
    then report (fun r => negb (validate_email (email r))) email_error rs
    else [] in
  (* Step 3: validate and clean GPA *)
  let errors :=
    if has_column df "gpa"
    then errors ++ report (fun r => negb (validate_gpa (gpa r))) gpa_error rs
    else errors in
  let rs :=
    if has_column df "gpa"
    then apply_rows (fun r => set_gpa (coerce_gpa (gpa r)) r) rs
    else rs in
  (* Step 4: validate department codes *)
  let errors :=
    if has_column df "department_code"
    then errors ++ report (fun r => unknown_in VALID_DEPARTMENTS (department_code r))
                          department_error rs
    else errors in
  (* Step 5: validate gender values *)
  let rs :=
    if has_column df "gender"
    then apply_rows (fun r => set_gender (normalize_gender (gender r)) r) rs
    else rs in
  let errors :=
    if has_column df "gender"
    then errors ++ report (fun r => unknown_in VALID_GENDERS (gender r)) gender_error rs
    else errors in
  (* Step 6: type casting *)
  let '(rs, cast_errors) := cast_types df rs in
  (rs, errors ++ cast_errors).

(** Step 7 of [transform_students]: by email, then by student code. *)
Definition remove_duplicates (df : table) (rs : list (Z * row))
    : list (Z * row) * list string :=
  let '(rs, log1) :=
    if has_column df "email" then deduplicate email rs else (rs, []) in
  let '(rs, log2) :=
    if has_column df "student_code" then deduplicate student_code rs else (rs, []) in
  (rs, log1 ++ log2).

(** [df[mask]] in step 8.  On a frame without rows [apply] gives a mask
    of dtype object, which pandas reads as a list of column names: the
    result has no column. *)
Definition masked_columns (df : table) (rs : list (Z * row)) : list string :=
  match rs with
  | [] => []
  | _ :: _ => columns df
  end.

(** [transform_students(df)]: the transformer afterwards, and the
    returned frame.  Step 8 reads [df['email']], a KeyError when the
    frame has no such column. *)
Definition transform_students (df : table) : transformer * result table :=
  let '(rs, errors) := validate_rows df in
  let '(rs, log) := remove_duplicates df rs in
  (* Step 8: remove rows with critical validation errors *)
  if has_column df "email" then
    let valid_df := select (fun r => validate_email (email r)) rs in
    let removed := (length rs - length valid_df)%nat in
    let log :=
      if (0 <? removed)%nat
      then log ++ ["Removed " +:+ pretty removed +:+ " invalid records"]
      else log in
    (Transformer errors log, Return (Table (masked_columns df rs) valid_df))
  else
    (Transformer errors log, Raise "'email'").

(** [get_validation_report()] *)
Definition get_validation_report (t : transformer)
    : nat * list validation_error * list string :=
  (length (validation_errors t), validation_errors t, transformation_log t).

End Transform.

(** ** The store behind [DatabaseLoader] *)

Module Db.

(** What a statement sends for a numeric column, and what the column
    then holds. *)
Inductive number :=
| Null
| NaN                           (* ['NaN'::float] *)
| Number (x : Q)
| NumberText (s : string).      (* text sent for a number *)

(** The same for a date column. *)
Inductive date_value :=
| NoDate                        (* [NULL] *)
| NaT                           (* ['NaT'::timestamp] *)
| Date (d : Z)
| DateText (s : string).        (* text sent for a date *)

(** A row of [students], with the columns the loader reads or writes. *)
Record student := Student {
  student_id : Z;
  student_code : option string;
  first_name : option string;
  last_name : option string;
  email : option string;
  date_of_birth : date_value;
  gender : option string;
  phone : option string;
  department_id : option Z;
  graduation_year : number;
  gpa : number;
  status : string;
  updated_at : option Z         (* [None]: the column's default *)
}.

(** A row of [courses]. *)
Record course := Course {
  course_id : Z;
  course_code : option string;
  course_name : option string;
  credits : scalar;
  course_department_id : Z;
  max_enrollment : scalar;
  course_updated_at : option Z
}.

(** The tables, and what the schema declares on them.  The schema file is
    not among the sources: the column types, NOT NULL and CHECK constraints
    of a table are the function that names the violation of a row, if any.
    A statement that violates one is refused and leaves the tables as they
    were. *)
Record database := Database {
  departments : gmap string Z;
  students : list student;
  next_student_id : Z;
  students_check : student -> option string;
  courses : list course;
  next_course_id : Z;
  courses_check : course -> option string
}.

Definition with_students (l : list student) (next : Z) (db : database) : database :=
  Database (departments db) l next (students_check db)
           (courses db) (next_course_id db) (courses_check db).

Definition with_courses (l : list course) (next : Z) (db : database) : database :=
  Database (departments db) (students db) (next_student_id db) (students_check db)
           l next (courses_check db).

(** [column = %s]: never true when either side is NULL. *)
Definition sql_eq (param column : option string) : bool :=
  match param, column with
  | Some a, Some b => String.eqb a b
  | _, _ => false
  end.

(** [COALESCE(%s, column)] at the three kinds of column. *)
Definition coalesce {A} (param column : option A) : option A :=
  match param with
  | Some _ => param
  | None => column
  end.

Definition coalesce_number (param column : number) : number :=
  match param with
  | Null => column
  | _ => param
  end.

Definition coalesce_date (param column : date_value) : date_value :=
  match param with
  | NoDate => column
  | _ => param
  end.

(** What the server says of ['NaT'::timestamp], its quotes and the lines
    that show the statement left out. *)
Definition not_a_timestamp : string :=
  "invalid input syntax for type timestamp: NaT".

(** Whether the server refuses to write a row of [students]: NaT is no
    timestamp whatever the schema; the rest is the schema's. *)
Definition refused (check : student -> option string) (s : student)
    : option string :=
  match date_of_birth s with
  | NaT => Some not_a_timestamp
  | _ => check s
  end.

(** The first violation among the rows a statement writes. *)
Fixpoint first_violation {A} (check : A -> option string) (l : list A) : option string :=
  match l with
  | [] => None
  | x :: l' =>
      match check x with
      | Some e => Some e
      | None => first_violation check l'
      end
  end.

End Db.

(** ** [class DatabaseLoader] *)

Module DatabaseLoader.
Import Db.

(** An open psycopg2 connection: the committed tables, the tables as the
    open transaction sees them, whether a statement of the transaction
    has been refused, and (bookkeeping that the source does not hold) the
    labels of the records upserted since the last commit. *)
Record connection := Connection {
  committed : database;
  working : database;
  aborted : bool;
  uncommitted : list Z
}.

Definition connect (db : database) : connection := Connection db db false [].

(** [conn.commit()]: the commit of an aborted transaction is a rollback. *)
Definition commit (conn : connection) : connection :=
  if aborted conn
  then Connection (committed conn) (committed conn) false []
  else Connection (working conn) (working conn) false [].

(** [conn.rollback()] *)
Definition rollback (conn : connection) : connection :=
  Connection (committed conn) (committed conn) false [].

(** What psycopg2 raises for a statement in an aborted transaction. *)
Definition in_failed_transaction : string :=
  "current transaction is aborted, commands ignored until end of transaction block".

(** A number as a record holds it. *)
Inductive py_number :=
| PyNone                        (* [None] *)
| PyNaN                         (* [float('nan')] *)
| PyNA                          (* [pd.NA] *)
| PyNumber (x : Q)
| PyText (s : string).

(** The dictionary [upsert_student] receives; [student_data.get(key)]
    reads a missing key as [None].  The date is held as it will be sent. *)
Record student_data := StudentData {
  sd_student_code : option string;
  sd_first_name : option string;
  sd_last_name : option string;
  sd_email : option string;
  sd_date_of_birth : date_value;
  sd_gender : option string;
  sd_phone : option string;
  sd_department_code : option string;
  sd_graduation_year : py_number;
  sd_gpa : py_number
}.

(** What [row.to_dict()] holds for a number and for a date of the row. *)
Definition number_value (v : scalar) : py_number :=
  match v with
  | SNull => PyNaN
  | SNum x => PyNumber x
  | SText s => PyText s
  end.

Definition year_value (v : nullable) : py_number :=
  match v with
  | NA => PyNA
  | Plain v => number_value v
  end.

Definition date_value_of (v : date_cell) : date_value :=
  match v with
  | DNull => NaT
  | DDate d => Date d
  | DText s => DateText s
  end.

(** The value under a key of [row.to_dict()], as [.get] reads it: the
    dictionary has a key for each column of the frame. *)
Definition get {A} (df : table) (column : string) (missing value : A) : A :=
  if has_column df column then value else missing.

(** [row.to_dict()] on a row of the frame [df] *)
Definition to_dict (df : table) (r : row) : student_data :=
  StudentData
    (get df "student_code" None (Frame.student_code r))
    (get df "first_name" None (Frame.first_name r))
    (get df "last_name" None (Frame.last_name r))
    (get df "email" None (Frame.email r))
    (get df "date_of_birth" NoDate (date_value_of (Frame.date_of_birth r)))
    (get df "gender" None (Frame.gender r))
    (get df "phone" None (Frame.phone r))
    (get df "department_code" None (Frame.department_code r))
    (get df "graduation_year" PyNone (year_value (Frame.graduation_year r)))
    (get df "gpa" PyNone (number_value (Frame.gpa r))).

(** [for idx, row in df.iterrows(): student_data = row.to_dict()] *)
Definition records (df : table) : list (Z * student_data) :=
  map (fun ir => (fst ir, to_dict df (snd ir))) (rows df).

(** How psycopg2 sends a number; it has no adapter for [pd.NA]. *)
Definition adapt (v : py_number) : option number :=
  match v with
  | PyNone => Some Null
  | PyNaN => Some NaN
  | PyNA => None
  | PyNumber x => Some (Number x)
  | PyText s => Some (NumberText s)
  end.

(** What psycopg2 raises for [pd.NA]. *)
Definition cannot_adapt : string := "can't adapt type 'NAType'".

(** The year and the GPA of a record as they are sent, when both can be. *)
Definition sent_numbers (student_data : student_data) : option (number * number) :=
  match adapt (sd_graduation_year student_data), adapt (sd_gpa student_data) with
  | Some year, Some gpa' => Some (year, gpa')
  | _, _ => None
  end.

(** [get_department_id(cursor, department_code)] *)
Definition get_department_id (db : database) (department_code : option string)
    : option Z :=
  match department_code with
  | None => None
  | Some c => departments db !! c
  end.

(** [WHERE email = %s OR student_code = %s] *)
Definition same_student (student_data : student_data) (s : student) : bool :=
  sql_eq (sd_email student_data) (email s)
  || sql_eq (sd_student_code student_data) (student_code s).

(** The [SET] list of the [UPDATE] in [upsert_student], with the year
    and the GPA as they are sent. *)
Definition update_student (now : Z) (department_id' : option Z)
    (student_data : student_data) (numbers : number * number) (s : student)
    : student :=
  Student (student_id s) (student_code s)
    (coalesce (sd_first_name student_data) (first_name s))
    (coalesce (sd_last_name student_data) (last_name s))
    (email s)
    (coalesce_date (sd_date_of_birth student_data) (date_of_birth s))
    (coalesce (sd_gender student_data) (gender s))
    (coalesce (sd_phone student_data) (phone s))
    (coalesce department_id' (department_id s))
    (coalesce_number (fst numbers) (graduation_year s))
    (coalesce_number (snd numbers) (gpa s))
    (status s)
    (Some now).

(** The row of the [INSERT] in [upsert_student]. *)
Definition new_student (id : Z) (department_id' : option Z)
    (student_data : student_data) (numbers : number * number) : student :=
  Student id (sd_student_code student_data)
    (sd_first_name student_data) (sd_last_name student_data)
    (sd_email student_data) (sd_date_of_birth student_data)
    (sd_gender student_data) (sd_phone student_data)
    department_id'
    (fst numbers) (snd numbers)
    "Active" None.

(** [upsert_student(cursor, student_data)] in a transaction that is not
    aborted: the tables afterwards and the returned triple
    [(success, student_id, message)].  [now] is [CURRENT_TIMESTAMP].
    When several stored rows match, SQL leaves open which one
    [fetchone()] returns; the first in storage order stands for it.
    A record with a number that psycopg2 cannot adapt fails at the
    [UPDATE] or the [INSERT] before anything is sent. *)
Definition upsert_student (now : Z) (db : database) (student_data : student_data)
    : database * (bool * option Z * string) :=
  let department_id' := get_department_id db (sd_department_code student_data) in
  match List.find (same_student student_data) (students db) with
  | Some existing =>
      match sent_numbers student_data with
      | None => (db, (false, None, cannot_adapt))
      | Some numbers =>
          let hit s := (student_id s =? student_id existing)%Z in
          let written :=
            map (update_student now department_id' student_data numbers)
                (List.filter hit (students db)) in
          match first_violation (refused (students_check db)) written with
          | Some e => (db, (false, None, e))
          | None =>
              let students' :=
                map (fun s => if hit s
                              then update_student now department_id' student_data
                                     numbers s
                              else s) (students db) in
              (with_students students' (next_student_id db) db,
               (true, Some (student_id existing), "updated"))
          end
      end
  | None =>
      match sent_numbers student_data with
      | None => (db, (false, None, cannot_adapt))
      | Some numbers =>
          let s := new_student (next_student_id db) department_id' student_data
                     numbers in
          match refused (students_check db) s with
          | Some e => (db, (false, None, e))
          | None =>
              (with_students (students db ++ [s]) (next_student_id db + 1) db,
               (true, Some (student_id s), "inserted"))
          end
      end
  end.

(** [upsert_student] on the cursor of a connection.  In an aborted
    transaction the first statement raises, which the [except] clause
    turns into a failure.  A statement the server refuses aborts the
    transaction; a failure of psycopg2 to adapt a value does not. *)
Definition execute_upsert (now : Z) (conn : connection) (idx : Z)
    (student_data : student_data) : connection * (bool * option Z * string) :=
  if aborted conn then
    (Connection (committed conn) (working conn) true (uncommitted conn ++ [idx]),
     (false, None, in_failed_transaction))
  else
    let '(db', outcome) := upsert_student now (working conn) student_data in
    let refused_by_server :=
      negb (fst (fst outcome))
      && match sent_numbers student_data with Some _ => true | None => false end in
    (Connection (committed conn) db' refused_by_server (uncommitted conn ++ [idx]),
     outcome).

(** The dictionary [upsert_course] receives.  [max_enrollment] may be a
    missing key, which [data.get("max_enrollment", 30)] reads as 30. *)
Record course_data := CourseData {
  cd_course_code : option string;
  cd_course_name : option string;
  cd_credits : scalar;
  cd_department_code : option string;
  cd_max_enrollment : option scalar
}.

Definition max_enrollment_of (data : course_data) : scalar :=
  match cd_max_enrollment data with
  | Some v => v
  | None => SNum 30
  end.

(** [DO UPDATE SET course_name = EXCLUDED.course_name, ...] *)
Definition overwrite_course (now : Z) (data : course_data) (c : course) : course :=
  Course (course_id c) (course_code c)
    (cd_course_name data) (cd_credits data)
    (course_department_id c)
    (max_enrollment_of data)
    (Some now).

Definition same_course (data : course_data) (c : course) : bool :=
  sql_eq (cd_course_code data) (course_code c).

(** [upsert_course(cursor, data)] in a transaction that is not aborted:
    the tables afterwards and the returned pair [(success, message)].
    The row proposed for insertion takes its id from the sequence before
    the conflict is seen, so an update advances the sequence too. *)
Definition upsert_course (now : Z) (db : database) (data : course_data)
    : database * (bool * string) :=
  match get_department_id db (cd_department_code data) with
  | None => (db, (false, "Department not found"))
  | Some dept =>
      if existsb (same_course data) (courses db) then
        (* ON CONFLICT (course_code) DO UPDATE *)
        let written :=
          map (overwrite_course now data)
              (List.filter (same_course data) (courses db)) in
        match first_violation (courses_check db) written with
        | Some e => (db, (false, e))
        | None =>
            let courses' :=
              map (fun c => if same_course data c
                            then overwrite_course now data c else c)
                  (courses db) in
            (with_courses courses' (next_course_id db + 1) db, (true, "upserted"))
        end
      else
        let c := Course (next_course_id db) (cd_course_code data)
                   (cd_course_name data) (cd_credits data) dept
                   (max_enrollment_of data) None in
        match courses_check db c with
        | Some e => (db, (false, e))
        | None =>
            (with_courses (courses db ++ [c]) (next_course_id db + 1) db,
             (true, "upserted"))
        end
  end.

(** An entry of [stats['errors']]. *)
Record load_error := LoadError {
  error_row : Z;
  error_email : option string;
  error_text : string
}.

(** The dictionary [load_students_batch] returns. *)
Record stats := Stats {
  total : nat;
  inserted : nat;
  updated : nat;
  failed : nat;
  errors : list load_error
}.

(** The body of the [for idx, row in df.iterrows()] loop, up to the
    batch test. *)
Definition tally (idx : Z) (student_data : student_data)
    (outcome : bool * option Z * string) (st : stats) : stats :=
  let '(success, _, message) := outcome in
  if success then
    if String.eqb message "inserted"
    then Stats (total st) (S (inserted st)) (updated st) (failed st) (errors st)
    else Stats (total st) (inserted st) (S (updated st)) (failed st) (errors st)
  else
    Stats (total st) (inserted st) (updated st) (S (failed st))
          (errors st ++ [LoadError idx (sd_email student_data) message]).

(** The loop of [load_students_batch]: the connection when the loop is
    left, and the statistics or the exception that left it.
    [(idx + 1) % batch_size] raises ZeroDivisionError for a zero
    [batch_size]. *)
Fixpoint load_loop (now batch_size : Z) (rs : list (Z * student_data))
    (conn : connection) (st : stats) : connection * result stats :=
  match rs with
  | [] => (conn, Return st)
  | (idx, student_data) :: rs' =>
      let '(conn, outcome) := execute_upsert now conn idx student_data in
      let st := tally idx student_data outcome st in
      if (batch_size =? 0)%Z
      then (conn, Raise "integer division or modulo by zero")
      else
        let conn := if ((idx + 1) mod batch_size =? 0)%Z then commit conn else conn in
        load_loop now batch_size rs' conn st
  end.

(** [load_students_batch(df, batch_size)] against the tables [db]: the
    tables once the connection is closed, and the returned statistics.
    Leaving [get_connection] commits; an exception that escapes the loop
    rolls back and is raised again. *)
Definition load_students_batch (now : Z) (db : database) (df : table)
    (batch_size : Z) : database * result stats :=
  let st := Stats (length (rows df)) 0 0 0 [] in
  match load_loop now batch_size (records df) (connect db) st with
  | (conn, Return st) => (committed (commit conn), Return st)
  | (conn, Raise e) => (committed (rollback conn), Raise e)
  end.

End DatabaseLoader.

(** ** [api/main.py]: the field validators of [StudentCreate] *)

Module StudentCreate.
Import Text.

Definition valid_genders : gset string :=
  {[ "Male"; "Female"; "Other"; "Prefer not to say" ]}.

Definition valid_depts : gset string :=
  {[ "CS"; "MATH"; "PHY"; "ENG"; "BIO"; "CHEM"; "ECON"; "PSY" ]}.

Definition validate_gender (v : option string) : result (option string) :=
  match v with
  | Some g =>
      if bool_decide (g ∈ valid_genders) then Return v
      else Raise "Gender must be one of: {'Male', 'Female', 'Other', 'Prefer not to say'}"
  | None => Return v
  end.

Definition validate_department (v : option string) : result (option string) :=
  match v with
  | Some d =>
      let d' := string_of_list_ascii (upper (list_ascii_of_string d)) in
      if bool_decide (d' ∈ valid_depts) then Return (Some d')
      else Raise "Department code must be one of: {'CS', 'MATH', 'PHY', 'ENG', 'BIO', 'CHEM', 'ECON', 'PSY'}"
  | None => Return v
  end.

End StudentCreate.

(** ** [class ETLPipeline] *)

Module ETLPipeline.
Import Transform DatabaseLoader.

(** What the four methods of [DataExtractor] answer for a source. *)
Record extractor := Extractor {
  extract_csv : string -> result table;
  extract_json : string -> result table;
  extract_from_url : string -> result table;
  extract_google_sheet : string -> result table
}.

(** What the connection string leads to. *)
Inductive store :=
| NoConnectionString            (* none passed and no DATABASE_URL *)
| Unreachable                   (* [test_connection()] answers False *)
| Reachable (db : Db.database).

(** Everything outside the process that one [run()] reads. *)
Record world := World {
  sources : extractor;
  database : store;
  clock_at_start : Z;           (* first [datetime.now()], in microseconds *)
  clock_at_end : Z;             (* second [datetime.now()] *)
  current_timestamp : Z
}.

(** An entry of [pipeline_stats['errors']]. *)
Record phase_error := PhaseError {
  phase : string;
  error : string
}.

(** The dictionary [pipeline_stats], which [run()] returns. *)
Record pipeline_stats := PipelineStats {
  start_time : option Z;
  end_time : option Z;
  duration : option Q;
  extract_count : nat;
  transform_count : nat;
  validation_error_count : option nat;
  load_stats : option stats;
  errors : list phase_error
}.

(** The object.  [log] keeps the lines the logger receives that mark a
    phase: its start and its failure. *)
Record pipeline := Pipeline {
  data_source : string;
  source_type : string;
  transformer : Transform.transformer;
  raw_data : option table;
  transformed_data : option table;
  stats : pipeline_stats;
  log : list string
}.

(** [ETLPipeline(data_source, source_type)] *)
Definition init (data_source source_type : string) : pipeline :=
  Pipeline data_source source_type (Transformer [] []) None None
    (PipelineStats None None None 0 0 None None []) [].

Definition with_log (line : string) (p : pipeline) : pipeline :=
  Pipeline (data_source p) (source_type p) (transformer p) (raw_data p)
    (transformed_data p) (stats p) (log p ++ [line]).

Definition with_stats (s : pipeline_stats) (p : pipeline) : pipeline :=
  Pipeline (data_source p) (source_type p) (transformer p) (raw_data p)
    (transformed_data p) s (log p).

Definition add_error (ph e : string) (s : pipeline_stats) : pipeline_stats :=
  PipelineStats (start_time s) (end_time s) (duration s) (extract_count s)
    (transform_count s) (validation_error_count s) (load_stats s)
    (errors s ++ [PhaseError ph e]).

(** The extractor call [extract()] makes for the source type. *)
Definition read_source (w : world) (p : pipeline) : result table :=
  if String.eqb (source_type p) "csv" then extract_csv (sources w) (data_source p)
  else if String.eqb (source_type p) "json" then extract_json (sources w) (data_source p)
  else if String.eqb (source_type p) "url" then extract_from_url (sources w) (data_source p)
  else if String.eqb (source_type p) "google_sheet"
       then extract_google_sheet (sources w) (data_source p)
  else Raise ("Unknown source type: " +:+ source_type p).

(** [extract()] *)
Definition extract (w : world) (p : pipeline) : pipeline * bool :=
  let p := with_log "EXTRACT PHASE STARTED" p in
  match read_source w p with
  | Return df =>
      let s := stats p in
      let s := PipelineStats (start_time s) (end_time s) (duration s)
                 (length (rows df)) (transform_count s)
                 (validation_error_count s) (load_stats s) (errors s) in
      (Pipeline (data_source p) (source_type p) (transformer p) (Some df)
         (transformed_data p) s (log p), true)
  | Raise e =>
      let p := with_log ("EXTRACT FAILED: " +:+ e) p in
      (with_stats (add_error "extract" e (stats p)) p, false)
  end.

(** The loop over [validation_report['errors'][:10]] reads
    [error['row']]; the entries [cast_types] appends have no such key. *)
Definition has_row (e : validation_error) : bool :=
  match e with
  | RowError _ _ _ _ => true
  | ColumnError _ _ => false
  end.

(** [transform()].  The frame and the counts are stored before the first
    validation errors are logged, so the KeyError of that loop leaves
    them stored. *)
Definition transform (p : pipeline) : pipeline * bool :=
  let p := with_log "TRANSFORM PHASE STARTED" p in
  match raw_data p with
  | None => (p, false)
  | Some raw =>
      match transform_students raw with
      | (t, Return df) =>
          let '(total_errors, reported, _) := get_validation_report t in
          let s := stats p in
          let s := PipelineStats (start_time s) (end_time s) (duration s)
                     (extract_count s) (length (rows df))
                     (Some total_errors) (load_stats s) (errors s) in
          let p := Pipeline (data_source p) (source_type p) t (raw_data p)
                     (Some df) s (log p) in
          if forallb has_row (firstn 10 reported) then (p, true)
          else
            let p := with_log "TRANSFORM FAILED: 'row'" p in
            (with_stats (add_error "transform" "'row'" (stats p)) p, false)
      | (t, Raise e) =>
          let p := Pipeline (data_source p) (source_type p) t (raw_data p)
                     (transformed_data p) (stats p)
                     (log p ++ ["TRANSFORM FAILED: " +:+ e]) in
          (with_stats (add_error "transform" e (stats p)) p, false)
      end
  end.

Definition load_failed (e : string) (p : pipeline) : pipeline :=
  let p := with_log ("LOAD FAILED: " +:+ e) p in
  with_stats (add_error "load" e (stats p)) p.

(** [load()]: the pipeline and the store afterwards, and the answer. *)
Definition load (w : world) (p : pipeline) : pipeline * store * bool :=
  let p := with_log "LOAD PHASE STARTED" p in
  match transformed_data p with
  | None => (p, database w, false)
  | Some df =>
      if Nat.eqb (length (rows df)) 0 then (p, database w, false)
      else
        match database w with
        | NoConnectionString =>
            (load_failed ("Database connection string not provided. "
                          +:+ "Set DATABASE_URL environment variable or pass connection_string.")
                         p,
             database w, false)
        | Unreachable =>
            (load_failed "Database connection test failed" p, database w, false)
        | Reachable db =>
            match load_students_batch (current_timestamp w) db df 100 with
            | (db', Return st) =>
                let s := stats p in
                let s := PipelineStats (start_time s) (end_time s) (duration s)
                           (extract_count s) (transform_count s)
                           (validation_error_count s) (Some st) (errors s) in
                (with_stats s p, Reachable db', Nat.eqb (failed st) 0)
            | (db', Raise e) => (load_failed e p, Reachable db', false)
            end
        end
  end.

Definition set_start (t : Z) (s : pipeline_stats) : pipeline_stats :=
  PipelineStats (Some t) (end_time s) (duration s) (extract_count s)
    (transform_count s) (validation_error_count s) (load_stats s) (errors s).

(** The two assignments after the phases; [total_seconds()] of the
    difference of two readings in microseconds. *)
Definition set_end (t : Z) (s : pipeline_stats) : pipeline_stats :=
  let elapsed :=
    match start_time s with
    | Some t0 => Some (Qmake (t - t0) 1000000)
    | None => None
    end in
  PipelineStats (start_time s) (Some t) elapsed (extract_count s)
    (transform_count s) (validation_error_count s) (load_stats s) (errors s).

(** [run()]: the object and the store afterwards; the returned dictionary
    is [stats] of the object. *)
Definition run (w : world) (p : pipeline) : pipeline * store :=
  let p := with_stats (set_start (clock_at_start w) (stats p)) p in
  let '(p, extract_success) := extract w p in
  let '(p, transform_success) :=
    if extract_success then transform p else (p, false) in
  let '(p, db, load_success) :=
    if transform_success then load w p else (p, database w, false) in
  let p := with_stats (set_end (clock_at_end w) (stats p)) p in
  (p, db).

(** [run_extract_transform()] *)
Definition run_extract_transform (w : world) (p : pipeline) : pipeline :=
  let p := with_stats (set_start (clock_at_start w) (stats p)) p in
  let '(p, extract_success) := extract w p in
  let p := if extract_success then fst (transform p) else p in
  with_stats (set_end (clock_at_end w) (stats p)) p.

(** A phase leaves the start time alone and only appends to the errors. *)
Definition extends (p p' : pipeline) : Prop :=
  start_time (stats p') = start_time (stats p)
  /\ exists new, errors (stats p') = errors (stats p) ++ new.

End ETLPipeline.

(** ** Quantities and sample data the statements use *)

Module Measures.
Import DataTransformer Transform.

Definition is_absent (v : option string) : bool :=
  match v with
  | None => true
  | Some _ => false
  end.

Definition invalid_email (r : row) : bool := negb (validate_email (email r)).

(** The rows whose email fails validation once step 1 has normalised it. *)
Definition invalid_email_rows (df : table) : Z :=
  Z.of_nat (length (select invalid_email (clean_strings df (rows df)))).

(** The frame as step 7 leaves it. *)
Definition deduplicated (df : table) : list (Z * row) :=
  fst (remove_duplicates df (fst (validate_rows df))).

(** The frame as the first pass of step 7, on emails, leaves it. *)
Definition deduplicated_by_email (df : table) : list (Z * row) :=
  fst (deduplicate email (fst (validate_rows df))).

(** The rows without an email, and those without a student code. *)
Definition without_email (rs : list (Z * row)) : list (Z * row) :=
  select (fun r => is_absent (email r)) rs.

Definition without_code (rs : list (Z * row)) : list (Z * row) :=
  select (fun r => is_absent (student_code r)) rs.

(** The rows step 7 removes. *)
Definition removed_by_deduplication (df : table) : Z :=
  Z.of_nat (length (fst (validate_rows df))) - Z.of_nat (length (deduplicated df)).

(** The rows with an invalid email that step 7 leaves for step 8. *)
Definition invalid_after_deduplication (df : table) : Z :=
  Z.of_nat (length (select invalid_email (deduplicated df))).


(** [f] where the column is present. *)
Definition cond (b : bool) (f : row -> row) (r : row) : row :=
  if b then f r else r.

(** Whether [astype('Int64')] accepts the graduation years of the frame. *)
Definition years_integral (df : table) : bool :=
  forallb (fun ir => is_integral (graduation_year (snd ir))) (rows df).

(** What steps 1 to 6 make of one row of the frame [df]. *)
Definition cleaned_row (df : table) (r : row) : row :=
  let r := cond (has_column df "first_name")
             (fun r => set_first_name (normalize_name (first_name r)) r) r in
  let r := cond (has_column df "last_name")
             (fun r => set_last_name (normalize_name (last_name r)) r) r in
  let r := cond (has_column df "email")
             (fun r => set_email (normalize_email (email r)) r) r in
  let r := cond (has_column df "gpa")
             (fun r => set_gpa (coerce_gpa (gpa r)) r) r in
  let r := cond (has_column df "gender")
             (fun r => set_gender (normalize_gender (gender r)) r) r in
  let r := cond (has_column df "graduation_year" && years_integral df)
             (fun r => set_graduation_year (to_Int64 (graduation_year r)) r) r in
  let r := cond (has_column df "gpa")
             (fun r => set_gpa (to_numeric (gpa r)) r) r in
  cond (has_column df "date_of_birth")
    (fun r => set_date_of_birth (to_date (date_of_birth r)) r) r.

End Measures.

Module LoadMeasures.
Import Db DatabaseLoader.

(** [COALESCE] on a parameter that may be [NULL], read as a relation
    between the parameter, the stored value and the value stored
    afterwards. *)
Definition merged {A} (param old new : option A) : Prop :=
  match param with
  | Some v => new = Some v
  | None => new = old
  end.

(** [COALESCE] on a number and on a date that was sent: only [NULL]
    keeps the stored value. *)
Definition merged_number (param : py_number) (old new : number) : Prop :=
  match param with
  | PyNone => new = old
  | PyNaN => new = NaN
  | PyNA => False
  | PyNumber x => new = Number x
  | PyText s => new = NumberText s
  end.

Definition merged_date (param old new : date_value) : Prop :=
  match param with
  | NoDate => new = old
  | _ => new = param
  end.

(** What the [UPDATE] of [upsert_student] does to a stored row [s],
    giving [s']: the row with the matched id keeps its id, its keys and
    its status, and each other column is merged with what the record
    holds for it; every other row is left alone. *)
Definition student_updated (now : Z) (db : database) (data : student_data)
    (sid : Z) (s s' : student) : Prop :=
  if (student_id s =? sid)%Z then
    student_id s' = student_id s
    /\ student_code s' = student_code s
    /\ email s' = email s
    /\ status s' = status s
    /\ updated_at s' = Some now
    /\ merged (sd_first_name data) (first_name s) (first_name s')
    /\ merged (sd_last_name data) (last_name s) (last_name s')
    /\ merged (sd_gender data) (gender s) (gender s')
    /\ merged (sd_phone data) (phone s) (phone s')
    /\ merged (get_department_id db (sd_department_code data))
              (department_id s) (department_id s')
    /\ merged_date (sd_date_of_birth data) (date_of_birth s) (date_of_birth s')
    /\ merged_number (sd_graduation_year data) (graduation_year s)
                     (graduation_year s')
    /\ merged_number (sd_gpa data) (gpa s) (gpa s')
  else s' = s.

(** What the [DO UPDATE] of [upsert_course] does to a stored course. *)
Definition course_overwritten (now : Z) (data : course_data) (c c' : course) : Prop :=
  if same_course data c then
    course_id c' = course_id c
    /\ course_code c' = course_code c
    /\ course_department_id c' = course_department_id c
    /\ course_name c' = cd_course_name data
    /\ credits c' = cd_credits data
    /\ max_enrollment c' = max_enrollment_of data
    /\ course_updated_at c' = Some now
  else c' = c.

(** The entry [stats['errors']] gets for a record upserted in an aborted
    transaction. *)
Definition ignored (ir : Z * student_data) : load_error :=
  LoadError (fst ir) (sd_email (snd ir)) in_failed_transaction.

End LoadMeasures.

Module Samples.
Import Db DatabaseLoader.

Definition student_columns : list string :=
  [ "student_code"; "first_name"; "last_name"; "email"; "date_of_birth";
    "gender"; "phone"; "department_code"; "graduation_year"; "gpa" ].

Definition applicant (code : string) (mail : option string) (g : scalar) : row :=
  Row (Some code) (Some "Ada") (Some "Lovelace") mail DNull (Some "Female")
      None (Some "CS") (SNum 2027) g.

(** One good row and two rows with the same unusable email. *)
Definition shared_bad_email : table :=
  Table student_columns
    [ (0, applicant "STU100" (Some "ada@university.edu") (SNum (7 # 2)));
      (1, applicant "STU101" (Some "not-an-email") SNull);
      (2, applicant "STU102" (Some "not-an-email") SNull) ].

(** Four rows of which the last three have no student code, and the
    second repeats the email of the first. *)
Definition late_code_less : table :=
  Table student_columns
    [ (0, applicant "STU100" (Some "a@university.edu") SNull);
      (1, Row None (Some "Bob") (Some "Ray") (Some "A@University.edu ") DNull
              None None None SNull SNull);
      (2, Row None (Some "Cy") (Some "Ray") (Some "c@university.edu") DNull
              None None None SNull SNull);
      (3, Row None (Some "Dan") (Some "Poe") (Some "d@university.edu") DNull
              None None None SNull SNull) ].

(** Rows with the GPAs 5.0, -1.0, unparseable text, and 3.5. *)
Definition gpa_rows : table :=
  Table student_columns
    [ (0, applicant "STU100" (Some "a@university.edu") (SNum 5));
      (1, applicant "STU101" (Some "b@university.edu") (SNum (-1)));
      (2, applicant "STU102" (Some "c@university.edu") (SText "n/a"));
      (3, applicant "STU103" (Some "d@university.edu") (SNum (7 # 2))) ].

(** Tables with one department and a NOT NULL first name. *)
Definition first_name_required (s : Db.student) : option string :=
  match Db.first_name s with
  | Some _ => None
  | None => Some "null value in column first_name violates not-null constraint"
  end.

Definition campus : database :=
  Database {[ "CS" := 1 ]} [] 1 first_name_required [] 1 (fun _ => None).

Definition numbered (with_name : bool) (i : Z) : Z * row :=
  (i, Row (Some ("STU" +:+ pretty i))
          (if with_name then Some "Ada" else None) (Some "Lovelace")
          (Some ("s" +:+ pretty i +:+ "@university.edu"))
          (DDate 11823) (Some "Female") (Some "555-0100-0000") (Some "CS")
          (SNum 2027) (SNum (7 # 2))).

(** Ten records, labelled 0 to 9, with every cell present but the first
    name of the one labelled 5. *)
Definition ten_students : table :=
  Table student_columns
    (map (fun i => numbered (negb (i =? 5)%Z) i) [0; 1; 2; 3; 4; 5; 6; 7; 8; 9]).

(** Five raw rows of which the second and the fourth repeat an email. *)
Definition five_with_repeats : table :=
  Table student_columns
    [ (0, applicant "STU100" (Some "a@university.edu") SNull);
      (1, applicant "STU101" (Some "A@University.edu") SNull);
      (2, applicant "STU102" (Some "c@university.edu") SNull);
      (3, applicant "STU103" (Some " c@university.edu") SNull);
      (4, applicant "STU104" (Some "e@university.edu") SNull) ].

(** Tables that hold one student and one course. *)
Definition enrolled : database :=
  Database {[ "CS" := 1; "MATH" := 2 ]}
    [ Student 7 (Some "STU100") (Some "Ada") (Some "Lovelace")
        (Some "ada@university.edu") (Date 11823) (Some "Female")
        (Some "555-0100-0000") (Some 1) (Number 2027) (Number (7 # 2))
        "Active" None ]
    8 first_name_required
    [ Course 3 (Some "CS101") (Some "Programming") (SNum 4) 1 (SNum 40) None ]
    4 (fun _ => None).

(** The record of a row with the same student code under another email
    and another name, with the first name, the gender, the phone and the
    GPA absent and a department the store does not know. *)
Definition partial_update : student_data :=
  to_dict (Table student_columns [])
    (Row (Some "STU100") None (Some "Byron") (Some "ada.byron@university.edu")
         (DDate 11823) None None (Some "HIST") (SNum 2028) SNull).

(** The course again, with an absent name and no [max_enrollment] key. *)
Definition course_again : course_data :=
  CourseData (Some "CS101") None (SNum 3) (Some "CS") None.

(** A world whose CSV file does not exist, as seen by a fresh pipeline. *)
Definition nothing_to_read : ETLPipeline.extractor :=
  ETLPipeline.Extractor
    (fun path => Raise ("CSV file not found: " +:+ path))
    (fun path => Raise ("JSON file not found: " +:+ path))
    (fun url => Raise "Connection refused")
    (fun sheet => Raise "Connection refused").

Definition missing_file : ETLPipeline.world :=
  ETLPipeline.World nothing_to_read (ETLPipeline.Reachable campus) 0 2500000 0.

(** A world whose CSV file has no email column. *)
Definition codes_only : table :=
  Table [ "student_code"; "gpa" ]
    [ (0, Row (Some "STU100") None None None DNull None None None SNull (SNum 3)) ].

Definition no_email_column : ETLPipeline.world :=
  ETLPipeline.World
    (ETLPipeline.Extractor (fun _ => Return codes_only)
       (fun path => Raise ("JSON file not found: " +:+ path))
       (fun url => Raise "Connection refused")
       (fun sheet => Raise "Connection refused"))
    (ETLPipeline.Reachable campus) 0 2500000 0.

(** A world whose CSV file holds one good row but for a graduation year
    with a fractional part. *)
Definition half_year : table :=
  Table student_columns
    [ (0, Row (Some "STU100") (Some "Ada") (Some "Lovelace")
              (Some "ada@university.edu") (DDate 11823) (Some "Female")
              (Some "555-0100-0000") (Some "CS") (SNum (4055 # 2)) (SNum (7 # 2))) ].

Definition fractional_year : ETLPipeline.world :=
  ETLPipeline.World
    (ETLPipeline.Extractor (fun _ => Return half_year)
       (fun path => Raise ("JSON file not found: " +:+ path))
       (fun url => Raise "Connection refused")
       (fun sheet => Raise "Connection refused"))
    (ETLPipeline.Reachable campus) 0 2500000 0.

Definition students_csv : ETLPipeline.pipeline :=
  ETLPipeline.init "data/sample_students.csv" "csv".

End Samples.

(** ** [class DatabaseLoader]: enrollments *)

Module Enrollments.
Import Db DatabaseLoader.

(** A row of [enrollments], with the columns the loader reads or writes. *)
Record enrollment := Enrollment {
  enrolled_student : Z;
  enrolled_course : Z;
  grade : scalar;
  enrollment_status : string;
  enrollment_updated_at : option Z
}.

(** The tables of [Db.database] together with [enrollments] and what the
    schema declares on its rows. *)
Record registry := Registry {
  tables : database;
  enrollments : list enrollment;
  enrollments_check : enrollment -> option string
}.

Definition with_enrollments (l : list enrollment) (reg : registry) : registry :=
  Registry (tables reg) l (enrollments_check reg).

(** The dictionary [upsert_enrollment] receives, of a frame that has the
    columns [student_code] and [course_code].  [data.get("grade")] reads
    a missing key as None, which is the absent cell. *)
Record enrollment_data := EnrollmentData {
  ed_student_code : option string;
  ed_course_code : option string;
  ed_grade : scalar
}.

(** [ON CONFLICT (student_id, course_id)] *)
Definition same_enrollment (student_id' course_id' : Z) (e : enrollment) : bool :=
  (enrolled_student e =? student_id')%Z && (enrolled_course e =? course_id')%Z.

(** [DO UPDATE SET grade = EXCLUDED.grade, updated_at = CURRENT_TIMESTAMP] *)
Definition regrade (now : Z) (data : enrollment_data) (e : enrollment) : enrollment :=
  Enrollment (enrolled_student e) (enrolled_course e) (ed_grade data)
    (enrollment_status e) (Some now).

(** [upsert_enrollment(cursor, data)]: the tables afterwards and the
    returned pair [(success, message)]. *)
Definition upsert_enrollment (now : Z) (reg : registry) (data : enrollment_data)
    : registry * (bool * string) :=
  match List.find (fun s => sql_eq (ed_student_code data) (student_code s))
                  (students (tables reg)) with
  | None => (reg, (false, "Student not found"))
  | Some student =>
      match List.find (fun c => sql_eq (ed_course_code data) (course_code c))
                      (courses (tables reg)) with
      | None => (reg, (false, "Course not found"))
      | Some course =>
          let same := same_enrollment (student_id student) (course_id course) in
          if existsb same (enrollments reg) then
            let written := map (regrade now data) (List.filter same (enrollments reg)) in
            match first_violation (enrollments_check reg) written with
            | Some e => (reg, (false, e))
            | None =>
                let enrollments' :=
                  map (fun e => if same e then regrade now data e else e)
                      (enrollments reg) in
                (with_enrollments enrollments' reg, (true, "upserted"))
            end
          else
            let e := Enrollment (student_id student) (course_id course)
                       (ed_grade data) "Enrolled" None in
            match enrollments_check reg e with
            | Some err => (reg, (false, err))
            | None => (with_enrollments (enrollments reg ++ [e]) reg, (true, "upserted"))
            end
      end
  end.

End Enrollments.

(** ** [etl.py]: [main] *)

Module Cli.
Import ETLPipeline.

(** The values [--type] accepts; argparse leaves the process on any
    other. *)
Inductive source_choice := Csv | Json | Url | GoogleSheet.

Definition choice_name (c : source_choice) : string :=
  match c with
  | Csv => "csv"
  | Json => "json"
  | Url => "url"
  | GoogleSheet => "google_sheet"
  end.

(** The parsed arguments that reach the pipeline.  [--connection] and
    DATABASE_URL decide the [database] of the world; [--verbose] only
    sets the level of the logger. *)
Record arguments := Args {
  arg_source : string;
  arg_type : source_choice;
  arg_dry_run : bool
}.

(** [main()]: the summary it prints from, the store afterwards, and the
    returned exit status. *)
Definition main (w : world) (args : arguments) : pipeline_stats * store * Z :=
  let pipeline := init (arg_source args) (choice_name (arg_type args)) in
  let '(summary, db) :=
    if arg_dry_run args
    then (stats (run_extract_transform w pipeline), database w)
    else let '(p, db) := run w pipeline in (stats p, db) in
  (summary, db, match errors summary with [] => 0 | _ :: _ => 1 end).

End Cli.


(** ** Shapes of text the statements on the normalisers use *)

Module TextShapes.
Import Text.

(** Text in which every white space is one blank between two other
    characters: [after_space] tells whether the character before was a
    blank (or the text starts here). *)
Fixpoint single_spaced (after_space : bool) (s : list ascii) : bool :=
  match s with
  | [] => negb after_space
  | c :: s' =>
      if is_space c
      then Ascii.eqb c " "%char && negb after_space && single_spaced true s'
      else single_spaced false s'
  end.

(** Non-empty text without white space at either end and with single
    blanks inside. *)
Definition tidy (s : list ascii) : bool := single_spaced true s.

(** The three character classes of [EMAIL_PATTERN], by name. *)
Definition local_char (c : ascii) : bool := is_alnum c || one_of "._%+-" c.
Definition domain_char (c : ascii) : bool := is_alnum c || one_of ".-" c.

(** No lower-case letter right after a character that is not a letter,
    nor at the start: what [str.title] leaves. *)
Fixpoint title_cased (previous_is_cased : bool) (s : list ascii) : bool :=
  match s with
  | [] => true
  | c :: s' =>
      (if previous_is_cased then negb (is_upper c) else negb (is_lower c))
      && title_cased (is_alpha c) s'
  end.

(** A repetition count within the upper bound of an atom. *)
Definition within (hi : option nat) (n : nat) : Prop :=
  match hi with
  | Some h => (n <= h)%nat
  | None => True
  end.

Definition space_free (s : list ascii) : bool :=
  forallb (fun c => negb (is_space c)) s.

(** A value whose characters are all ASCII, the text on which [lower] and
    [title] are [str.lower] and [str.title]. *)
Definition ascii_text (v : option string) : bool :=
  match v with
  | None => true
  | Some s => forallb (fun c => (code c <? 128)%N) (list_ascii_of_string s)
  end.

End TextShapes.


(** ** Quantities the statements on the whole transformer use *)

Module TransformMeasures.
Import Text DataTransformer Transform Measures.

(** The first row of a frame that carries the value [k] under [key]. *)
Definition first_with (key : row -> option string) (k : option string)
    (rs : list (Z * row)) : option (Z * row) :=
  List.find (fun x => bool_decide (key (snd x) = k)) rs.

(** A row as far as the removal of rows can see it: its label, its email
    and its student code. *)
Definition identity_of (ir : Z * row) : Z * option string * option string :=
  (fst ir, email (snd ir), student_code (snd ir)).

(** The cells the transformer never writes. *)
Definition untouched (r : row) : option string * option string * option string :=
  (student_code r, phone r, department_code r).

Definition not_text (v : scalar) : bool :=
  match v with
  | SText _ => false
  | _ => true
  end.

(** What steps 1, 1 to 3 and 1 to 5 make of one row of the frame [df]:
    the rows the reports of steps 2 and 3, of step 4 and of step 5 read. *)
Definition after_step1 (df : table) (r : row) : row :=
  let r := cond (has_column df "first_name")
             (fun r => set_first_name (normalize_name (first_name r)) r) r in
  let r := cond (has_column df "last_name")
             (fun r => set_last_name (normalize_name (last_name r)) r) r in
  cond (has_column df "email")
    (fun r => set_email (normalize_email (email r)) r) r.

Definition after_step3 (df : table) (r : row) : row :=
  cond (has_column df "gpa")
    (fun r => set_gpa (coerce_gpa (gpa r)) r) (after_step1 df r).

Definition after_step5 (df : table) (r : row) : row :=
  cond (has_column df "gender")
    (fun r => set_gender (normalize_gender (gender r)) r) (after_step3 df r).

End TransformMeasures.


(** ** Shapes of the store the statements on the loader use *)

Module StoreShapes.
Import Db DatabaseLoader.

(** The values of a column that are not NULL, in storage order. *)
Fixpoint present {A} (l : list (option A)) : list A :=
  match l with
  | [] => []
  | Some x :: l' => x :: present l'
  | None :: l' => present l'
  end.

(** What PRIMARY KEY and UNIQUE give on [students]: ids are distinct and
    were all drawn from the sequence, and no two rows share an email or a
    student code. *)
Definition students_sound (db : database) : Prop :=
  List.NoDup (map student_id (students db))
  /\ Forall (fun s => student_id s < next_student_id db) (students db)
  /\ List.NoDup (present (map email (students db)))
  /\ List.NoDup (present (map student_code (students db))).

(** The same on [courses]. *)
Definition courses_sound (db : database) : Prop :=
  List.NoDup (map course_id (courses db))
  /\ Forall (fun c => course_id c < next_course_id db) (courses db)
  /\ List.NoDup (present (map course_code (courses db))).

(** The stored students a record matches, by either key, are at most
    one: which row the [SELECT] of [upsert_student] returns is then not
    open. *)
Definition one_match (db : database) (student_data : student_data) : Prop :=
  forall s1 s2,
    In s1 (students db) -> In s2 (students db) ->
    same_student student_data s1 = true ->
    same_student student_data s2 = true ->
    student_id s1 = student_id s2.

(** No stored student matches any of the records. *)
Definition unmatched (db : database) (rs : list (Z * student_data)) : Prop :=
  forall s ir,
    In s (students db) -> In ir rs -> same_student (snd ir) s = false.

(** A stored student without the time of its last update. *)
Definition forget_time (s : student) : student :=
  Student (student_id s) (student_code s) (first_name s) (last_name s)
    (email s) (date_of_birth s) (gender s) (phone s) (department_id s)
    (graduation_year s) (gpa s) (status s) None.

(** A record with its department code erased when the store does not
    know the code. *)
Definition erase_unknown_department (db : database) (r : student_data)
    : student_data :=
  match get_department_id db (sd_department_code r) with
  | Some _ => r
  | None =>
      StudentData (sd_student_code r) (sd_first_name r) (sd_last_name r)
        (sd_email r) (sd_date_of_birth r) (sd_gender r) (sd_phone r) None
        (sd_graduation_year r) (sd_gpa r)
  end.

End StoreShapes.

(** ** Shapes of the enrollments the statements use *)

Module EnrollmentShapes.
Import Db DatabaseLoader Enrollments.

(** What the foreign keys and the UNIQUE constraint give on
    [enrollments]: each row names a stored student and a stored course,
    and no two rows name the same pair. *)
Definition enrollments_sound (reg : registry) : Prop :=
  Forall (fun e => In (enrolled_student e) (map student_id (students (tables reg)))
                   /\ In (enrolled_course e) (map course_id (courses (tables reg))))
         (enrollments reg)
  /\ List.NoDup (map (fun e => (enrolled_student e, enrolled_course e))
                     (enrollments reg)).

End EnrollmentShapes.

(** ** The ways a run ends *)

Module RunMeasures.
Import Transform DatabaseLoader ETLPipeline.

(** What [run()] makes of a fresh pipeline, by the phase that ends it:
    the report and the store it leaves. *)
Inductive ending (w : world) (src ty : string) : pipeline_stats -> store -> Prop :=
| ends_in_extract e s :
    read_source w (init src ty) = Raise e ->
    extract_count s = 0%nat -> transform_count s = 0%nat ->
    load_stats s = None -> errors s = [PhaseError "extract" e] ->
    ending w src ty s (database w)
| ends_in_transform df t e s :
    read_source w (init src ty) = Return df ->
    transform_students df = (t, Raise e) ->
    extract_count s = length (rows df) -> transform_count s = 0%nat ->
    load_stats s = None -> errors s = [PhaseError "transform" e] ->
    ending w src ty s (database w)
| ends_in_report df t out s :
    read_source w (init src ty) = Return df ->
    transform_students df = (t, Return out) ->
    forallb has_row (firstn 10 (validation_errors t)) = false ->
    extract_count s = length (rows df) ->
    transform_count s = length (rows out) ->
    load_stats s = None -> errors s = [PhaseError "transform" "'row'"] ->
    ending w src ty s (database w)
| ends_before_load df t out s :
    read_source w (init src ty) = Return df ->
    transform_students df = (t, Return out) ->
    forallb has_row (firstn 10 (validation_errors t)) = true ->
    rows out = [] ->
    extract_count s = length (rows df) -> transform_count s = 0%nat ->
    load_stats s = None -> errors s = [] ->
    ending w src ty s (database w)
| ends_without_store df t out e s :
    read_source w (init src ty) = Return df ->
    transform_students df = (t, Return out) ->
    forallb has_row (firstn 10 (validation_errors t)) = true ->
    rows out <> [] ->
    (forall db, database w <> Reachable db) ->
    extract_count s = length (rows df) ->
    transform_count s = length (rows out) ->
    load_stats s = None -> errors s = [PhaseError "load" e] ->
    ending w src ty s (database w)
| ends_loaded df t out db db' st s :
    read_source w (init src ty) = Return df ->
    transform_students df = (t, Return out) ->
    forallb has_row (firstn 10 (validation_errors t)) = true ->
    rows out <> [] ->
    database w = Reachable db ->
    load_students_batch (current_timestamp w) db out 100 = (db', Return st) ->
    extract_count s = length (rows df) ->
    transform_count s = length (rows out) ->
    load_stats s = Some st -> errors s = [] ->
    ending w src ty s (Reachable db').

End RunMeasures.

(** ** More sample data *)

Module MoreSamples.

(** The rows of [Samples.gpa_rows] with other names, genders, departments,
    years and GPAs: the labels, emails and student codes are the same. *)
Definition gpa_rows_otherwise : table :=
  Table Samples.student_columns
    [ (0, Row (Some "STU100") None None (Some "a@university.edu") (DText "soon")
              (Some "prefer not to say") None (Some "HIST") (SText "later") SNull);
      (1, Row (Some "STU101") (Some "bob") None (Some "b@university.edu") DNull
              None (Some "12") None (SNum (4051 # 2)) (SNum 9));
      (2, Row (Some "STU102") None None (Some "c@university.edu") DNull
              (Some "x") None (Some "cs") SNull (SNum (1 # 3)));
      (3, Row (Some "STU103") None None (Some "d@university.edu") DNull
              None None None SNull (SText "?")) ].

(** A term with the student and the course of [Samples.enrolled] and no
    enrollment yet. *)
Definition term : Enrollments.registry :=
  Enrollments.Registry Samples.enrolled [] (fun _ => None).

Definition ada_in_programming : Enrollments.enrollment_data :=
  Enrollments.EnrollmentData (Some "STU100") (Some "CS101") (SText "A").

End MoreSamples.

(** ** Properties *)

Module Properties.
Import Text DataTransformer Transform Measures.

(** *** The enumerations shared with the request layer *)

(** C8: the department codes and the gender values the transformer
    validates against are the very sets the field validators of
    [StudentCreate] use. *)
Theorem shared_enumerations :
  VALID_DEPARTMENTS = StudentCreate.valid_depts
  /\ VALID_GENDERS = StudentCreate.valid_genders.
Proof. split; reflexivity. Qed.

(** *** [validate_phone] *)

(** C6, at the input ["(555) 123-4567"]: the class removed before the
    digit test holds a dollar sign where the parentheses were meant, so
    the parentheses stay and the number is refused, although what is left
    once white space, parentheses, dashes and plus signs go is the ten
    digits [5551234567]; the same number without parentheses is
    accepted. *)
Theorem validate_phone_keeps_parentheses :
  remove_class phone_formatting (list_ascii_of_string "(555) 123-4567")
    = list_ascii_of_string "(555)1234567"
  /\ validate_phone (Some "(555) 123-4567") = false
  /\ validate_phone (Some "555 123-4567") = true
  /\ validate_phone (Some "$555 123-4567") = true.
Proof. repeat split; vm_compute; reflexivity. Qed.

(** *** Deduplication *)

Lemma select_absent_drop_duplicates_from key seen rs :
  select (fun r => is_absent (key r)) (drop_duplicates_from seen key rs)
  = if bool_decide (None ∈ seen) then []
    else firstn 1 (select (fun r => is_absent (key r)) rs).
Proof.
  revert seen. induction rs as [|ir rs IH]; intros seen; simpl.
  - by case_bool_decide.
  - destruct (key (snd ir)) as [k|] eqn:Hk; simpl.
    + case_bool_decide as Hin; simpl; rewrite ?Hk; simpl; rewrite IH.
      * done.
      * by rewrite (bool_decide_ext (None ∈ Some k :: seen) (None ∈ seen))
          by (rewrite elem_of_cons; intuition discriminate).
    + case_bool_decide as Hin; simpl; rewrite ?Hk; simpl; rewrite IH.
      * by rewrite bool_decide_true.
      * rewrite bool_decide_true; [done | set_solver].
Qed.

(** *** The shape of [transform_students] *)

Lemma cond_apply_rows (b : bool) f rs :
  (if b then apply_rows f rs else rs) = apply_rows (cond b f) rs.
Proof.
  destruct b; [reflexivity|].
  unfold apply_rows, cond. induction rs as [|[i r] rs IH]; simpl; [done|].
  by rewrite <- IH.
Qed.

Lemma apply_rows_compose f g rs :
  apply_rows g (apply_rows f rs) = apply_rows (fun r => g (f r)) rs.
Proof. unfold apply_rows. rewrite map_map. reflexivity. Qed.

Lemma apply_rows_labels f rs : map fst (apply_rows f rs) = map fst rs.
Proof. unfold apply_rows. rewrite map_map. reflexivity. Qed.

Lemma apply_rows_length f rs : length (apply_rows f rs) = length rs.
Proof. unfold apply_rows. apply length_map. Qed.

Lemma in_apply_rows f rs i r' :
  In (i, r') (apply_rows f rs) <-> exists r, In (i, r) rs /\ r' = f r.
Proof.
  unfold apply_rows. rewrite in_map_iff. split.
  - intros [[j r] [H Hin]]. simpl in H. inversion H; subst. eauto.
  - intros [r [Hin ->]]. exists (i, r). auto.
Qed.

Lemma forallb_apply_rows (P : row -> bool) f rs :
  (forall r, P (f r) = P r) ->
  forallb (fun ir => P (snd ir)) (apply_rows f rs)
  = forallb (fun ir => P (snd ir)) rs.
Proof.
  intros H. unfold apply_rows. induction rs as [|[i r] rs IH]; simpl; [done|].
  by rewrite H, IH.
Qed.

(** Steps 1 to 6 rewrite each row on its own and drop none. *)
Lemma validate_rows_rows df :
  fst (validate_rows df) = apply_rows (cleaned_row df) (rows df).
Proof.
  unfold validate_rows, cast_types, clean_strings.
  rewrite !cond_apply_rows, !apply_rows_compose.
  rewrite (forallb_apply_rows (fun r => is_integral (graduation_year r))).
  2:{ intros r. unfold cond.
      repeat match goal with |- context [if ?b then _ else _] => destruct b end;
        reflexivity. }
  fold (years_integral df). unfold cleaned_row.
  destruct (has_column df "graduation_year"), (years_integral df); simpl;
    rewrite !cond_apply_rows, !apply_rows_compose; reflexivity.
Qed.

Lemma cleaned_row_email df r :
  email (cleaned_row df r)
  = if has_column df "email" then normalize_email (email r) else email r.
Proof.
  unfold cleaned_row, cond.
  repeat match goal with |- context [if ?b then _ else _] => destruct b end;
    reflexivity.
Qed.

Lemma to_numeric_coerce_gpa v : to_numeric (coerce_gpa v) = coerce_gpa v.
Proof.
  destruct v as [|x|s]; try reflexivity.
  unfold coerce_gpa, clip; simpl.
  destruct (Qle_bool 0 x), (Qle_bool x 4); reflexivity.
Qed.

Lemma cleaned_row_gpa df r :
  gpa (cleaned_row df r)
  = if has_column df "gpa" then coerce_gpa (gpa r) else gpa r.
Proof.
  unfold cleaned_row, cond.
  destruct (has_column df "gpa").
  - repeat match goal with |- context [if ?b then _ else _] => destruct b end;
      simpl; apply to_numeric_coerce_gpa.
  - repeat match goal with |- context [if ?b then _ else _] => destruct b end;
      reflexivity.
Qed.

Lemma clean_strings_rows df rs :
  exists f,
    clean_strings df rs = apply_rows f rs
    /\ (forall r, gpa (f r) = gpa r)
    /\ (forall r, email (f r)
                  = if has_column df "email" then normalize_email (email r)
                    else email r).
Proof.
  unfold clean_strings. rewrite !cond_apply_rows, !apply_rows_compose.
  eexists; split; [reflexivity|]. unfold cond.
  split; intros r;
    repeat match goal with |- context [if ?b then _ else _] => destruct b end;
    reflexivity.
Qed.

Lemma transform_students_errors df :
  validation_errors (fst (transform_students df)) = snd (validate_rows df).
Proof.
  unfold transform_students.
  destruct (validate_rows df) as [rs errs].
  destruct (remove_duplicates df rs) as [rs' lg].
  destruct (has_column df "email"); reflexivity.
Qed.

Lemma transform_students_returns df out :
  snd (transform_students df) = Return out ->
  has_column df "email" = true
  /\ out = Table (masked_columns df (deduplicated df))
             (select (fun r => validate_email (email r)) (deduplicated df)).
Proof.
  unfold transform_students, deduplicated.
  destruct (validate_rows df) as [rs errs].
  destruct (remove_duplicates df rs) as [rs' lg] eqn:Hd.
  simpl. rewrite Hd.
  destruct (has_column df "email"); simpl; [|discriminate].
  intros H. by inversion H.
Qed.

(** A frame with an email column is always returned. *)
Lemma transform_students_total df :
  has_column df "email" = true ->
  exists out, snd (transform_students df) = Return out.
Proof.
  intros He. unfold transform_students.
  destruct (validate_rows df) as [rs errs].
  destruct (remove_duplicates df rs) as [rs' lg].
  rewrite He. eexists; reflexivity.
Qed.

Lemma drop_duplicates_from_incl seen key rs ir :
  In ir (drop_duplicates_from seen key rs) -> In ir rs.
Proof.
  revert seen. induction rs as [|x rs IH]; intros seen; simpl; [done|].
  case_bool_decide.
  - intros H'. right. by eapply IH.
  - intros [->|H']; [by left | right; by eapply IH].
Qed.

Lemma deduplicated_incl df ir :
  In ir (deduplicated df) -> In ir (fst (validate_rows df)).
Proof.
  unfold deduplicated, remove_duplicates, deduplicate, drop_duplicates.
  destruct (has_column df "email"), (has_column df "student_code"); simpl;
    intros H; repeat (apply drop_duplicates_from_incl in H); exact H.
Qed.

Lemma select_split (P : row -> bool) rs :
  (length (select P rs) + length (select (fun r => negb (P r)) rs))%nat
  = length rs.
Proof.
  unfold select. induction rs as [|ir rs IH]; simpl; [done|].
  destruct (P (snd ir)); simpl; lia.
Qed.

Lemma unique_label (rs : list (Z * row)) i r r' :
  List.NoDup (map fst rs) -> In (i, r) rs -> In (i, r') rs -> r = r'.
Proof.
  induction rs as [|[j q] rs IH]; simpl; [done|].
  intros Hnd [H1|H1] [H2|H2]; inversion Hnd as [|? ? Hnot Hnd']; subst.
  - congruence.
  - inversion H1; subst. exfalso. apply Hnot.
    apply in_map_iff. exists (i, r'). auto.
  - inversion H2; subst. exfalso. apply Hnot.
    apply in_map_iff. exists (i, r). auto.
  - by apply IH.
Qed.







(** *** The hard filter on emails *)

(** C3: a row whose email fails validation after normalisation
    is in the validation report and not in the cleaned frame, and the
    cleaned frame has as many rows as the input, less the rows
    deduplication removed, less the rows with an invalid email that
    deduplication left.  (An invalid row that deduplication removes is
    counted once, as a duplicate.) *)
Theorem transform_students_hard_filter (df out : table) :
  List.NoDup (map fst (rows df)) ->
  snd (transform_students df) = Return out ->
  (forall idx r,
      In (idx, r) (rows df) ->
      validate_email (normalize_email (email r)) = false ->
      In (RowError idx "email" (TextCell (normalize_email (email r)))
                   "Invalid email format")
         (validation_errors (fst (transform_students df)))
      /\ ~ In idx (map fst (rows out)))
  /\ Z.of_nat (length (rows out))
     = Z.of_nat (length (rows df))
       - removed_by_deduplication df - invalid_after_deduplication df.
Proof.
  intros Hnd Hret.
  destruct (transform_students_returns df out Hret) as [Hemail ->].
  split.
  - intros idx r Hin Hbad. split.
    + rewrite transform_students_errors. unfold validate_rows.
      match goal with |- context [cast_types df ?l] =>
        destruct (cast_types df l) as [rs6 cast_errors] end.
      simpl. rewrite Hemail.
      destruct (clean_strings_rows df (rows df)) as (f & -> & _ & Hf).
      rewrite Hemail in Hf.
      assert (Hrep : In (RowError idx "email" (TextCell (normalize_email (email r)))
                                  "Invalid email format")
                        (report (fun r => negb (validate_email (email r)))
                                email_error (apply_rows f (rows df)))).
      { unfold report. apply in_map_iff. exists (idx, f r). split.
        - unfold email_error. simpl. by rewrite Hf.
        - unfold select. apply filter_In. split.
          + apply in_apply_rows. eauto.
          + simpl. by rewrite Hf, Hbad. }
      destruct (has_column df "gpa"), (has_column df "department_code"),
        (has_column df "gender"); rewrite ?in_app_iff; tauto.
    + simpl. intros Hlab. apply in_map_iff in Hlab as [[j r'] [Hj Hin']].
      simpl in Hj. subst j.
      unfold select in Hin'. apply filter_In in Hin' as [Hin' Hvalid].
      apply deduplicated_incl in Hin'. rewrite validate_rows_rows in Hin'.
      apply in_apply_rows in Hin' as (r0 & Hin0 & ->).
      assert (r = r0) as <- by (eapply unique_label; eauto).
      simpl in Hvalid. rewrite cleaned_row_email, Hemail in Hvalid. congruence.
  - simpl. unfold removed_by_deduplication, invalid_after_deduplication.
    rewrite validate_rows_rows, apply_rows_length.
    pose proof (select_split (fun r => validate_email (email r)) (deduplicated df)) as Hs.
    unfold invalid_email.
    assert (Hle : (length (deduplicated df) <= length (rows df))%nat).
    { clear. unfold deduplicated. rewrite <- (apply_rows_length (cleaned_row df) (rows df)).
      rewrite <- validate_rows_rows. generalize (fst (validate_rows df)). intros rs.
      unfold remove_duplicates, deduplicate, drop_duplicates.
      assert (Hd : forall key seen l,
                 (length (drop_duplicates_from seen key l) <= length l)%nat).
      { intros key seen l. revert seen.
        induction l as [|x l IH]; intros seen; simpl; [lia|].
        case_bool_decide; simpl; [specialize (IH seen) | specialize (IH (key (snd x) :: seen))]; lia. }
      destruct (has_column df "email"), (has_column df "student_code"); simpl;
        repeat (etransitivity; [apply Hd|]); lia. }
    lia.
Qed.

Lemma transform_students_hard_filter_witness :
  exists out,
    snd (transform_students Samples.shared_bad_email) = Return out
    /\ ~ In 1 (map fst (rows out))
    /\ Z.of_nat (length (rows out))
       = Z.of_nat (length (rows Samples.shared_bad_email))
         - removed_by_deduplication Samples.shared_bad_email
         - invalid_after_deduplication Samples.shared_bad_email.
Proof.
  eexists. split; [vm_compute; reflexivity|].
  match goal with |- ~ In _ (map fst (rows ?out)) /\ _ =>
    destruct (transform_students_hard_filter Samples.shared_bad_email out)
      as [Hrows Hcount] end.
  - repeat constructor; simpl; lia.
  - vm_compute; reflexivity.
  - split; [|exact Hcount].
    apply (Hrows 1 (Samples.applicant "STU101" (Some "not-an-email") SNull)).
    + simpl; auto.
    + vm_compute; reflexivity.
Defined.

(** The count of C3 taken literally fails on a good row followed by two rows that
    share one unusable email: two rows have an invalid email and
    deduplication removes one row, yet the cleaned frame has one row, not
    3 - 2 - 1. *)
Lemma cleaned_count_counterexample :
  exists out,
    snd (transform_students Samples.shared_bad_email) = Return out
    /\ invalid_email_rows Samples.shared_bad_email = 2
    /\ removed_by_deduplication Samples.shared_bad_email = 1
    /\ Z.of_nat (length (rows out))
       <> Z.of_nat (length (rows Samples.shared_bad_email))
          - invalid_email_rows Samples.shared_bad_email
          - removed_by_deduplication Samples.shared_bad_email.
Proof.
  eexists. split; [vm_compute; reflexivity|].
  split; [vm_compute; reflexivity|].
  split; [vm_compute; reflexivity|].
  vm_compute. discriminate.
Qed.

(** *** The GPA column *)






(** *** What [validate_phone] computes *)

Lemma match_atom_cons c k lo hi a s :
  match_atom c k lo hi (a :: s)
  = (Nat.eqb lo 0 && k (a :: s))
    || (c a && negb (exhausted hi)
        && match_atom c k (Nat.pred lo) (option_map Nat.pred hi) s).
Proof. reflexivity. Qed.

Lemma match_atom_to_end (c : ascii -> bool) (s : list ascii) :
  Forall (fun a => a <> "010"%char) s ->
  forall lo hi : nat,
    match_atom c at_dollar lo (Some hi) s = true
    <-> (lo <= length s <= hi)%nat /\ forallb c s = true.
Proof.
  induction 1 as [|a s Ha Hs IH]; intros lo hi.
  - simpl. rewrite orb_false_r, andb_true_r, Nat.eqb_eq. split; [intros ->|]; lia.
  - assert (Hd : at_dollar (a :: s) = false).
    { destruct s; simpl; [|reflexivity]. by apply Ascii.eqb_neq. }
    rewrite match_atom_cons, Hd, andb_false_r, orb_false_l.
    rewrite !andb_true_iff, negb_true_iff. simpl option_map. rewrite IH.
    simpl forallb. simpl length. rewrite andb_true_iff.
    destruct hi as [|hi]; simpl.
    + split; [intros [[_ ?] _]; discriminate | lia].
    + split.
      * intros [[Hc _] [Hlen Hall]]. repeat split; [lia | lia | done | done].
      * intros [Hlen [Hc Hall]]. repeat split; [done | lia | lia | done].
Qed.

(** A present, non-blank phone is accepted exactly when what is left of
    it without white space, dashes, dollar signs and plus signs is ten to
    fifteen digits. *)
Lemma validate_phone_spec (p : string) :
  strip (list_ascii_of_string p) <> [] ->
  validate_phone (Some p) = true
  <-> (10 <= length (remove_class phone_formatting (list_ascii_of_string p)) <= 15)%nat
      /\ forallb is_digit (remove_class phone_formatting (list_ascii_of_string p)) = true.
Proof.
  intros Hblank. unfold validate_phone.
  destruct (strip (list_ascii_of_string p)) as [|x l]; [done|].
  unfold PHONE_PATTERN. simpl re_match. apply match_atom_to_end.
  unfold remove_class. apply List.Forall_forall. intros a Ha.
  apply filter_In in Ha as [_ Ha]. intros ->. discriminate.
Qed.

Lemma in_firstn_1 {A} (l : list A) x : In x (firstn 1 l) -> firstn 1 l = [x].
Proof. destruct l as [|y l]; simpl; [done|]. by intros [->|[]]. Qed.

(** C10: Each pass of step 7 treats the rows without a value under its key
    as duplicates of each other and keeps the first of them that reaches
    it.  So the pass on emails leaves, of the rows without an email, the
    first of the frame, and the pass on student codes leaves, of the rows
    without a code, the first that the pass on emails kept.  A returned
    row without a student code is that row, and no returned row is
    without an email. *)
Theorem absent_keys_are_duplicates (df out : table) :
  has_column df "student_code" = true ->
  snd (transform_students df) = Return out ->
  without_email (deduplicated_by_email df)
    = firstn 1 (without_email (fst (validate_rows df)))
  /\ deduplicated df
     = fst (deduplicate student_code (deduplicated_by_email df))
  /\ without_code (deduplicated df)
     = firstn 1 (without_code (deduplicated_by_email df))
  /\ (forall ir, In ir (rows out) -> student_code (snd ir) = None ->
      firstn 1 (without_code (deduplicated_by_email df)) = [ir])
  /\ (forall ir, In ir (rows out) -> email (snd ir) <> None).
Proof.
  intros Hcode Hret.
  destruct (transform_students_returns df out Hret) as [Hemail ->].
  assert (Hstep : deduplicated df
                  = fst (deduplicate student_code (deduplicated_by_email df))).
  { unfold deduplicated, deduplicated_by_email, remove_duplicates.
    rewrite Hemail, Hcode.
    destruct (deduplicate email (fst (validate_rows df))) as [rs1 log1].
    cbn [fst]. by destruct (deduplicate student_code rs1). }
  assert (Hcodes : without_code (deduplicated df)
                   = firstn 1 (without_code (deduplicated_by_email df))).
  { rewrite Hstep. unfold without_code, deduplicate, drop_duplicates.
    cbn [fst]. by rewrite select_absent_drop_duplicates_from. }
  split; [|split; [exact Hstep | split; [exact Hcodes | split]]].
  - unfold without_email, deduplicated_by_email, deduplicate, drop_duplicates.
    cbn [fst]. by rewrite select_absent_drop_duplicates_from.
  - cbn [rows]. intros ir Hin Hnone. apply in_firstn_1.
    rewrite <- Hcodes. unfold without_code, select.
    apply filter_In. split; [|by rewrite Hnone].
    unfold select in Hin. by apply filter_In in Hin as [Hin _].
  - cbn [rows]. intros ir Hin Hnone. unfold select in Hin.
    apply filter_In in Hin as [_ Hv]. by rewrite Hnone in Hv.
Qed.

Lemma absent_keys_are_duplicates_witness :
  exists out,
    snd (transform_students Samples.late_code_less) = Return out
    /\ map fst (without_code (deduplicated Samples.late_code_less)) = [2]
    /\ forall ir, In ir (rows out) -> email (snd ir) <> None.
Proof.
  destruct (transform_students_total Samples.late_code_less eq_refl)
    as [out Hret].
  exists out. split; [exact Hret|].
  destruct (absent_keys_are_duplicates Samples.late_code_less out eq_refl Hret)
    as (_ & _ & Hcodes & _ & Hemails).
  split; [|exact Hemails].
  rewrite Hcodes. vm_compute. reflexivity.
Defined.

(** Of the three rows without a student code, labelled 1, 2 and 3, the
    first repeats the email of row 0 and goes with the pass on emails;
    the one that survives is row 2. *)
Lemma first_code_less_row_counterexample :
  map fst (without_code (rows Samples.late_code_less)) = [1; 2; 3]
  /\ map fst (without_code (fst (validate_rows Samples.late_code_less)))
     = [1; 2; 3]
  /\ map fst (without_code (deduplicated Samples.late_code_less)) = [2]
  /\ exists out,
      snd (transform_students Samples.late_code_less) = Return out
      /\ map fst (rows out) = [0; 2]
      /\ map fst (without_code (rows out)) = [2].
Proof.
  split; [vm_compute; reflexivity|].
  split; [vm_compute; reflexivity|].
  split; [vm_compute; reflexivity|].
  eexists. split; [vm_compute; reflexivity|].
  split; vm_compute; reflexivity.
Qed.
End Properties.

Module LoaderProperties.
Import Db DatabaseLoader LoadMeasures.

(** *** [upsert_student] and [upsert_course] *)

Lemma upsert_student_cases now db data :
  (exists existing,
      List.find (same_student data) (students db) = Some existing
      /\ ((exists e, upsert_student now db data = (db, (false, None, e)))
          \/ exists numbers,
               sent_numbers data = Some numbers
               /\ upsert_student now db data
                  = (with_students
                       (map (fun s => if (student_id s =? student_id existing)%Z
                                      then update_student now
                                             (get_department_id db
                                                (sd_department_code data))
                                             data numbers s
                                      else s) (students db))
                       (next_student_id db) db,
                     (true, Some (student_id existing), "updated"))))
  \/ (List.find (same_student data) (students db) = None
      /\ ((exists e, upsert_student now db data = (db, (false, None, e)))
          \/ exists numbers,
               sent_numbers data = Some numbers
               /\ upsert_student now db data
                  = (with_students
                       (students db
                        ++ [new_student (next_student_id db)
                              (get_department_id db (sd_department_code data))
                              data numbers])
                       (next_student_id db + 1) db,
                     (true, Some (next_student_id db), "inserted")))).
Proof.
  unfold upsert_student.
  destruct (List.find (same_student data) (students db)) as [existing|].
  - left. exists existing. split; [reflexivity|].
    destruct (sent_numbers data) as [numbers|]; [|eauto].
    destruct (first_violation _ _); eauto.
  - right. split; [reflexivity|].
    destruct (sent_numbers data) as [numbers|]; [|eauto].
    destruct (refused (students_check db) _); eauto.
Qed.

(** A record that cannot be adapted is never written. *)
Lemma upsert_student_unadaptable now db data :
  sent_numbers data = None ->
  upsert_student now db data = (db, (false, None, cannot_adapt)).
Proof.
  intros H. unfold upsert_student. rewrite H.
  by destruct (List.find (same_student data) (students db)).
Qed.

(** C9: when [upsert_student] matches a stored row, by either key, no
    stored row changes its id, its email or its student code, whatever
    email and student code the incoming record carries. *)
Theorem upsert_student_keeps_keys (now : Z) (db : database)
    (data : student_data) (existing : student) :
  List.find (same_student data) (students db) = Some existing ->
  map (fun s => (student_id s, email s, student_code s))
      (students (fst (upsert_student now db data)))
  = map (fun s => (student_id s, email s, student_code s)) (students db).
Proof.
  intros Hfind.
  destruct (upsert_student_cases now db data)
    as [(x & Hx & [[e ->] | (numbers & _ & ->)]) | (Hnone & _)];
    [reflexivity | | congruence].
  simpl. rewrite map_map. apply map_ext. intros s.
  by destruct (student_id s =? student_id x)%Z.
Qed.

Lemma upsert_student_keeps_keys_witness :
  snd (upsert_student 1000 Samples.enrolled Samples.partial_update)
    = (true, Some 7, "updated")
  /\ map (fun s => (student_id s, email s, student_code s))
         (students (fst (upsert_student 1000 Samples.enrolled Samples.partial_update)))
     = [ (7, Some "ada@university.edu", Some "STU100") ].
Proof.
  split; [vm_compute; reflexivity|].
  rewrite (upsert_student_keeps_keys 1000 Samples.enrolled Samples.partial_update
             (Student 7 (Some "STU100") (Some "Ada") (Some "Lovelace")
                (Some "ada@university.edu") (Date 11823) (Some "Female")
                (Some "555-0100-0000") (Some 1) (Number 2027) (Number (7 # 2))
                "Active" None)).
  - reflexivity.
  - vm_compute; reflexivity.
Defined.

Lemma Forall2_map_self {A} (R : A -> A -> Prop) (f : A -> A) (l : list A) :
  (forall x, R x (f x)) -> Forall2 R l (map f l).
Proof. intros H. induction l; simpl; constructor; auto. Qed.

Lemma merged_coalesce {A} (param old : option A) :
  merged param old (coalesce param old).
Proof. by destruct param. Qed.

Lemma merged_number_coalesce param year old :
  adapt param = Some year -> merged_number param old (coalesce_number year old).
Proof. destruct param; simpl; intros [= <-]; reflexivity. Qed.

Lemma merged_date_coalesce param old :
  merged_date param old (coalesce_date param old).
Proof. by destruct param. Qed.

(** C2: what the two updates write.  On an "updated" answer of
    [upsert_student] each column of the [SET] list takes what the record
    holds for it and keeps the stored value only when the record holds
    [None].  That is the stated policy for the text columns and the
    department, whose absent values are [None]; but an absent number of
    [row.to_dict()] is NaN: at the stored student with the GPA 3.5 and
    the record of a row that matches her and has no GPA, the answer is
    "updated" and the stored GPA is then NaN.  On a successful
    course-code conflict of [upsert_course] the name, the credits and the
    enrolment limit become the incoming values unconditionally and the
    update time is set. *)
Theorem upsert_update_policies (now : Z) (db : database) :
  (forall (data : student_data) (sid : Z),
      snd (upsert_student now db data) = (true, Some sid, "updated") ->
      Forall2 (student_updated now db data sid)
              (students db) (students (fst (upsert_student now db data))))
  /\ (forall data : course_data,
      existsb (same_course data) (courses db) = true ->
      fst (snd (upsert_course now db data)) = true ->
      Forall2 (course_overwritten now data)
              (courses db) (courses (fst (upsert_course now db data))))
  /\ (map gpa (students Samples.enrolled) = [Number (7 # 2)]
      /\ sd_gpa Samples.partial_update = PyNaN
      /\ snd (upsert_student now Samples.enrolled Samples.partial_update)
         = (true, Some 7, "updated")
      /\ map gpa (students (fst (upsert_student now Samples.enrolled
                                   Samples.partial_update)))
         = [NaN]).
Proof.
  split; [|split].
  - intros data sid Hanswer.
    destruct (upsert_student_cases now db data)
      as [(x & Hx & [[e He] | (numbers & Hsent & He)])
         | (Hnone & [[e He] | (numbers & Hsent & He)])];
      rewrite He in Hanswer |- *; simpl in Hanswer |- *; try discriminate.
    injection Hanswer as <-.
    apply Forall2_map_self. intros s. unfold student_updated.
    destruct (student_id s =? student_id x)%Z; [|reflexivity].
    cbn [update_student student_id student_code email status updated_at
         first_name last_name gender phone department_id date_of_birth
         graduation_year gpa].
    unfold sent_numbers in Hsent.
    destruct (adapt (sd_graduation_year data)) as [year|] eqn:Hyear;
      [|discriminate].
    destruct (adapt (sd_gpa data)) as [gpa'|] eqn:Hgpa; [|discriminate].
    injection Hsent as <-. cbn [fst snd].
    repeat split;
      first [ apply merged_coalesce | apply merged_date_coalesce
            | by apply merged_number_coalesce ].
  - intros data Hconflict Hok. revert Hok. unfold upsert_course.
    destruct (get_department_id db (cd_department_code data)) as [dept|];
      [|discriminate].
    rewrite Hconflict.
    destruct (first_violation _ _); [discriminate|]. intros _. simpl.
    apply Forall2_map_self. intros c. unfold course_overwritten.
    destruct (same_course data c); [|reflexivity]. repeat split.
  - repeat split.
Qed.

(** *** [load_students_batch] *)

Lemma execute_upsert_connection now conn idx r :
  committed (fst (execute_upsert now conn idx r)) = committed conn
  /\ uncommitted (fst (execute_upsert now conn idx r)) = uncommitted conn ++ [idx].
Proof.
  unfold execute_upsert. destruct (aborted conn); [done|].
  by destruct (upsert_student now (working conn) r).
Qed.

(** Each record moves one of the three counters by one. *)
Lemma tally_counts idx r o st :
  total (tally idx r o st) = total st
  /\ (inserted (tally idx r o st) + updated (tally idx r o st)
      + failed (tally idx r o st))%nat
     = S (inserted st + updated st + failed st)
  /\ (length (errors (tally idx r o st)) + failed st)%nat
     = (length (errors st) + failed (tally idx r o st))%nat.
Proof.
  destruct o as [[ok sid] msg]. unfold tally.
  destruct ok; [destruct (String.eqb msg "inserted")|]; simpl;
    rewrite ?length_app; simpl; repeat split; lia.
Qed.

(** With a batch size other than zero the loop goes through the whole
    frame, whatever the upserts answer, and counts every record once. *)
Lemma load_loop_returns now batch_size rs :
  batch_size <> 0 ->
  forall conn st,
  exists conn' st',
    load_loop now batch_size rs conn st = (conn', Return st')
    /\ total st' = total st
    /\ (inserted st' + updated st' + failed st')%nat
       = (inserted st + updated st + failed st + length rs)%nat
    /\ (length (errors st') + failed st)%nat
       = (length (errors st) + failed st')%nat.
Proof.
  intros Hb. apply Z.eqb_neq in Hb.
  induction rs as [|[idx r] rs IH]; intros conn st.
  - exists conn, st. simpl. repeat split; lia.
  - simpl. destruct (execute_upsert now conn idx r) as [c o]. rewrite Hb.
    destruct (tally_counts idx r o st) as (Ht & Hsum & Herr).
    match goal with |- context [load_loop now batch_size rs ?c' ?s] =>
      destruct (IH c' s) as (conn' & st' & -> & Ht' & Hsum' & Herr') end.
    exists conn', st'. split; [reflexivity|]. repeat split; lia.
Qed.

(** A zero batch size leaves the loop at its first record, before any
    commit. *)
Lemma load_loop_zero now idx r rs conn st :
  exists conn' e,
    load_loop now 0 ((idx, r) :: rs) conn st = (conn', Raise e)
    /\ committed conn' = committed conn.
Proof.
  simpl. pose proof (execute_upsert_connection now conn idx r) as [Hc _].
  destruct (execute_upsert now conn idx r) as [c o].
  eexists _, _. split; [reflexivity | exact Hc].
Qed.

(** While no label reaches a batch boundary the loop commits nothing. *)
Lemma load_loop_without_boundary now batch_size rs :
  batch_size <> 0 ->
  Forall (fun ir => (fst ir + 1) mod batch_size <> 0) rs ->
  forall conn st,
  exists conn' st',
    load_loop now batch_size rs conn st = (conn', Return st')
    /\ committed conn' = committed conn
    /\ uncommitted conn' = uncommitted conn ++ map fst rs.
Proof.
  intros Hb. apply Z.eqb_neq in Hb.
  induction rs as [|[idx r] rs IH]; intros Hlabels conn st.
  - exists conn, st. simpl. by rewrite app_nil_r.
  - inversion Hlabels as [|? ? Hidx Hrest]; subst. cbn [fst] in Hidx.
    simpl. pose proof (execute_upsert_connection now conn idx r) as [Hc Hu].
    destruct (execute_upsert now conn idx r) as [c o]. rewrite Hb.
    apply Z.eqb_neq in Hidx. rewrite Hidx.
    destruct (IH Hrest c (tally idx r o st)) as (conn' & st' & -> & Hc' & Hu').
    exists conn', st'. split; [reflexivity|].
    cbn [fst] in Hc, Hu. rewrite Hc', Hu', Hc, Hu, <- app_assoc. by split.
Qed.

(** C1, at ten records labelled 0 to 9 of which only the one labelled 5
    violates a constraint (its first name is absent and the column is NOT
    NULL), loaded in one batch into a store without students.  The
    refusal of record 5 is caught and reported, but it leaves the
    transaction aborted: the records 6 to 9 are refused too, and the
    commit that closes the connection rolls back the five that were
    inserted.  The statistics are total 10, inserted 5, failed 5, with
    five error entries, and no student is stored. *)
Theorem load_students_batch_partial_failure :
  load_students_batch 1000 Samples.campus Samples.ten_students 100
  = (Samples.campus,
     Return (Stats 10 5 0 5
               (LoadError 5 (Some "s5@university.edu")
                  "null value in column first_name violates not-null constraint"
                :: map ignored
                     (List.filter (fun ir => (5 <? fst ir)%Z)
                                  (records Samples.ten_students)))))
  /\ students Samples.campus = []
  /\ map fst (List.filter (fun ir => (5 <? fst ir)%Z)
                          (records Samples.ten_students))
     = [6; 7; 8; 9]
  /\ Forall (fun ir => sd_first_name (snd ir) = None <-> fst ir = 5)
            (records Samples.ten_students).
Proof.
  split; [vm_compute; reflexivity|].
  split; [reflexivity|]. split; [reflexivity|].
  repeat constructor; simpl; intros; try discriminate; try lia.
Qed.

(** *** The batch test of [load_students_batch] *)

(** C5, at the frame [transform_students] returns for five rows of which
    the second and the fourth repeat an email, loaded with a batch size
    of 2: the returned frame keeps the labels 0, 2 and 4, the batch test
    reads the label, [(idx + 1) % 2] is never 0, and the loop ends with
    three records upserted since the last commit, more than a batch, and
    nothing committed. *)
Theorem batch_commit_follows_labels :
  exists out conn st,
    snd (Transform.transform_students Samples.five_with_repeats) = Return out
    /\ map fst (rows out) = [0; 2; 4]
    /\ load_loop 1000 2 (records out) (connect Samples.campus) (Stats 3 0 0 0 [])
       = (conn, Return st)
    /\ uncommitted conn = [0; 2; 4]
    /\ committed conn = Samples.campus.
Proof.
  eexists.
  match goal with |- exists conn st, _ = Return ?out /\ _ =>
    destruct (load_loop_without_boundary 1000 2 (records out)) with
      (conn := connect Samples.campus) (st := Stats 3 0 0 0 [])
      as (conn & st & Hrun & Hc & Hu) end.
  - lia.
  - instantiate (1 := Table _ _). unfold records. cbn [rows].
    instantiate (1 := [(0, _); (2, _); (4, _)]).
    repeat constructor; cbn [fst]; discriminate.
  - exists conn, st. split; [vm_compute; reflexivity|].
    split; [reflexivity|]. split; [exact Hrun|].
    split; [exact Hu | exact Hc].
Qed.

(** On a frame whose labels are consecutive the batch test does count
    records: after the records labelled [k], ..., [k + n - 1] the number
    of uncommitted records is [(k + n) mod batch_size]. *)
Lemma uncommitted_on_consecutive_labels now batch_size :
  0 < batch_size ->
  forall rs (k : nat) conn st,
    map fst rs = map Z.of_nat (seq k (length rs)) ->
    Z.of_nat (length (uncommitted conn)) = Z.of_nat k mod batch_size ->
    exists conn' st',
      load_loop now batch_size rs conn st = (conn', Return st')
      /\ Z.of_nat (length (uncommitted conn'))
         = Z.of_nat (k + length rs) mod batch_size.
Proof.
  intros Hb. induction rs as [|[idx r] rs IH]; intros k conn st Hlab Hu.
  - exists conn, st. simpl. by rewrite Nat.add_0_r.
  - simpl in Hlab. injection Hlab as -> Hlab. simpl.
    pose proof (execute_upsert_connection now conn (Z.of_nat k) r) as [_ Hun].
    destruct (execute_upsert now conn (Z.of_nat k) r) as [c o].
    cbn [fst] in Hun.
    destruct (Z.eqb_spec batch_size 0) as [|_]; [lia|].
    match goal with |- context [load_loop now batch_size rs ?c' ?s] =>
      destruct (IH (S k) c' s) as (conn' & st' & -> & Hlen) end.
    + exact Hlab.
    + destruct (Z.eqb_spec ((Z.of_nat k + 1) mod batch_size) 0) as [H0|H0].
      * assert (Hnil : uncommitted (commit c) = [])
          by (unfold commit; by destruct (aborted c)).
        rewrite Hnil. simpl.
        rewrite Nat2Z.inj_succ. unfold Z.succ. by rewrite H0.
      * rewrite Hun, length_app. simpl. rewrite Nat2Z.inj_add, Hu.
        rewrite (Nat2Z.inj_succ k). unfold Z.succ.
        pose proof (Z.mod_pos_bound (Z.of_nat k) batch_size Hb) as Hq.
        assert (E : (Z.of_nat k + 1) mod batch_size
                    = Z.of_nat k mod batch_size + 1).
        { rewrite <- Zplus_mod_idemp_l in H0 |- *.
          destruct (Z.eq_dec (Z.of_nat k mod batch_size + 1) batch_size) as [E|E].
          - exfalso. apply H0. rewrite E. apply Z.mod_same. lia.
          - apply Z.mod_small. lia. }
        rewrite E. simpl. lia.
    + exists conn', st'. split; [reflexivity|].
      rewrite Hlen. f_equal. lia.
Qed.

(** So on a frame labelled 0 to n - 1, at any point of the loop fewer
    than [batch_size] records are uncommitted. *)
Lemma uncommitted_bounded_on_range now batch_size db rs st (m : nat) :
  0 < batch_size ->
  map fst rs = map Z.of_nat (seq 0 (length rs)) ->
  Z.of_nat (length (uncommitted
                      (fst (load_loop now batch_size (firstn m rs) (connect db) st))))
  < batch_size.
Proof.
  intros Hb Hlab.
  assert (Hpre : map fst (firstn m rs)
                 = map Z.of_nat (seq 0 (length (firstn m rs)))).
  { rewrite <- firstn_map, Hlab, firstn_map. f_equal.
    rewrite length_firstn. apply take_seq. }
  destruct (uncommitted_on_consecutive_labels now batch_size Hb
              (firstn m rs) 0 (connect db) st Hpre) as (conn' & st' & Hrun & Hlen).
  { simpl. by rewrite Z.mod_0_l by lia. }
  rewrite Hrun. simpl. rewrite Hlen. apply Z.mod_pos_bound. exact Hb.
Qed.

End LoaderProperties.

Module PipelineProperties.
Import Transform DatabaseLoader ETLPipeline.

(** *** [ETLPipeline.run] *)

Lemma extends_refl p : extends p p.
Proof. split; [reflexivity|]. exists []. by rewrite app_nil_r. Qed.

Lemma extends_trans p q r : extends p q -> extends q r -> extends p r.
Proof.
  intros [H1 [n1 E1]] [H2 [n2 E2]]. split; [congruence|].
  exists (n1 ++ n2). by rewrite E2, E1, app_assoc.
Qed.

Ltac nothing_added :=
  split; [reflexivity|]; exists []; simpl; by rewrite app_nil_r.

Ltac one_added :=
  split; [reflexivity|]; eexists; reflexivity.

Lemma extract_extends w p : extends p (fst (extract w p)).
Proof.
  unfold extract. destruct (read_source w _); simpl;
    [nothing_added | one_added].
Qed.

Lemma transform_extends p : extends p (fst (transform p)).
Proof.
  unfold transform. simpl. destruct (raw_data p); [|nothing_added].
  destruct (transform_students t) as [t' [df|e]]; simpl; [|one_added].
  destruct (forallb has_row _); simpl; [nothing_added | one_added].
Qed.

Lemma load_extends w p : extends p (fst (fst (load w p))).
Proof.
  unfold load. simpl. destruct (transformed_data p); [|nothing_added].
  destruct (Nat.eqb _ 0); [nothing_added|].
  destruct (database w) as [| |db]; simpl; [one_added | one_added |].
  destruct (load_students_batch _ db t 100) as [db' [st|e]]; simpl;
    [nothing_added | one_added].
Qed.

(** What [extract()] hands on when the extractor returns. *)
Lemma run_after_extract w p df :
  read_source w p = Return df ->
  run w p
  = (let p1 := fst (extract w (with_stats (set_start (clock_at_start w) (stats p)) p)) in
     let '(p2, transform_success) := transform p1 in
     let '(p3, db, load_success) :=
       if transform_success then load w p2 else (p2, database w, false) in
     (with_stats (set_end (clock_at_end w) (stats p3)) p3, db)).
Proof.
  intros Hsrc. unfold run, extract.
  change (read_source w (with_log "EXTRACT PHASE STARTED"
            (with_stats (set_start (clock_at_start w) (stats p)) p)))
    with (read_source w p).
  by rewrite Hsrc.
Qed.

(** C7: [run()] always returns its report, stamped with the two clock
    readings and their difference in seconds, and with every error added
    to those it already held.  When the extractor raises, the log shows
    that neither the transform nor the load phase was entered, the
    exception is the one new entry of the error list, and the store and
    the transformed data are untouched.  When the extractor returns and
    the transform phase fails, because [transform_students] raises or
    because the loop that logs the first ten validation errors meets an
    entry of [cast_types], the load phase is not entered, the exception
    is the one new entry, and the store is untouched.  When both return
    and there is a record to load, a load phase that cannot reach the
    store adds its exception as the one new entry, under the phase
    "load", and a load phase that reaches the store adds none and
    reports the statistics. *)
Theorem run_short_circuits (w : world) (p : pipeline) :
  start_time (stats (fst (run w p))) = Some (clock_at_start w)
  /\ end_time (stats (fst (run w p))) = Some (clock_at_end w)
  /\ duration (stats (fst (run w p)))
     = Some (Qmake (clock_at_end w - clock_at_start w) 1000000)
  /\ (exists new,
         errors (stats (fst (run w p))) = errors (stats p) ++ new)
  /\ (forall e,
         read_source w p = Raise e ->
         log (fst (run w p))
           = log p ++ ["EXTRACT PHASE STARTED"; "EXTRACT FAILED: " +:+ e]
         /\ errors (stats (fst (run w p)))
            = errors (stats p) ++ [PhaseError "extract" e]
         /\ transformed_data (fst (run w p)) = transformed_data p
         /\ snd (run w p) = database w)
  /\ (forall df t e,
         read_source w p = Return df ->
         transform_students df = (t, Raise e) ->
         log (fst (run w p))
           = log p ++ ["EXTRACT PHASE STARTED"; "TRANSFORM PHASE STARTED";
                       "TRANSFORM FAILED: " +:+ e]
         /\ errors (stats (fst (run w p)))
            = errors (stats p) ++ [PhaseError "transform" e]
         /\ transformed_data (fst (run w p)) = transformed_data p
         /\ snd (run w p) = database w)
  /\ (forall df t out,
         read_source w p = Return df ->
         transform_students df = (t, Return out) ->
         forallb has_row (firstn 10 (validation_errors t)) = false ->
         log (fst (run w p))
           = log p ++ ["EXTRACT PHASE STARTED"; "TRANSFORM PHASE STARTED";
                       "TRANSFORM FAILED: 'row'"]
         /\ errors (stats (fst (run w p)))
            = errors (stats p) ++ [PhaseError "transform" "'row'"]
         /\ snd (run w p) = database w)
  /\ (forall df t out,
         read_source w p = Return df ->
         transform_students df = (t, Return out) ->
         forallb has_row (firstn 10 (validation_errors t)) = true ->
         rows out <> [] ->
         match database w with
         | Reachable db =>
             errors (stats (fst (run w p))) = errors (stats p)
             /\ exists st,
                  load_stats (stats (fst (run w p))) = Some st
                  /\ snd (load_students_batch (current_timestamp w) db out 100)
                     = Return st
         | NoConnectionString | Unreachable =>
             exists e,
               log (fst (run w p))
                 = log p ++ ["EXTRACT PHASE STARTED"; "TRANSFORM PHASE STARTED";
                             "LOAD PHASE STARTED"; "LOAD FAILED: " +:+ e]
               /\ errors (stats (fst (run w p)))
                  = errors (stats p) ++ [PhaseError "load" e]
               /\ load_stats (stats (fst (run w p))) = load_stats (stats p)
               /\ snd (run w p) = database w
         end).
Proof.
  assert (Hstamp :
    exists q db, run w p = (with_stats (set_end (clock_at_end w) (stats q)) q, db)
                 /\ start_time (stats q) = Some (clock_at_start w)
                 /\ exists new, errors (stats q) = errors (stats p) ++ new).
  { unfold run.
    set (p0 := with_stats (set_start (clock_at_start w) (stats p)) p).
    assert (H0 : start_time (stats p0) = Some (clock_at_start w)
                 /\ errors (stats p0) = errors (stats p)) by (split; reflexivity).
    pose proof (extract_extends w p0) as He.
    destruct (extract w p0) as [p1 ok1]. simpl in He.
    assert (Ht : exists p2 ok2,
               (if ok1 then transform p1 else (p1, false)) = (p2, ok2)
               /\ extends p1 p2).
    { destruct ok1.
      - pose proof (transform_extends p1). destruct (transform p1); eauto.
      - eexists _, _. split; [reflexivity | apply extends_refl]. }
    destruct Ht as (p2 & ok2 & -> & Ht).
    assert (Hl : exists p3 db ok3,
               (if ok2 then load w p2 else (p2, database w, false)) = (p3, db, ok3)
               /\ extends p2 p3).
    { destruct ok2.
      - pose proof (load_extends w p2). destruct (load w p2) as [[? ?] ?]; eauto.
      - eexists _, _, _. split; [reflexivity | apply extends_refl]. }
    destruct Hl as (p3 & db & ok3 & -> & Hl).
    exists p3, db. split; [reflexivity|].
    destruct (extends_trans _ _ _ He (extends_trans _ _ _ Ht Hl)) as [Hs [new Hn]].
    destruct H0 as [H0 H0']. split; [congruence|].
    exists new. by rewrite Hn, H0'. }
  destruct Hstamp as (q & db & Hrun & Hstart & Herrs).
  split; [|split; [|split; [|split; [|split; [|split; [|split]]]]]].
  - rewrite Hrun. simpl. exact Hstart.
  - rewrite Hrun. reflexivity.
  - rewrite Hrun. simpl. by rewrite Hstart.
  - rewrite Hrun. simpl. exact Herrs.
  - clear. intros e Hsrc. unfold run, extract.
    change (read_source w (with_log "EXTRACT PHASE STARTED"
              (with_stats (set_start (clock_at_start w) (stats p)) p)))
      with (read_source w p).
    rewrite Hsrc. simpl. rewrite <- app_assoc. repeat split.
  - clear. intros df t e Hsrc Htr. rewrite (run_after_extract w p df Hsrc).
    unfold extract.
    change (read_source w (with_log "EXTRACT PHASE STARTED"
              (with_stats (set_start (clock_at_start w) (stats p)) p)))
      with (read_source w p).
    rewrite Hsrc. unfold transform. simpl. rewrite Htr. simpl.
    rewrite <- !app_assoc. repeat split.
  - clear. intros df t out Hsrc Htr Hrow. rewrite (run_after_extract w p df Hsrc).
    unfold extract.
    change (read_source w (with_log "EXTRACT PHASE STARTED"
              (with_stats (set_start (clock_at_start w) (stats p)) p)))
      with (read_source w p).
    rewrite Hsrc. unfold transform. simpl. rewrite Htr. simpl. rewrite Hrow.
    simpl. rewrite <- !app_assoc. repeat split.
  - clear. intros df t out Hsrc Htr Hrow Hrows.
    rewrite (run_after_extract w p df Hsrc). unfold extract.
    change (read_source w (with_log "EXTRACT PHASE STARTED"
              (with_stats (set_start (clock_at_start w) (stats p)) p)))
      with (read_source w p).
    rewrite Hsrc. unfold transform. simpl. rewrite Htr. simpl. rewrite Hrow.
    unfold load. cbn [transformed_data with_log].
    destruct (Nat.eqb_spec (length (rows out)) 0) as [Hlen|_];
      [by apply length_zero_iff_nil in Hlen|].
    destruct (database w) as [| |db0].
    + eexists. simpl. rewrite <- !app_assoc. repeat split.
    + eexists. simpl. rewrite <- !app_assoc. repeat split.
    + destruct (LoaderProperties.load_loop_returns (current_timestamp w) 100
                  (records out) ltac:(lia) (connect db0)
                  (Stats (length (rows out)) 0 0 0 []))
        as (conn' & st' & Hloop & _).
      unfold load_students_batch. rewrite Hloop. simpl.
      split; [reflexivity|]. exists st'. by split.
Qed.

Lemma run_short_circuits_witness :
  (log (fst (run Samples.missing_file Samples.students_csv))
     = [ "EXTRACT PHASE STARTED";
         "EXTRACT FAILED: CSV file not found: data/sample_students.csv" ]
   /\ errors (stats (fst (run Samples.missing_file Samples.students_csv)))
      = [ PhaseError "extract" "CSV file not found: data/sample_students.csv" ])
  /\ (log (fst (run Samples.no_email_column Samples.students_csv))
      = [ "EXTRACT PHASE STARTED"; "TRANSFORM PHASE STARTED";
          "TRANSFORM FAILED: 'email'" ]
      /\ errors (stats (fst (run Samples.no_email_column Samples.students_csv)))
         = [ PhaseError "transform" "'email'" ]
      /\ duration (stats (fst (run Samples.no_email_column Samples.students_csv)))
         = Some (Qmake 2500000 1000000))
  /\ (log (fst (run Samples.fractional_year Samples.students_csv))
      = [ "EXTRACT PHASE STARTED"; "TRANSFORM PHASE STARTED";
          "TRANSFORM FAILED: 'row'" ]
      /\ errors (stats (fst (run Samples.fractional_year Samples.students_csv)))
         = [ PhaseError "transform" "'row'" ]
      /\ snd (run Samples.fractional_year Samples.students_csv)
         = Reachable Samples.campus).
Proof.
  split; [|split].
  - destruct (run_short_circuits Samples.missing_file Samples.students_csv)
      as (_ & _ & _ & _ & Hextract & _).
    destruct (Hextract "CSV file not found: data/sample_students.csv")
      as (Hlog & Herr & _); [reflexivity|].
    split; [exact Hlog | exact Herr].
  - destruct (run_short_circuits Samples.no_email_column Samples.students_csv)
      as (_ & _ & Hduration & _ & _ & Htransform & _).
    destruct (Htransform Samples.codes_only
                (Transformer [] []) "'email'")
      as (Hlog & Herr & _).
    + reflexivity.
    + vm_compute. reflexivity.
    + split; [exact Hlog|]. split; [exact Herr | exact Hduration].
  - destruct (run_short_circuits Samples.fractional_year Samples.students_csv)
      as (_ & _ & _ & _ & _ & _ & Hreport & _).
    eapply Hreport.
    + reflexivity.
    + vm_compute. reflexivity.
    + reflexivity.
Defined.

End PipelineProperties.

(** ** Properties of the text primitives and the field normalisers *)

Module TextProperties.
Import Text DataTransformer TextShapes.

(** Facts on single characters, by running through the 256 of them. *)
Ltac each_char c :=
  destruct c as [[] [] [] [] [] [] [] []]; vm_compute; try reflexivity;
  try discriminate; try tauto.

Lemma is_space_lower_char c : is_space (lower_char c) = is_space c.
Proof. each_char c. Qed.

Lemma is_alpha_lower_char c : is_alpha (lower_char c) = is_alpha c.
Proof. each_char c. Qed.

Lemma lower_char_idem c : lower_char (lower_char c) = lower_char c.
Proof. each_char c. Qed.

Lemma local_char_lower c : local_char (lower_char c) = local_char c.
Proof. each_char c. Qed.

Lemma domain_char_lower c : domain_char (lower_char c) = domain_char c.
Proof. each_char c. Qed.

Lemma at_sign_lower c : one_of "@" (lower_char c) = one_of "@" c.
Proof. each_char c. Qed.

Lemma dot_lower c : one_of "." (lower_char c) = one_of "." c.
Proof. each_char c. Qed.

Lemma newline_lower c :
  Ascii.eqb (lower_char c) "010"%char = Ascii.eqb c "010"%char.
Proof. each_char c. Qed.

Lemma local_char_not_space c : local_char c = true -> is_space c = false.
Proof. each_char c. Qed.

Lemma domain_char_not_space c : domain_char c = true -> is_space c = false.
Proof. each_char c. Qed.

Lemma is_alpha_not_space c : is_alpha c = true -> is_space c = false.
Proof. each_char c. Qed.

Lemma at_sign_not_space c : one_of "@" c = true -> is_space c = false.
Proof. each_char c. Qed.

Lemma dot_not_space c : one_of "." c = true -> is_space c = false.
Proof. each_char c. Qed.

Lemma at_sign_is c : one_of "@" c = true -> c = "@"%char.
Proof. each_char c. Qed.

Lemma dot_is c : one_of "." c = true -> c = "."%char.
Proof. each_char c. Qed.

Lemma newline_is_space c : Ascii.eqb c "010"%char = true -> is_space c = true.
Proof. each_char c. Qed.

Lemma blank_is_space c : Ascii.eqb c " "%char = true -> is_space c = true.
Proof. each_char c. Qed.

Lemma blank_lower c : Ascii.eqb (lower_char c) " "%char = Ascii.eqb c " "%char.
Proof. each_char c. Qed.

Lemma is_space_upper_char c : is_space (upper_char c) = is_space c.
Proof. each_char c. Qed.

Lemma blank_upper c : Ascii.eqb (upper_char c) " "%char = Ascii.eqb c " "%char.
Proof. each_char c. Qed.

Lemma is_alpha_upper_char c : is_alpha (upper_char c) = is_alpha c.
Proof. each_char c. Qed.

Lemma upper_char_idem c : upper_char (upper_char c) = upper_char c.
Proof. each_char c. Qed.

Lemma lower_char_not_upper c : is_upper (lower_char c) = false.
Proof. each_char c. Qed.

Lemma upper_char_not_lower c : is_lower (upper_char c) = false.
Proof. each_char c. Qed.

(** *** [strip] *)

Lemma lstrip_app_spaces l m :
  forallb is_space l = true -> lstrip (l ++ m) = lstrip m.
Proof.
  induction l as [|c l IH]; simpl; [done|].
  intros H. apply andb_true_iff in H as [Hc Hl]. rewrite Hc. auto.
Qed.

Lemma lstrip_app_text l m :
  forallb is_space l = false -> lstrip (l ++ m) = lstrip l ++ m.
Proof.
  induction l as [|c l IH]; simpl; [done|].
  destruct (is_space c); simpl; [exact IH | reflexivity].
Qed.

Lemma forallb_rev {A} (f : A -> bool) l : forallb f (rev l) = forallb f l.
Proof.
  induction l as [|x l IH]; simpl; [done|].
  rewrite forallb_app, IH. simpl. rewrite andb_true_r. apply andb_comm.
Qed.

(** [rstrip], from the left. *)
Lemma rstrip_cons c l :
  rstrip (c :: l)
  = if forallb is_space l
    then (if is_space c then [] else [c])
    else c :: rstrip l.
Proof.
  unfold rstrip. simpl rev.
  destruct (forallb is_space l) eqn:Hl.
  - rewrite lstrip_app_spaces by (by rewrite forallb_rev).
    simpl. by destruct (is_space c).
  - rewrite lstrip_app_text by (by rewrite forallb_rev).
    rewrite rev_app_distr. reflexivity.
Qed.

Lemma rstrip_nil l : rstrip l = [] <-> forallb is_space l = true.
Proof.
  induction l as [|c l IH]; [done|].
  rewrite rstrip_cons. simpl.
  destruct (forallb is_space l), (is_space c); simpl; split; try done.
Qed.

Lemma lstrip_head l :
  match lstrip l with
  | [] => True
  | c :: _ => is_space c = false
  end.
Proof.
  induction l as [|c l IH]; simpl; [done|].
  by destruct (is_space c) eqn:Hc.
Qed.

Lemma strip_head l :
  match strip l with
  | [] => True
  | c :: _ => is_space c = false
  end.
Proof.
  unfold strip. pose proof (lstrip_head l) as H.
  destruct (lstrip l) as [|c m]; [done|].
  rewrite rstrip_cons.
  destruct (forallb is_space m); [by rewrite H | done].
Qed.

(** *** [clean_string] *)

Lemma collapse_rstrip_single_spaced m :
  forall b,
    rstrip m <> [] ->
    single_spaced b (collapse_spaces b (rstrip m)) = true.
Proof.
  induction m as [|c m IH]; intros b; [done|].
  rewrite rstrip_cons.
  destruct (forallb is_space m) eqn:Hm.
  - destruct (is_space c) eqn:Hc; [done|]. intros _. simpl.
    rewrite Hc. simpl. by rewrite Hc.
  - intros _.
    assert (Hne : rstrip m <> []).
    { intros E. apply rstrip_nil in E. congruence. }
    simpl. destruct (is_space c) eqn:Hc.
    + destruct b; simpl; [by apply IH|].
      rewrite IH by done. reflexivity.
    + simpl. rewrite Hc. by apply IH.
Qed.

(** What [clean_string] computes on the characters, when it is not empty,
    is tidy. *)
Lemma collapse_strip_tidy l :
  strip l <> [] -> tidy (collapse_spaces false (strip l)) = true.
Proof.
  intros Hne. unfold tidy.
  pose proof (strip_head l) as Hh.
  pose proof (collapse_rstrip_single_spaced (lstrip l) false Hne) as Hs.
  fold (strip l) in Hs.
  destruct (strip l) as [|c t]; [done|].
  simpl in Hs |- *. rewrite Hh in Hs |- *. simpl in Hs |- *.
  rewrite Hh in Hs |- *. exact Hs.
Qed.

Lemma single_spaced_collapse u :
  forall a b,
    single_spaced a u = true -> (b = true -> a = true) ->
    collapse_spaces b u = u.
Proof.
  induction u as [|c u IH]; intros a b Hs Hb; simpl in *; [done|].
  destruct (is_space c) eqn:Hc.
  - apply andb_true_iff in Hs as [Hs Hu]. apply andb_true_iff in Hs as [Hblank Ha].
    apply Ascii.eqb_eq in Hblank. subst c.
    destruct a; [done|]. destruct b; [by specialize (Hb eq_refl)|].
    f_equal. by apply (IH true true).
  - f_equal. by apply (IH false false).
Qed.

Lemma single_spaced_rstrip u :
  forall a,
    single_spaced a u = true ->
    u = [] \/ (rstrip u = u /\ forallb is_space u = false).
Proof.
  induction u as [|c u IH]; intros a Hs; [by left|]. right.
  simpl in Hs. rewrite rstrip_cons. simpl.
  destruct (is_space c) eqn:Hc.
  - apply andb_true_iff in Hs as [_ Hu].
    destruct (IH true Hu) as [->|[Hr Hf]]; [done|].
    rewrite Hf. split; [by rewrite Hr|]. reflexivity.
  - destruct (IH false Hs) as [->|[Hr Hf]]; simpl; [done|].
    rewrite Hf. split; [by rewrite Hr|]. reflexivity.
Qed.

Lemma tidy_strip u : tidy u = true -> strip u = u.
Proof.
  unfold tidy, strip. intros Hs.
  assert (Hl : lstrip u = u).
  { destruct u as [|c u]; [done|]. simpl in *.
    destruct (is_space c); [|done].
    rewrite andb_false_r in Hs. discriminate. }
  rewrite Hl. by destruct (single_spaced_rstrip u true Hs) as [->|[Hr _]].
Qed.

Lemma tidy_not_empty u : tidy u = true -> u <> [].
Proof. by destruct u. Qed.

Lemma tidy_fixed u :
  tidy u = true -> collapse_spaces false (strip u) = u.
Proof.
  intros Hs. rewrite tidy_strip by done.
  by apply (single_spaced_collapse u true false).
Qed.

Lemma chars_of_string l : list_ascii_of_string (string_of_list_ascii l) = l.
Proof. apply list_ascii_of_string_of_list_ascii. Qed.

Lemma string_of_chars s : string_of_list_ascii (list_ascii_of_string s) = s.
Proof. apply string_of_list_ascii_of_string. Qed.

Lemma clean_string_of_tidy s :
  tidy (list_ascii_of_string s) = true -> clean_string (Some s) = Some s.
Proof.
  intros Ht. unfold clean_string. rewrite tidy_fixed by done.
  destruct (list_ascii_of_string s) eqn:E; [done|].
  by rewrite <- E, string_of_chars.
Qed.

Lemma clean_string_gives_tidy (v : option string) (s : string) :
  clean_string v = Some s -> tidy (list_ascii_of_string s) = true.
Proof.
  destruct v as [e|]; [|done]. unfold clean_string.
  destruct (collapse_spaces false (strip (list_ascii_of_string e))) eqn:E;
    [done|].
  intros H. injection H as <-.
  change (tidy (list_ascii_of_string (string_of_list_ascii (a :: l))) = true).
  rewrite chars_of_string, <- E.
  apply collapse_strip_tidy. intros Hnil. by rewrite Hnil in E.
Qed.

(** X1: [clean_string] answers a tidy text (not empty, no white space at
    either end, and inside only single blanks), or nothing; and it
    answers nothing only for an absent value or a value that is empty
    once stripped. *)
Theorem clean_string_tidy (v : option string) :
  match clean_string v with
  | Some s => tidy (list_ascii_of_string s) = true
  | None => v = None \/ exists e, v = Some e /\ strip (list_ascii_of_string e) = []
  end.
Proof.
  destruct (clean_string v) as [s|] eqn:E.
  - by apply (clean_string_gives_tidy v).
  - destruct v as [e|]; [|by left]. right. exists e. split; [done|].
    destruct (strip (list_ascii_of_string e)) as [|c l] eqn:Hs; [done|].
    assert (Hne : strip (list_ascii_of_string e) <> []) by (by rewrite Hs).
    pose proof (tidy_not_empty _ (collapse_strip_tidy _ Hne)) as Hout.
    unfold clean_string in E.
    destruct (collapse_spaces false (strip (list_ascii_of_string e)));
      [done | discriminate E].
Qed.

Lemma single_spaced_lower u :
  forall a, single_spaced a (lower u) = single_spaced a u.
Proof.
  induction u as [|c u IH]; intros a; simpl; [done|].
  by rewrite is_space_lower_char, blank_lower, !IH.
Qed.

Lemma single_spaced_title u :
  forall a b, single_spaced a (title_from b u) = single_spaced a u.
Proof.
  induction u as [|c u IH]; intros a b; simpl; [done|].
  destruct b;
    by rewrite ?is_space_lower_char, ?blank_lower,
               ?is_space_upper_char, ?blank_upper, !IH.
Qed.

Lemma lower_idem u : lower (lower u) = lower u.
Proof.
  unfold lower. rewrite map_map. apply map_ext. apply lower_char_idem.
Qed.

Lemma title_from_idem u :
  forall b, title_from b (title_from b u) = title_from b u.
Proof.
  induction u as [|c u IH]; intros b; simpl; [done|].
  destruct b.
  - by rewrite lower_char_idem, is_alpha_lower_char, IH.
  - by rewrite upper_char_idem, is_alpha_upper_char, IH.
Qed.

(** X2: On ASCII text the three normalisers change nothing when applied
    to their own result. *)
Theorem normalisers_idempotent (v : option string) :
  ascii_text v = true ->
  clean_string (clean_string v) = clean_string v
  /\ normalize_email (normalize_email v) = normalize_email v
  /\ normalize_name (normalize_name v) = normalize_name v.
Proof.
  intros _.
  split; [|split].
  - destruct (clean_string v) as [s|] eqn:E; [|done].
    apply clean_string_of_tidy. by apply (clean_string_gives_tidy v).
  - unfold normalize_email at 2 3.
    destruct (clean_string v) as [s|] eqn:E; [|done].
    pose proof (clean_string_gives_tidy v s E) as Ht.
    unfold normalize_email. rewrite clean_string_of_tidy.
    + by rewrite chars_of_string, lower_idem.
    + rewrite chars_of_string. unfold tidy. by rewrite single_spaced_lower.
  - unfold normalize_name at 2 3.
    destruct (clean_string v) as [s|] eqn:E; [|done].
    pose proof (clean_string_gives_tidy v s E) as Ht.
    unfold normalize_name. rewrite clean_string_of_tidy.
    + rewrite chars_of_string. unfold title. by rewrite title_from_idem.
    + rewrite chars_of_string. unfold tidy, title.
      by rewrite single_spaced_title.
Qed.

Lemma normalisers_idempotent_witness :
  normalize_name (Some "  mary   ANN o'neil ") = Some "Mary Ann O'Neil"
  /\ normalize_name (normalize_name (Some "  mary   ANN o'neil "))
     = normalize_name (Some "  mary   ANN o'neil ")
  /\ normalize_email (normalize_email (Some " Ada@University.EDU "))
     = normalize_email (Some " Ada@University.EDU ").
Proof.
  split; [reflexivity|]. split.
  - apply (normalisers_idempotent (Some "  mary   ANN o'neil ")). reflexivity.
  - apply (normalisers_idempotent (Some " Ada@University.EDU ")). reflexivity.
Defined.

(** *** The matcher *)

Lemma match_atom_unfold c k lo hi a s :
  match_atom c k lo hi (a :: s)
  = (Nat.eqb lo 0 && k (a :: s))
    || (c a && negb (exhausted hi)
        && match_atom c k (Nat.pred lo) (option_map Nat.pred hi) s).
Proof. reflexivity. Qed.

(** An atom matches a prefix of the subject made of its class, of a
    length in its range, and hands the rest to what follows. *)
Lemma match_atom_spec c k s :
  forall lo hi,
    match_atom c k lo hi s = true
    <-> exists s1 s2,
          s = s1 ++ s2 /\ forallb c s1 = true
          /\ (lo <= length s1)%nat /\ within hi (length s1)
          /\ k s2 = true.
Proof.
  induction s as [|a s IH]; intros lo hi.
  - simpl. rewrite orb_false_r, andb_true_iff, Nat.eqb_eq. split.
    + intros [-> Hk]. exists [], []. repeat split; auto.
      destruct hi; simpl; lia.
    + intros (s1 & s2 & Hs & _ & Hlo & _ & Hk).
      symmetry in Hs. apply app_eq_nil in Hs as [-> ->]. simpl in Hlo.
      split; [lia | done].
  - rewrite match_atom_unfold. rewrite orb_true_iff, !andb_true_iff, IH.
    rewrite Nat.eqb_eq, negb_true_iff. split.
    + intros [[-> Hk] | [[Hc Hx] (s1 & s2 & -> & Hall & Hlo & Hhi & Hk)]].
      * exists [], (a :: s). repeat split; auto.
        destruct hi; simpl; lia.
      * exists (a :: s1), s2. simpl. rewrite Hc, Hall.
        repeat split; auto; [lia|].
        destruct hi as [[|h]|]; simpl in *; [discriminate | lia | done].
    + intros (s1 & s2 & Hs & Hall & Hlo & Hhi & Hk).
      destruct s1 as [|b s1].
      * left. simpl in *. subst s2. split; [lia | done].
      * right. simpl in Hs. injection Hs as -> ->.
        simpl in Hall. apply andb_true_iff in Hall as [Hc Hall].
        split; [split; [done|]|].
        -- destruct hi as [[|h]|]; simpl in *; [lia | done | done].
        -- exists s1, s2. repeat split; auto; [simpl in Hlo; lia|].
           destruct hi as [[|h]|]; simpl in *; [lia | lia | done].
Qed.

Lemma strip_last l x c : strip l = x ++ [c] -> is_space c = false.
Proof.
  unfold strip, rstrip. intros H.
  apply (f_equal (@rev ascii)) in H.
  rewrite rev_involutive, rev_app_distr in H. simpl in H.
  pose proof (lstrip_head (rev (lstrip l))) as Hh. by rewrite H in Hh.
Qed.

Lemma one_char (c : ascii -> bool) (x : ascii) (a : list ascii) :
  (forall y, c y = true -> y = x) ->
  forallb c a = true -> (1 <= length a)%nat -> (length a <= 1)%nat ->
  a = [x].
Proof.
  intros Hc Ha Hlo Hhi. destruct a as [|y [|z a]]; simpl in *; try lia.
  rewrite andb_true_r in Ha. by rewrite (Hc y Ha).
Qed.

Lemma at_dollar_cases s : at_dollar s = true -> s = [] \/ s = ["010"%char].
Proof.
  destruct s as [|c [|d s]]; simpl; auto; [|discriminate].
  intros H. apply Ascii.eqb_eq in H. subst. by right.
Qed.

(** What the pattern accepts, on text that does not end in white space. *)
Lemma email_pattern_spec (t : list ascii) :
  (forall x c, t = x ++ [c] -> is_space c = false) ->
  re_match EMAIL_PATTERN t = true
  <-> exists local domain tld,
        t = local ++ "@"%char :: domain ++ "."%char :: tld
        /\ local <> [] /\ forallb local_char local = true
        /\ domain <> [] /\ forallb domain_char domain = true
        /\ (2 <= length tld)%nat /\ forallb is_alpha tld = true.
Proof.
  intros Hlast. unfold EMAIL_PATTERN. cbn [re_match cls at_least at_most].
  split.
  - intros H.
    apply match_atom_spec in H as (l & r1 & Ht & Hl & Hllo & _ & H).
    apply match_atom_spec in H as (a & r2 & -> & Ha & Halo & Hahi & H).
    apply match_atom_spec in H as (d & r3 & -> & Hd & Hdlo & _ & H).
    apply match_atom_spec in H as (p & r4 & -> & Hp & Hplo & Hphi & H).
    apply match_atom_spec in H as (z & r5 & -> & Hz & Hzlo & _ & H).
    simpl in Hahi, Hphi.
    rewrite (one_char _ "@"%char a at_sign_is Ha Halo Hahi) in Ht.
    rewrite (one_char _ "."%char p dot_is Hp Hplo Hphi) in Ht.
    apply at_dollar_cases in H as [->| ->].
    + rewrite app_nil_r in Ht. exists l, d, z. simpl in Ht.
      repeat split; auto; intros ->; simpl in *; lia.
    + exfalso.
      assert (is_space "010"%char = false); [|discriminate].
      apply (Hlast (l ++ ["@"%char] ++ d ++ ["."%char] ++ z)).
      rewrite Ht. by rewrite <- !app_assoc.
  - intros (l & d & z & -> & Hl0 & Hl & Hd0 & Hd & Hz0 & Hz).
    apply match_atom_spec. exists l, ("@"%char :: d ++ "."%char :: z).
    split; [reflexivity|]. split; [exact Hl|].
    split; [destruct l; simpl; [done | lia]|]. split; [exact I|].
    apply match_atom_spec. exists ["@"%char], (d ++ "."%char :: z).
    split; [reflexivity|]. split; [reflexivity|].
    split; [simpl; lia|]. split; [simpl; lia|].
    apply match_atom_spec. exists d, ("."%char :: z).
    split; [reflexivity|]. split; [exact Hd|].
    split; [destruct d; simpl; [done | lia]|]. split; [exact I|].
    apply match_atom_spec. exists ["."%char], z.
    split; [reflexivity|]. split; [reflexivity|].
    split; [simpl; lia|]. split; [simpl; lia|].
    apply match_atom_spec. exists z, [].
    split; [by rewrite app_nil_r|]. split; [exact Hz|].
    split; [exact Hz0|]. split; [exact I | reflexivity].
Qed.

(** X3: [validate_email] accepts a present value exactly when, white space
    at both ends apart, it reads [local@domain.tld]: a non-empty local
    part of letters, digits and [._%+-], a non-empty domain of letters,
    digits, dots and dashes, and a last label of two letters or more. *)
Theorem validate_email_spec (e : string) :
  validate_email (Some e) = true
  <-> exists local domain tld,
        strip (list_ascii_of_string e) = local ++ "@"%char :: domain ++ "."%char :: tld
        /\ local <> [] /\ forallb local_char local = true
        /\ domain <> [] /\ forallb domain_char domain = true
        /\ (2 <= length tld)%nat /\ forallb is_alpha tld = true.
Proof.
  unfold validate_email. apply email_pattern_spec.
  intros x c. apply strip_last.
Qed.

(** *** Emails and their normal form *)

Lemma matched_space_free (t : list ascii) :
  (forall x c, t = x ++ [c] -> is_space c = false) ->
  re_match EMAIL_PATTERN t = true -> space_free t = true.
Proof.
  intros Hlast H.
  apply email_pattern_spec in H as (l & d & z & -> & _ & Hl & _ & Hd & _ & Hz);
    [|exact Hlast].
  unfold space_free. rewrite !forallb_app. simpl. rewrite !forallb_app. simpl.
  assert (Hfree : forall (c : ascii -> bool) (s : list ascii),
             (forall a, c a = true -> is_space a = false) ->
             forallb c s = true ->
             forallb (fun a => negb (is_space a)) s = true).
  { intros c s Hc Hs. apply forallb_forall. intros a Ha.
    rewrite forallb_forall in Hs. by rewrite (Hc a (Hs a Ha)). }
  rewrite (Hfree _ l local_char_not_space Hl),
          (Hfree _ d domain_char_not_space Hd),
          (Hfree _ z is_alpha_not_space Hz).
  reflexivity.
Qed.

Lemma collapse_space_free t b : space_free t = true -> collapse_spaces b t = t.
Proof.
  revert b. induction t as [|c t IH]; intros b; simpl; [done|].
  intros H. apply andb_true_iff in H as [Hc Ht].
  apply negb_true_iff in Hc. rewrite Hc. f_equal. by apply IH.
Qed.

Lemma space_free_collapse t :
  space_free (collapse_spaces false t) = true -> space_free t = true.
Proof.
  induction t as [|c t IH]; simpl; [done|].
  destruct (is_space c) eqn:Hc; simpl.
  - discriminate.
  - rewrite Hc. simpl. exact IH.
Qed.

Lemma match_atom_map (f : ascii -> ascii) c k s :
  (forall a, c (f a) = c a) ->
  (forall r, k (map f r) = k r) ->
  forall lo hi,
    match_atom c k lo hi (map f s) = match_atom c k lo hi s.
Proof.
  intros Hc Hk. induction s as [|a s IH]; intros lo hi.
  - reflexivity.
  - change (map f (a :: s)) with (f a :: map f s).
    rewrite !match_atom_unfold, Hc, IH.
    change (f a :: map f s) with (map f (a :: s)). by rewrite Hk.
Qed.

Lemma at_dollar_lower r : at_dollar (map lower_char r) = at_dollar r.
Proof.
  destruct r as [|c [|d r]]; simpl; try reflexivity. apply newline_lower.
Qed.

(** The pattern does not tell a letter from its lower case. *)
Lemma email_pattern_lower s :
  re_match EMAIL_PATTERN (lower s) = re_match EMAIL_PATTERN s.
Proof.
  unfold EMAIL_PATTERN, lower. cbn [re_match cls at_least at_most].
  apply match_atom_map; [apply local_char_lower|]. intros r1.
  apply match_atom_map; [apply at_sign_lower|]. intros r2.
  apply match_atom_map; [apply domain_char_lower|]. intros r3.
  apply match_atom_map; [apply dot_lower|]. intros r4.
  apply match_atom_map; [apply is_alpha_lower_char|]. apply at_dollar_lower.
Qed.

Lemma tidy_last u x c : tidy u = true -> u = x ++ [c] -> is_space c = false.
Proof.
  intros Ht Hu. apply (strip_last u x c). by rewrite tidy_strip.
Qed.

(** X4: Normalising an ASCII email never changes the verdict of
    [validate_email] on it: step 1 of [transform_students] neither
    rescues nor spoils such an email. *)
Theorem validate_email_normalize_email (v : option string) :
  ascii_text v = true ->
  validate_email (normalize_email v) = validate_email v.
Proof.
  intros _.
  destruct v as [e|]; [|reflexivity].
  unfold normalize_email, clean_string, validate_email.
  pose proof (collapse_strip_tidy (list_ascii_of_string e)) as Htidy.
  assert (Hlast : forall x c,
             strip (list_ascii_of_string e) = x ++ [c] -> is_space c = false)
    by (intros x c; apply strip_last).
  generalize dependent (strip (list_ascii_of_string e)). intros t Htidy Hlast.
  destruct (collapse_spaces false t) as [|c0 u0] eqn:Eu.
  - destruct t as [|c t']; [reflexivity|]. by specialize (Htidy ltac:(done)).
  - assert (Ht0 : t <> []) by (intros ->; discriminate).
    specialize (Htidy Ht0).
    rewrite !chars_of_string.
    rewrite tidy_strip
      by (unfold tidy; by rewrite single_spaced_lower).
    rewrite email_pattern_lower.
    destruct (re_match EMAIL_PATTERN t) eqn:Ht.
    + pose proof (matched_space_free t Hlast Ht) as Hfree.
      rewrite (collapse_space_free t false Hfree) in Eu. by rewrite <- Eu.
    + destruct (re_match EMAIL_PATTERN (c0 :: u0)) eqn:Hu; [|done].
      apply matched_space_free in Hu as Hfree;
        [|intros x c; by apply tidy_last].
      rewrite <- Eu in Hfree. apply space_free_collapse in Hfree.
      rewrite (collapse_space_free t false Hfree) in Eu. congruence.
Qed.

Lemma validate_email_normalize_email_witness :
  validate_email (Some " Ada@University.EDU ") = true
  /\ validate_email (normalize_email (Some " Ada@University.EDU ")) = true.
Proof.
  split; [reflexivity|].
  rewrite (validate_email_normalize_email (Some " Ada@University.EDU "));
    reflexivity.
Defined.

End TextProperties.

(** ** Properties of the transformer as a whole *)

Module TransformProperties.
Import Text DataTransformer Transform Measures TextShapes TextProperties
  TransformMeasures.

(** *** Gender values *)

Lemma title_from_title_cased s :
  forall b, title_cased b (title_from b s) = true.
Proof.
  induction s as [|c s IH]; intros b; simpl; [done|].
  destruct b.
  - by rewrite lower_char_not_upper, is_alpha_lower_char, IH.
  - by rewrite upper_char_not_lower, is_alpha_upper_char, IH.
Qed.

(** X5: Step 5 puts every present gender in title case before looking it up,
    and "Prefer not to say" is not in title case: no value normalises to
    it, so of the four members of [VALID_GENDERS] only Male, Female and
    Other can pass, and a row that says "Prefer not to say", which the
    request layer accepts, is always reported. *)
Theorem normalize_gender_never_prefer_not_to_say (v : option string) :
  normalize_gender v <> Some "Prefer not to say"
  /\ (unknown_in VALID_GENDERS (normalize_gender v) = false ->
      normalize_gender v = None \/ normalize_gender v = Some "Male"
      \/ normalize_gender v = Some "Female" \/ normalize_gender v = Some "Other")
  /\ unknown_in VALID_GENDERS (normalize_gender (Some "Prefer not to say")) = true
  /\ StudentCreate.validate_gender (Some "Prefer not to say")
     = Return (Some "Prefer not to say").
Proof.
  assert (Hnever : normalize_gender v <> Some "Prefer not to say").
  { destruct v as [g|]; [|done]. unfold normalize_gender. intros H.
    injection H as H.
    apply (f_equal list_ascii_of_string) in H.
    rewrite list_ascii_of_string_of_list_ascii in H.
    pose proof (title_from_title_cased (strip (list_ascii_of_string g)) false) as Ht.
    fold (title (strip (list_ascii_of_string g))) in Ht.
    rewrite H in Ht. vm_compute in Ht. discriminate. }
  split; [exact Hnever|]. split; [|split; reflexivity].
  destruct (normalize_gender v) as [s|]; [|by left]. simpl.
  rewrite negb_false_iff, bool_decide_eq_true. unfold VALID_GENDERS.
  rewrite !elem_of_union, !elem_of_singleton.
  intros [[[->| ->]| ->]| ->]; auto. done.
Qed.

(** *** [deduplicate] *)

Lemma in_drop_duplicates_from key rs :
  forall seen ir,
    In ir (drop_duplicates_from seen key rs)
    <-> ~ In (key (snd ir)) seen /\ first_with key (key (snd ir)) rs = Some ir.
Proof.
  unfold first_with.
  induction rs as [|x rs IH]; intros seen ir; simpl.
  - split; [done | intros [_ ?]; discriminate].
  - case_bool_decide as Hseen; rewrite list_elem_of_In in Hseen.
    + rewrite IH. case_bool_decide as Hk.
      * split; [intros [Hn _]; congruence | intros [Hn _]; congruence].
      * reflexivity.
    + simpl. rewrite IH. simpl. case_bool_decide as Hk.
      * split.
        -- intros [<- | [Hn _]]; [split; [congruence | done]|].
           exfalso. apply Hn. by left.
        -- intros [_ H]. left. by injection H.
      * split.
        -- intros [<- | [Hn H]]; [done|]. split; [tauto | done].
        -- intros [Hn H]. right. split; [|done].
           intros [E|E]; [congruence | done].
Qed.

Lemma drop_duplicates_from_keys key rs :
  forall seen,
    List.NoDup (map (fun ir => key (snd ir)) (drop_duplicates_from seen key rs)).
Proof.
  induction rs as [|x rs IH]; intros seen; simpl; [constructor|].
  case_bool_decide as Hseen; [apply IH|].
  simpl. constructor; [|apply IH].
  rewrite in_map_iff. intros (ir & Hk & Hin).
  apply in_drop_duplicates_from in Hin as [Hn _].
  apply Hn. left. congruence.
Qed.

Lemma drop_duplicates_from_sublist key rs :
  forall seen, sublist (drop_duplicates_from seen key rs) rs.
Proof.
  induction rs as [|x rs IH]; intros seen; simpl; [constructor|].
  case_bool_decide; [apply sublist_cons, IH | apply sublist_skip, IH].
Qed.

Lemma drop_duplicates_from_fixed key rs :
  forall seen,
    List.NoDup (map (fun ir => key (snd ir)) rs) ->
    (forall ir, In ir rs -> ~ In (key (snd ir)) seen) ->
    drop_duplicates_from seen key rs = rs.
Proof.
  induction rs as [|x rs IH]; intros seen Hnd Hseen; simpl; [done|].
  inversion Hnd as [|? ? Hx Hnd']; subst.
  rewrite bool_decide_false
    by (rewrite list_elem_of_In; apply Hseen; by left).
  f_equal. apply IH; [done|].
  intros ir Hin [E|E].
  - apply Hx. apply in_map_iff. exists ir. auto.
  - apply (Hseen ir); [by right | done].
Qed.

(** X6: [deduplicate] keeps a row exactly when it is the first of the frame
    with its key, and keeps the rows in their order; so the keys of the
    result are pairwise distinct, and deduplicating the result again
    returns it unchanged and adds nothing to the log. *)
Theorem deduplicate_keeps_first (key : row -> option string)
    (rs : list (Z * row)) :
  (forall ir, In ir (fst (deduplicate key rs))
              <-> first_with key (key (snd ir)) rs = Some ir)
  /\ sublist (fst (deduplicate key rs)) rs
  /\ List.NoDup (map (fun ir => key (snd ir)) (fst (deduplicate key rs)))
  /\ deduplicate key (fst (deduplicate key rs)) = (fst (deduplicate key rs), []).
Proof.
  unfold deduplicate, drop_duplicates. cbn [fst].
  split; [|split; [|split]].
  - intros ir. rewrite in_drop_duplicates_from. simpl. tauto.
  - apply drop_duplicates_from_sublist.
  - apply drop_duplicates_from_keys.
  - rewrite drop_duplicates_from_fixed;
      [|apply drop_duplicates_from_keys | intros ? ? []].
    by rewrite Nat.sub_diag.
Qed.

(** *** What [transform_students] returns *)

Lemma select_sublist (P : row -> bool) rs : sublist (select P rs) rs.
Proof.
  unfold select. induction rs as [|x rs IH]; simpl; [constructor|].
  destruct (P (snd x)); [by apply sublist_skip | by apply sublist_cons].
Qed.

Lemma sublist_in {A} (l1 l2 : list A) x : sublist l1 l2 -> In x l1 -> In x l2.
Proof.
  induction 1 as [|y l1 l2 _ IH|y l1 l2 _ IH]; simpl; [done| |]; tauto.
Qed.

Lemma sublist_map {A B} (f : A -> B) (l1 l2 : list A) :
  sublist l1 l2 -> sublist (map f l1) (map f l2).
Proof.
  induction 1; simpl; [constructor | by apply sublist_skip | by apply sublist_cons].
Qed.

Lemma sublist_NoDup {A} (l1 l2 : list A) :
  sublist l1 l2 -> List.NoDup l2 -> List.NoDup l1.
Proof.
  induction 1 as [|y l1 l2 Hs IH|y l1 l2 Hs IH]; intros Hnd; [done| |].
  - inversion Hnd; subst. constructor; [|auto].
    intros Hin. eauto using sublist_in.
  - inversion Hnd; subst. auto.
Qed.

Lemma deduplicated_sublist df :
  sublist (deduplicated df) (fst (validate_rows df)).
Proof.
  unfold deduplicated, remove_duplicates, deduplicate, drop_duplicates.
  destruct (has_column df "email"), (has_column df "student_code"); simpl;
    repeat (etransitivity; [apply drop_duplicates_from_sublist|]); reflexivity.
Qed.

Lemma validate_gpa_coerce_gpa v : validate_gpa (coerce_gpa v) = true.
Proof.
  destruct v as [|x|s]; try reflexivity.
  unfold coerce_gpa, clip. simpl.
  destruct (Qle_bool 0 x) eqn:H0; [|reflexivity].
  destruct (Qle_bool x 4) eqn:H4; [|reflexivity].
  simpl. by rewrite H0, H4.
Qed.

Lemma not_text_coerce_gpa v : not_text (coerce_gpa v) = true.
Proof.
  destruct v as [|x|s]; try reflexivity.
  unfold coerce_gpa, clip. simpl.
  by destruct (Qle_bool 0 x), (Qle_bool x 4).
Qed.

Lemma cleaned_row_untouched df r : untouched (cleaned_row df r) = untouched r.
Proof.
  unfold cleaned_row, cond.
  repeat match goal with |- context [if ?b then _ else _] => destruct b end;
    reflexivity.
Qed.

(** The rows [transform_students] returns carry valid, pairwise distinct
    emails and, with a student code column, pairwise distinct codes. *)
Lemma transform_students_distinct (df out : table) :
  snd (transform_students df) = Return out ->
  (forall idx r, In (idx, r) (rows out) -> validate_email (email r) = true)
  /\ List.NoDup (map (fun ir => email (snd ir)) (rows out))
  /\ (has_column df "student_code" = true ->
      List.NoDup (map (fun ir => student_code (snd ir)) (rows out))).
Proof.
  intros Hret.
  destruct (Properties.transform_students_returns df out Hret) as [Hemail ->].
  cbn [columns rows]. split; [|split].
  - intros idx r Hin. unfold select in Hin.
    by apply filter_In in Hin as [_ Hv].
  - apply (sublist_NoDup _ (map (fun ir => email (snd ir)) (deduplicated df)));
      [apply sublist_map, select_sublist|].
    unfold deduplicated, remove_duplicates, deduplicate, drop_duplicates.
    rewrite Hemail. cbn [fst snd].
    destruct (has_column df "student_code"); cbn [fst snd].
    + eapply sublist_NoDup;
        [apply sublist_map, drop_duplicates_from_sublist|].
      apply drop_duplicates_from_keys.
    + apply drop_duplicates_from_keys.
  - intros Hcode.
    apply (sublist_NoDup _ (map (fun ir => student_code (snd ir)) (deduplicated df)));
      [apply sublist_map, select_sublist|].
    unfold deduplicated, remove_duplicates, deduplicate, drop_duplicates.
    rewrite Hemail, Hcode. cbn [fst snd].
    apply drop_duplicates_from_keys.
Qed.

Lemma deduplicated_nil df : deduplicated df = [] <-> rows df = [].
Proof.
  unfold deduplicated. rewrite Properties.validate_rows_rows.
  unfold remove_duplicates, deduplicate, drop_duplicates.
  destruct (rows df) as [|x l]; [by destruct (has_column df "email"),
                                     (has_column df "student_code")|].
  destruct (has_column df "email"), (has_column df "student_code");
    cbn; split; discriminate.
Qed.

(** X7: Every frame [transform_students] returns is fit for the loader: each
    email passes [validate_email] and no two rows share one; with a
    student code column no two rows share a code (absent counting as a
    code); with a GPA column each GPA is a number within [0.0, 4.0] or
    absent.  Its columns are those of the input, unless the input has no
    row: then it has no column. *)
Theorem transform_students_result (df out : table) :
  snd (transform_students df) = Return out ->
  (rows df <> [] -> columns out = columns df)
  /\ (rows df = [] -> columns out = [] /\ rows out = [])
  /\ (forall idx r, In (idx, r) (rows out) -> validate_email (email r) = true)
  /\ List.NoDup (map (fun ir => email (snd ir)) (rows out))
  /\ (has_column df "student_code" = true ->
      List.NoDup (map (fun ir => student_code (snd ir)) (rows out)))
  /\ (has_column df "gpa" = true ->
      forall idx r, In (idx, r) (rows out) ->
                    validate_gpa (gpa r) = true /\ not_text (gpa r) = true).
Proof.
  intros Hret.
  destruct (transform_students_distinct df out Hret) as (Hvalid & Hemails & Hcodes).
  split; [|split; [|split; [exact Hvalid | split; [exact Hemails | split; [exact Hcodes|]]]]].
  - destruct (Properties.transform_students_returns df out Hret) as [_ ->].
    intros Hrows. cbn [columns]. unfold masked_columns.
    destruct (deduplicated df) eqn:Hd; [|done].
    by apply deduplicated_nil in Hd.
  - destruct (Properties.transform_students_returns df out Hret) as [_ ->].
    intros Hrows. apply deduplicated_nil in Hrows. cbn [columns rows].
    by rewrite Hrows.
  - destruct (Properties.transform_students_returns df out Hret) as [_ ->].
    cbn [rows]. intros Hgpa idx r Hin.
    apply (sublist_in _ _ _ (select_sublist _ _)) in Hin.
    apply (sublist_in _ _ _ (deduplicated_sublist df)) in Hin.
    rewrite Properties.validate_rows_rows in Hin.
    apply Properties.in_apply_rows in Hin as (r0 & _ & ->).
    rewrite Properties.cleaned_row_gpa, Hgpa.
    split; [apply validate_gpa_coerce_gpa | apply not_text_coerce_gpa].
Qed.

Lemma transform_students_result_witness :
  exists out,
    snd (transform_students Samples.gpa_rows) = Return out
    /\ List.NoDup (map (fun ir => email (snd ir)) (rows out))
    /\ (forall idx r, In (idx, r) (rows out) -> validate_email (email r) = true).
Proof.
  eexists. split; [vm_compute; reflexivity|].
  match goal with |- List.NoDup (map _ (rows ?out)) /\ _ =>
    destruct (transform_students_result Samples.gpa_rows out)
      as (_ & _ & Hvalid & Hnodup & _) end.
  - vm_compute; reflexivity.
  - split; [exact Hnodup | exact Hvalid].
Defined.

(** X8: The rows [transform_students] returns are rows of the input, in the
    order and under the labels they had, and their student code, phone
    and department code are as they were: an unknown department code is
    reported but travels on unmodified. *)
Theorem transform_students_keeps_order (df out : table) :
  snd (transform_students df) = Return out ->
  sublist (map fst (rows out)) (map fst (rows df))
  /\ (forall idx r',
        In (idx, r') (rows out) ->
        exists r, In (idx, r) (rows df) /\ untouched r' = untouched r).
Proof.
  intros Hret.
  destruct (Properties.transform_students_returns df out Hret) as [Hemail ->].
  cbn [rows]. split.
  - rewrite <- (Properties.apply_rows_labels (cleaned_row df) (rows df)).
    rewrite <- Properties.validate_rows_rows.
    apply sublist_map. etransitivity; [apply select_sublist|].
    apply deduplicated_sublist.
  - intros idx r' Hin.
    apply (sublist_in _ _ _ (select_sublist _ _)) in Hin.
    apply (sublist_in _ _ _ (deduplicated_sublist df)) in Hin.
    rewrite Properties.validate_rows_rows in Hin.
    apply Properties.in_apply_rows in Hin as (r0 & Hin0 & ->).
    exists r0. split; [done | apply cleaned_row_untouched].
Qed.

Lemma transform_students_keeps_order_witness :
  exists out,
    snd (transform_students Samples.five_with_repeats) = Return out
    /\ sublist (map fst (rows out)) [0; 1; 2; 3; 4].
Proof.
  eexists. split; [vm_compute; reflexivity|].
  match goal with |- sublist (map fst (rows ?out)) _ =>
    destruct (transform_students_keeps_order Samples.five_with_repeats out)
      as [Hsub _] end.
  - vm_compute; reflexivity.
  - exact Hsub.
Defined.

(** *** Which rows are removed *)

Lemma has_column_same df1 df2 c :
  columns df1 = columns df2 -> has_column df1 c = has_column df2 c.
Proof. unfold has_column. by intros ->. Qed.

Lemma identity_of_cleaned df idx r :
  identity_of (idx, cleaned_row df r)
  = (idx,
     (if has_column df "email" then normalize_email (email r) else email r),
     student_code r).
Proof.
  unfold identity_of. cbn [fst snd].
  rewrite Properties.cleaned_row_email.
  pose proof (cleaned_row_untouched df r) as H. unfold untouched in H.
  by injection H as -> _ _.
Qed.

Lemma drop_duplicates_from_identity (key : row -> option string) :
  (forall a b, identity_of a = identity_of b -> key (snd a) = key (snd b)) ->
  forall l1 l2 seen,
    map identity_of l1 = map identity_of l2 ->
    map identity_of (drop_duplicates_from seen key l1)
    = map identity_of (drop_duplicates_from seen key l2).
Proof.
  intros Hkey. induction l1 as [|x l1 IH]; intros [|y l2] seen H;
    try discriminate; [reflexivity|].
  simpl in H.
  pose proof (f_equal (hd (identity_of x)) H) as Hxy. simpl in Hxy.
  apply (f_equal (@tl _)) in H. simpl in H. simpl.
  rewrite (Hkey x y Hxy).
  case_bool_decide; simpl; [by apply IH|].
  rewrite Hxy. f_equal. by apply IH.
Qed.

Lemma select_identity (P : row -> bool) :
  (forall a b, identity_of a = identity_of b -> P (snd a) = P (snd b)) ->
  forall l1 l2,
    map identity_of l1 = map identity_of l2 ->
    map identity_of (select P l1) = map identity_of (select P l2).
Proof.
  intros HP. unfold select.
  induction l1 as [|x l1 IH]; intros [|y l2] H; try discriminate; [reflexivity|].
  simpl in H.
  pose proof (f_equal (hd (identity_of x)) H) as Hxy. simpl in Hxy.
  apply (f_equal (@tl _)) in H. simpl in H. simpl.
  rewrite (HP x y Hxy). destruct (P (snd y)); simpl; [|by apply IH].
  rewrite Hxy. f_equal. by apply IH.
Qed.

Lemma email_of_identity a b :
  identity_of a = identity_of b -> email (snd a) = email (snd b).
Proof. unfold identity_of. by intros [= _ -> _]. Qed.

Lemma code_of_identity a b :
  identity_of a = identity_of b -> student_code (snd a) = student_code (snd b).
Proof. unfold identity_of. by intros [= _ _ ->]. Qed.

(** X9: The checks on GPA, department, gender, graduation year and date
    of birth never cost a row: when [transform_students] returns on two
    frames that agree on the columns and, row by row, on the labels, the
    emails and the student codes, it keeps the rows with the same labels
    in both, whatever the other cells hold. *)
Theorem transform_students_removal (df1 df2 out1 out2 : table) :
  columns df1 = columns df2 ->
  map identity_of (rows df1) = map identity_of (rows df2) ->
  snd (transform_students df1) = Return out1 ->
  snd (transform_students df2) = Return out2 ->
  map fst (rows out1) = map fst (rows out2).
Proof.
  intros Hcols Hids H1 H2.
  assert (Hclean : map identity_of (fst (validate_rows df1))
                   = map identity_of (fst (validate_rows df2))).
  { rewrite !Properties.validate_rows_rows. unfold apply_rows.
    rewrite !map_map.
    generalize dependent (rows df2).
    induction (rows df1) as [|[i r] l IH]; intros [|[j q] l'] H;
      try discriminate; [reflexivity|].
    simpl in H. injection H as -> He Hc H. simpl.
    rewrite !identity_of_cleaned, (has_column_same df1 df2 "email" Hcols).
    rewrite He, Hc. f_equal. by apply IH. }
  assert (Hdedup : map identity_of (deduplicated df1)
                   = map identity_of (deduplicated df2)).
  { unfold deduplicated, remove_duplicates, deduplicate, drop_duplicates.
    rewrite (has_column_same df1 df2 "email" Hcols),
            (has_column_same df1 df2 "student_code" Hcols).
    destruct (has_column df2 "email"), (has_column df2 "student_code");
      cbn [fst snd];
      repeat first
        [ apply (drop_duplicates_from_identity student_code code_of_identity)
        | apply (drop_duplicates_from_identity email email_of_identity) ];
      exact Hclean. }
  destruct (Properties.transform_students_returns df1 out1 H1) as [_ ->].
  destruct (Properties.transform_students_returns df2 out2 H2) as [_ ->].
  cbn [rows].
  assert (Hsel : map identity_of (select (fun r => validate_email (email r))
                                         (deduplicated df1))
                 = map identity_of (select (fun r => validate_email (email r))
                                           (deduplicated df2))).
  { apply select_identity; [|exact Hdedup].
    intros a b Hab. by rewrite (email_of_identity a b Hab). }
  apply (f_equal (map (fun t : Z * option string * option string => fst (fst t))))
    in Hsel.
  rewrite !map_map in Hsel. exact Hsel.
Qed.

Lemma transform_students_removal_witness :
  exists out1 out2,
    snd (transform_students Samples.gpa_rows) = Return out1
    /\ snd (transform_students MoreSamples.gpa_rows_otherwise) = Return out2
    /\ map fst (rows out1) = map fst (rows out2).
Proof.
  eexists _, _. split; [vm_compute; reflexivity|].
  split; [vm_compute; reflexivity|].
  eapply (transform_students_removal Samples.gpa_rows
            MoreSamples.gpa_rows_otherwise);
    vm_compute; reflexivity.
Defined.

(** *** The report on departments and genders *)

Lemma in_report bad entry f rs x :
  In x (report bad entry (apply_rows f rs))
  <-> exists idx r, In (idx, r) rs /\ bad (f r) = true /\ x = entry idx (f r).
Proof.
  unfold report, select, apply_rows. rewrite in_map_iff. split.
  - intros ([i r'] & <- & Hin). apply filter_In in Hin as [Hin Hbad].
    apply in_map_iff in Hin as ([j r] & Heq & Hin). simpl in Heq.
    injection Heq as -> <-. exists i, r. auto.
  - intros (idx & r & Hin & Hbad & ->). exists (idx, f r). split; [done|].
    apply filter_In. split; [|done]. apply in_map_iff. exists (idx, r). auto.
Qed.

(** The report, part by part, in terms of the rows of the input. *)
Lemma validate_rows_errors df :
  snd (validate_rows df)
  = (if has_column df "email"
     then report (fun r => negb (validate_email (email r))) email_error
                 (apply_rows (after_step1 df) (rows df))
     else [])
    ++ (if has_column df "gpa"
        then report (fun r => negb (validate_gpa (gpa r))) gpa_error
                    (apply_rows (after_step1 df) (rows df))
        else [])
    ++ (if has_column df "department_code"
        then report (fun r => unknown_in VALID_DEPARTMENTS (department_code r))
                    department_error (apply_rows (after_step3 df) (rows df))
        else [])
    ++ (if has_column df "gender"
        then report (fun r => unknown_in VALID_GENDERS (gender r))
                    gender_error (apply_rows (after_step5 df) (rows df))
        else [])
    ++ snd (cast_types df (apply_rows (after_step5 df) (rows df))).
Proof.
  assert (Hsnd : forall (x : list (Z * row) * list validation_error) errs,
             snd (let '(rs, cast_errors) := x in (rs, errs ++ cast_errors))
             = errs ++ snd x) by (by intros [? ?] ?).
  unfold validate_rows. rewrite Hsnd. unfold clean_strings.
  rewrite !Properties.cond_apply_rows, !Properties.apply_rows_compose.
  unfold after_step5, after_step3, after_step1.
  destruct (has_column df "email"), (has_column df "gpa"),
    (has_column df "department_code"), (has_column df "gender");
    rewrite ?app_nil_r, <- ?app_assoc; reflexivity.
Qed.

Lemma after_step3_department df r :
  department_code (after_step3 df r) = department_code r.
Proof.
  unfold after_step3, after_step1, cond.
  repeat match goal with |- context [if ?b then _ else _] => destruct b end;
    reflexivity.
Qed.

Lemma after_step5_gender df r :
  gender (after_step5 df r)
  = if has_column df "gender" then normalize_gender (gender r) else gender r.
Proof.
  unfold after_step5, after_step3, after_step1, cond.
  repeat match goal with |- context [if ?b then _ else _] => destruct b end;
    reflexivity.
Qed.

Lemma cast_types_column_errors df rs x :
  In x (snd (cast_types df rs)) -> exists c e, x = ColumnError c e.
Proof.
  unfold cast_types.
  destruct (has_column df "graduation_year"); [|done].
  destruct (forallb _ rs); [done|].
  simpl. intros [<-|[]]. eauto.
Qed.

(** Not in the report of another column. *)
Ltac other_column H :=
  match type of H with
  | In _ (if ?b then _ else _) =>
      destruct b; [|destruct H];
      apply in_report in H as (? & ? & _ & _ & H); discriminate H
  | In _ (snd (cast_types _ _)) =>
      apply cast_types_column_errors in H as (? & ? & H); discriminate H
  end.

(** X10: Steps 4 and 5 report, under the label it has in the input, every row
    whose department code is present and not one of the eight codes as it
    stands (no case folding), and every row whose gender, once stripped
    and put in title case, is present and not a valid gender; they report
    nothing else. *)
Theorem soft_failures_reported (df : table) (idx : Z) :
  (forall d,
      (exists msg, In (RowError idx "department_code" (TextCell (Some d)) msg)
                      (validation_errors (fst (transform_students df))))
      <-> has_column df "department_code" = true
          /\ (d ∉ VALID_DEPARTMENTS)
          /\ exists r, In (idx, r) (rows df) /\ department_code r = Some d)
  /\ (forall g,
      (exists msg, In (RowError idx "gender" (TextCell (Some g)) msg)
                      (validation_errors (fst (transform_students df))))
      <-> has_column df "gender" = true
          /\ (g ∉ VALID_GENDERS)
          /\ exists r, In (idx, r) (rows df)
                       /\ normalize_gender (gender r) = Some g).
Proof.
  rewrite Properties.transform_students_errors, validate_rows_errors.
  split.
  - intros d. split.
    + intros (msg & H). rewrite !in_app_iff in H.
      destruct H as [H|[H|[H|[H|H]]]];
        [other_column H | other_column H | | other_column H | other_column H].
      destruct (has_column df "department_code"); [|destruct H].
      apply in_report in H as (i & r & Hin & Hbad & Heq).
      unfold department_error in Heq. rewrite after_step3_department in *.
      injection Heq as -> Hd _. split; [done|]. rewrite <- Hd in Hbad.
      simpl in Hbad. apply negb_true_iff, bool_decide_eq_false in Hbad.
      split; [done|]. eauto.
    + intros (Hcol & Hd & r & Hin & Hr). eexists.
      rewrite !in_app_iff. right. right. left. rewrite Hcol.
      apply in_report. exists idx, r. split; [done|].
      unfold department_error.
      rewrite after_step3_department, Hr. split; [|reflexivity].
      simpl. by rewrite bool_decide_false.
  - intros g. split.
    + intros (msg & H). rewrite !in_app_iff in H.
      destruct H as [H|[H|[H|[H|H]]]];
        [other_column H | other_column H | other_column H | | other_column H].
      destruct (has_column df "gender") eqn:Hcol; [|destruct H].
      apply in_report in H as (i & r & Hin & Hbad & Heq).
      unfold gender_error in Heq. rewrite after_step5_gender, Hcol in *.
      injection Heq as -> Hg _. split; [done|]. rewrite <- Hg in Hbad.
      simpl in Hbad. apply negb_true_iff, bool_decide_eq_false in Hbad.
      split; [done|]. eauto.
    + intros (Hcol & Hg & r & Hin & Hr). eexists.
      rewrite !in_app_iff. right. right. right. left. rewrite Hcol.
      apply in_report. exists idx, r. split; [done|].
      unfold gender_error.
      rewrite after_step5_gender, Hcol, Hr. split; [|reflexivity].
      simpl. by rewrite bool_decide_false.
Qed.

End TransformProperties.

(** ** Properties of the store under the loader *)

Module StoreProperties.
Import Db DatabaseLoader LoadMeasures StoreShapes.

Lemma present_app {A} (l1 l2 : list (option A)) :
  present (l1 ++ l2) = present l1 ++ present l2.
Proof.
  induction l1 as [|[x|] l1 IH]; simpl; [done| |done]. by rewrite IH.
Qed.

Lemma in_present {A} (l : list (option A)) x : In x (present l) <-> In (Some x) l.
Proof.
  induction l as [|[y|] l IH]; simpl; [done| |].
  - rewrite IH. split; intros [H|H]; auto; left; congruence.
  - rewrite IH. split; [auto | intros [H|H]; [discriminate | done]].
Qed.

Lemma NoDup_snoc {A} (l : list A) x :
  List.NoDup l -> ~ In x l -> List.NoDup (l ++ [x]).
Proof.
  induction l as [|y l IH]; simpl; intros Hnd Hx.
  - constructor; [tauto | constructor].
  - inversion Hnd as [|? ? Hy Hl]; subst. constructor; [|apply IH; tauto].
    rewrite in_app_iff. simpl. intros [H|[H|[]]]; [done|]. subst. tauto.
Qed.

Lemma sql_eq_true a b : sql_eq a b = true <-> exists x, a = Some x /\ b = Some x.
Proof.
  destruct a as [x|], b as [y|]; simpl; try (split; [done | intros (? & ? & ?); done]).
  rewrite String.eqb_eq. split; [intros ->; eauto | intros (z & [= ->] & [= ->]); done].
Qed.

(** A column that no stored row matches gains a new value. *)
Lemma present_snoc_fresh {A} (col : A -> option string) (l : list A) v :
  List.NoDup (present (map col l)) ->
  (forall s, In s l -> sql_eq v (col s) = false) ->
  List.NoDup (present (map col l ++ [v])).
Proof.
  intros Hnd Hfresh. rewrite present_app. destruct v as [x|]; simpl.
  - apply NoDup_snoc; [done|]. rewrite in_present, in_map_iff.
    intros (s & Hs & Hin). specialize (Hfresh s Hin).
    rewrite Hs in Hfresh. simpl in Hfresh.
    by rewrite String.eqb_refl in Hfresh.
  - by rewrite app_nil_r.
Qed.

(** Whatever [upsert_student] answers, the ids stay distinct and below
    the sequence, and no email and no student code is stored twice. *)
Lemma students_sound_upsert (now : Z) (db : database) (data : student_data) :
  students_sound db -> students_sound (fst (upsert_student now db data)).
Proof.
  intros (Hids & Hnext & Hemails & Hcodes).
  destruct (LoaderProperties.upsert_student_cases now db data)
    as [(x & Hx & [[e ->] | (numbers & _ & ->)])
       | (Hnone & [[e ->] | (numbers & _ & ->)])];
    cbn [fst]; try (by repeat split).
  - unfold students_sound. cbn [students next_student_id with_students].
    rewrite !map_map.
    rewrite (map_ext (fun s => student_id (if (student_id s =? student_id x)%Z then _ else s))
                     student_id)
      by (intros s; by destruct (student_id s =? student_id x)%Z).
    rewrite (map_ext (fun s => email (if (student_id s =? student_id x)%Z then _ else s))
                     email)
      by (intros s; by destruct (student_id s =? student_id x)%Z).
    rewrite (map_ext (fun s => student_code (if (student_id s =? student_id x)%Z then _ else s))
                     student_code)
      by (intros s; by destruct (student_id s =? student_id x)%Z).
    repeat split; try done.
    apply List.Forall_forall. intros s' Hin.
    apply in_map_iff in Hin as (s & <- & Hin).
    rewrite List.Forall_forall in Hnext. specialize (Hnext s Hin).
    by destruct (student_id s =? student_id x)%Z.
  - assert (Hfresh : forall s, In s (students db) -> same_student data s = false).
    { intros s Hin. by apply (find_none _ _ Hnone). }
    unfold students_sound. cbn [students next_student_id with_students].
    rewrite !map_app. cbn [map new_student student_id email student_code].
    repeat split.
    + apply NoDup_snoc; [done|]. rewrite in_map_iff. intros (s & Hs & Hin).
      rewrite List.Forall_forall in Hnext. specialize (Hnext s Hin). lia.
    + apply List.Forall_forall. intros s Hin.
      rewrite List.Forall_forall in Hnext.
      apply in_app_iff in Hin as [Hin|[<-|[]]];
        [specialize (Hnext s Hin); lia | simpl; lia].
    + apply present_snoc_fresh; [done|]. intros s Hin.
      specialize (Hfresh s Hin). unfold same_student in Hfresh.
      by apply orb_false_iff in Hfresh as [? _].
    + apply present_snoc_fresh; [done|]. intros s Hin.
      specialize (Hfresh s Hin). unfold same_student in Hfresh.
      by apply orb_false_iff in Hfresh as [_ ?].
Qed.

(** X11: [upsert_student] on a sound table: the table stays sound without
    the store having to refuse anything for uniqueness, and the id of a
    successful answer is the id of a stored row, one that was stored
    before exactly when the message is "updated". *)
Theorem upsert_student_keeps_sound (now : Z) (db : database)
    (data : student_data) :
  students_sound db ->
  students_sound (fst (upsert_student now db data))
  /\ forall sid msg,
       snd (upsert_student now db data) = (true, Some sid, msg) ->
       In sid (map student_id (students (fst (upsert_student now db data))))
       /\ (In sid (map student_id (students db)) <-> msg = "updated").
Proof.
  intros Hsound. split; [by apply students_sound_upsert|].
  destruct Hsound as (_ & Hnext & _ & _).
  intros sid msg Hanswer.
  destruct (LoaderProperties.upsert_student_cases now db data)
    as [(x & Hx & [[e He] | (numbers & _ & He)])
       | (Hnone & [[e He] | (numbers & _ & He)])];
    rewrite He in Hanswer |- *; cbn [fst snd] in Hanswer |- *;
    try discriminate Hanswer; injection Hanswer as <- <-.
  - apply find_some in Hx as [Hx _].
    cbn [students with_students]. rewrite map_map.
    rewrite (map_ext (fun s => student_id (if (student_id s =? student_id x)%Z then _ else s))
                     student_id)
      by (intros s; by destruct (student_id s =? student_id x)%Z).
    assert (In (student_id x) (map student_id (students db)))
      by (apply in_map_iff; eauto).
    split; [done|]. split; [done | by intros _].
  - cbn [students with_students new_student student_id].
    split; [rewrite map_app, in_app_iff; simpl; auto|].
    split; [|discriminate].
    rewrite in_map_iff. intros (s & Hs & Hin).
    rewrite List.Forall_forall in Hnext. specialize (Hnext s Hin). lia.
Qed.

Lemma enrolled_sound : students_sound Samples.enrolled.
Proof.
  unfold students_sound. cbn.
  repeat split; repeat constructor; simpl; try tauto; lia.
Qed.

Lemma upsert_student_keeps_sound_witness :
  students_sound (fst (upsert_student 1000 Samples.enrolled Samples.partial_update))
  /\ In 7 (map student_id
             (students (fst (upsert_student 1000 Samples.enrolled
                               Samples.partial_update)))).
Proof.
  destruct (upsert_student_keeps_sound 1000 Samples.enrolled Samples.partial_update
              enrolled_sound) as [Hsound Hid].
  split; [exact Hsound|].
  destruct (Hid 7 "updated") as [Hin _]; [reflexivity | exact Hin].
Defined.

(** *** Upserting a record twice *)

Lemma find_map_same {A} (p : A -> bool) (f : A -> A) (l : list A) :
  (forall a, p (f a) = p a) ->
  List.find p (map f l) = option_map f (List.find p l).
Proof.
  intros Hp. induction l as [|a l IH]; simpl; [done|].
  rewrite Hp. by destruct (p a).
Qed.

Lemma find_app_none {A} (p : A -> bool) (l1 l2 : list A) :
  List.find p l1 = None -> List.find p (l1 ++ l2) = List.find p l2.
Proof.
  induction l1 as [|a l1 IH]; simpl; [done|].
  destruct (p a); [discriminate | exact IH].
Qed.

Lemma coalesce_twice {A} (p old : option A) :
  coalesce p (coalesce p old) = coalesce p old.
Proof. by destruct p. Qed.

Lemma coalesce_number_twice p old :
  coalesce_number p (coalesce_number p old) = coalesce_number p old.
Proof. by destruct p. Qed.

Lemma coalesce_date_twice p old :
  coalesce_date p (coalesce_date p old) = coalesce_date p old.
Proof. by destruct p. Qed.

Lemma coalesce_same {A} (p : option A) : coalesce p p = p.
Proof. by destruct p. Qed.

Lemma coalesce_number_same p : coalesce_number p p = p.
Proof. by destruct p. Qed.

Lemma coalesce_date_same p : coalesce_date p p = p.
Proof. by destruct p. Qed.

Lemma forget_update_twice now now' dept data numbers s :
  forget_time (update_student now' dept data numbers
                 (update_student now dept data numbers s))
  = forget_time (update_student now dept data numbers s).
Proof.
  unfold forget_time, update_student. simpl.
  by rewrite !coalesce_twice, !coalesce_number_twice, coalesce_date_twice.
Qed.

Lemma forget_update_new now' dept data numbers id :
  forget_time (update_student now' dept data numbers
                 (new_student id dept data numbers))
  = forget_time (new_student id dept data numbers).
Proof.
  unfold forget_time, update_student, new_student. simpl.
  by rewrite !coalesce_same, !coalesce_number_same, coalesce_date_same.
Qed.

(** X12: Upserting a record a second time.  When the record matches at
    most one stored row of a sound table, the first upsert succeeded, the
    record carries an email or a student code, and the store accepts the
    second write, the second answer is "updated" for the id the first one
    gave, and nothing but the update time of that row differs from what
    the first upsert left. *)
Theorem upsert_student_twice (now now' : Z) (db : database)
    (data : student_data) (sid : Z) (msg : string) :
  students_sound db ->
  one_match db data ->
  sd_email data <> None \/ sd_student_code data <> None ->
  snd (upsert_student now db data) = (true, Some sid, msg) ->
  fst (fst (snd (upsert_student now' (fst (upsert_student now db data)) data)))
    = true ->
  snd (upsert_student now' (fst (upsert_student now db data)) data)
    = (true, Some sid, "updated")
  /\ map forget_time
         (students (fst (upsert_student now' (fst (upsert_student now db data)) data)))
     = map forget_time (students (fst (upsert_student now db data)))
  /\ next_student_id (fst (upsert_student now' (fst (upsert_student now db data)) data))
     = next_student_id (fst (upsert_student now db data))
  /\ one_match (fst (upsert_student now db data)) data.
Proof.
  intros (_ & Hnext & _ & _) Hone Hkey Hfirst Hsecond.
  destruct (LoaderProperties.upsert_student_cases now db data)
    as [(x & Hx & [[e He] | (numbers & Hsent & He)])
       | (Hnone & [[e He] | (numbers & Hsent & He)])];
    rewrite He in Hfirst, Hsecond |- *;
    cbn [fst snd] in Hfirst, Hsecond |- *;
    try discriminate Hfirst; injection Hfirst as <- <-.
  - (* the first upsert updated the row [x] *)
    set (F := fun s => if (student_id s =? student_id x)%Z
                       then update_student now
                              (get_department_id db (sd_department_code data))
                              data numbers s
                       else s) in *.
    set (db1 := with_students (map F (students db)) (next_student_id db) db) in *.
    assert (HF : forall s, same_student data (F s) = same_student data s
                           /\ student_id (F s) = student_id s).
    { intros s. unfold F. by destruct (student_id s =? student_id x)%Z. }
    assert (Hfind : List.find (same_student data) (students db1) = Some (F x)).
    { unfold db1. cbn [students with_students].
      rewrite find_map_same, Hx; [reflexivity | apply HF]. }
    assert (Hid : student_id (F x) = student_id x) by apply HF.
    assert (Hone1 : one_match db1 data).
    { intros s1 s2 H1 H2. unfold db1 in H1, H2.
      cbn [students with_students] in H1, H2.
      apply in_map_iff in H1 as (t1 & <- & H1).
      apply in_map_iff in H2 as (t2 & <- & H2).
      destruct (HF t1) as [-> ->], (HF t2) as [-> ->].
      by apply Hone. }
    destruct (LoaderProperties.upsert_student_cases now' db1 data)
      as [(y & Hy & [[e He2] | (numbers' & Hsent' & He2)]) | (Hnone & _)];
      [| |congruence]; rewrite He2 in Hsecond |- *; [discriminate Hsecond|].
    assert (numbers' = numbers) as -> by congruence.
    rewrite Hfind in Hy. injection Hy as <-.
    cbn [fst snd students with_students next_student_id]. rewrite Hid.
    split; [reflexivity|]. split; [|split; [reflexivity | exact Hone1]].
    unfold db1. cbn [students with_students]. rewrite !map_map.
    apply map_ext. intros s. unfold F.
    change (get_department_id
              (with_students _ (next_student_id db) db)
              (sd_department_code data))
      with (get_department_id db (sd_department_code data)).
    destruct (student_id s =? student_id x)%Z eqn:Hs.
    + cbn [update_student student_id]. rewrite Hs.
      apply forget_update_twice.
    + by rewrite Hs.
  - (* the first upsert inserted a row *)
    set (N := new_student (next_student_id db)
                (get_department_id db (sd_department_code data)) data numbers)
      in *.
    set (db1 := with_students (students db ++ [N]) (next_student_id db + 1) db) in *.
    assert (Hfind : List.find (same_student data) (students db1) = Some N).
    { unfold db1. cbn [students with_students].
      rewrite find_app_none by done. simpl.
      assert (Hsame : same_student data N = true); [|by rewrite Hsame].
      unfold same_student, N. cbn [new_student email student_code].
      destruct Hkey as [Hk|Hk].
      - destruct (sd_email data); [|done]. simpl. by rewrite String.eqb_refl.
      - destruct (sd_student_code data); [|done]. simpl.
        rewrite String.eqb_refl. apply orb_true_r. }
    assert (Hone1 : one_match db1 data).
    { assert (Hnew : forall s, In s (students db1) ->
                               same_student data s = true -> s = N).
      { intros s Hin Hs. unfold db1 in Hin. cbn [students with_students] in Hin.
        apply in_app_iff in Hin as [Hin|[<-|[]]]; [|done].
        pose proof (find_none _ _ Hnone s Hin) as Hno. congruence. }
      intros s1 s2 H1 H2 Hs1 Hs2.
      by rewrite (Hnew s1 H1 Hs1), (Hnew s2 H2 Hs2). }
    destruct (LoaderProperties.upsert_student_cases now' db1 data)
      as [(y & Hy & [[e He2] | (numbers' & Hsent' & He2)]) | (Hnone' & _)];
      [| |congruence]; rewrite He2 in Hsecond |- *; [discriminate Hsecond|].
    assert (numbers' = numbers) as -> by congruence.
    rewrite Hfind in Hy. injection Hy as <-.
    cbn [fst snd students with_students next_student_id].
    split; [reflexivity|]. split; [|split; [reflexivity | exact Hone1]].
    unfold db1. cbn [students with_students].
    change (get_department_id
              (with_students _ (next_student_id db + 1) db)
              (sd_department_code data))
      with (get_department_id db (sd_department_code data)).
    rewrite !map_map, !map_app. cbn [map]. f_equal.
    + apply map_ext_in. intros s Hin.
      rewrite List.Forall_forall in Hnext. specialize (Hnext s Hin).
      change (student_id N) with (next_student_id db).
      destruct (Z.eqb_spec (student_id s) (next_student_id db)); [lia | done].
    + change (student_id N) with (next_student_id db).
      rewrite Z.eqb_refl. f_equal. apply forget_update_new.
Qed.

Lemma enrolled_one_match : one_match Samples.enrolled Samples.partial_update.
Proof.
  intros s1 s2 H1 H2 _ _. cbn in H1, H2.
  repeat match goal with H : _ \/ _ |- _ => destruct H as [<-|H] end;
    try reflexivity; contradiction.
Qed.

Lemma upsert_student_twice_witness :
  snd (upsert_student 2000
         (fst (upsert_student 1000 Samples.enrolled Samples.partial_update))
         Samples.partial_update)
    = (true, Some 7, "updated")
  /\ map forget_time
         (students (fst (upsert_student 2000
                           (fst (upsert_student 1000 Samples.enrolled
                                   Samples.partial_update))
                           Samples.partial_update)))
     = map forget_time
         (students (fst (upsert_student 1000 Samples.enrolled
                           Samples.partial_update))).
Proof.
  destruct (upsert_student_twice 1000 2000 Samples.enrolled Samples.partial_update
              7 "updated" enrolled_sound enrolled_one_match)
    as (Hanswer & Hrows & _).
  - left. discriminate.
  - reflexivity.
  - reflexivity.
  - split; [exact Hanswer | exact Hrows].
Defined.

(** *** [load_students_batch] *)

(** An upsert of a student writes to [students] only. *)
Lemma upsert_student_other_tables now db data :
  departments (fst (upsert_student now db data)) = departments db
  /\ courses (fst (upsert_student now db data)) = courses db
  /\ next_course_id (fst (upsert_student now db data)) = next_course_id db.
Proof.
  destruct (LoaderProperties.upsert_student_cases now db data)
    as [(x & Hx & [[e ->] | (numbers & _ & ->)])
       | (Hnone & [[e ->] | (numbers & _ & ->)])]; by repeat split.
Qed.

(** What every upsert keeps, the loop keeps, on the committed tables and
    on those of the open transaction. *)
Lemma load_loop_keeps (P : database -> Prop) now batch_size :
  (forall db r, P db -> P (fst (upsert_student now db r))) ->
  forall rs conn st,
    P (committed conn) -> P (working conn) ->
    P (committed (fst (load_loop now batch_size rs conn st)))
    /\ P (working (fst (load_loop now batch_size rs conn st))).
Proof.
  intros Hstep. induction rs as [|[idx r] rs IH]; intros conn st Hc Hw;
    [by split|].
  cbn [load_loop].
  assert (Hnext : P (committed (fst (execute_upsert now conn idx r)))
                  /\ P (working (fst (execute_upsert now conn idx r)))).
  { unfold execute_upsert. destruct (aborted conn); [by split|].
    specialize (Hstep (working conn) r Hw).
    destruct (upsert_student now (working conn) r) as [db' o]. by split. }
  destruct (execute_upsert now conn idx r) as [c o]. cbn [fst] in Hnext.
  destruct Hnext as [Hc' Hw'].
  destruct (batch_size =? 0)%Z; [by split|].
  apply IH; destruct ((idx + 1) mod batch_size =? 0)%Z; try done;
    unfold commit; by destruct (aborted c).
Qed.

Lemma load_students_batch_keeps (P : database -> Prop) now db df batch_size :
  (forall db r, P db -> P (fst (upsert_student now db r))) ->
  P db -> P (fst (load_students_batch now db df batch_size)).
Proof.
  intros Hstep Hdb. unfold load_students_batch.
  destruct (load_loop_keeps P now batch_size Hstep (records df) (connect db)
              (Stats (length (rows df)) 0 0 0 []) Hdb Hdb) as [Hc Hw].
  destruct (load_loop now batch_size (records df) (connect db) _) as [conn [st|e]];
    cbn [fst] in *; [|exact Hc].
  unfold commit. by destruct (aborted conn).
Qed.

(** X13: The two edges of [load_students_batch].  An empty frame returns
    statistics that are all zero and leaves the tables, whatever the
    batch size.  A batch size of zero with at least one record raises,
    and the tables are left as they were: the upsert of the first record
    is rolled back. *)
Theorem load_students_batch_edges (now : Z) (db : database) (df : table) :
  (rows df = [] ->
   forall batch_size,
     load_students_batch now db df batch_size = (db, Return (Stats 0 0 0 0 [])))
  /\ (rows df <> [] ->
      exists e, load_students_batch now db df 0 = (db, Raise e)).
Proof.
  split.
  - intros Hrows batch_size. unfold load_students_batch, records.
    by rewrite Hrows.
  - intros Hrows. unfold load_students_batch, records.
    destruct (rows df) as [|[idx r] rs]; [done|]. cbn [map fst snd].
    destruct (LoaderProperties.load_loop_zero now idx (to_dict df r)
                (map (fun ir => (fst ir, to_dict df (snd ir))) rs) (connect db)
                (Stats (length ((idx, r) :: rs)) 0 0 0 []))
      as (conn' & e & -> & Hc).
    exists e. cbn [rollback committed]. by rewrite Hc.
Qed.

Lemma load_students_batch_edges_witness :
  load_students_batch 1000 Samples.campus (Table Samples.student_columns []) 0
    = (Samples.campus, Return (Stats 0 0 0 0 []))
  /\ exists e,
       load_students_batch 1000 Samples.campus Samples.ten_students 0
       = (Samples.campus, Raise e).
Proof.
  split.
  - apply (load_students_batch_edges 1000 Samples.campus
             (Table Samples.student_columns [])). reflexivity.
  - apply (load_students_batch_edges 1000 Samples.campus Samples.ten_students).
    discriminate.
Defined.

(** X14: [load_students_batch] on a sound table, for any batch size and any
    frame, whatever the store refuses on the way: the table it leaves is
    sound, so no record of the frame makes the loader store an email or a
    student code twice, and the departments and the courses are as they
    were. *)
Theorem load_students_batch_keeps_sound (now : Z) (db : database)
    (df : table) (batch_size : Z) :
  students_sound db ->
  students_sound (fst (load_students_batch now db df batch_size))
  /\ departments (fst (load_students_batch now db df batch_size)) = departments db
  /\ courses (fst (load_students_batch now db df batch_size)) = courses db.
Proof.
  intros Hsound.
  apply (load_students_batch_keeps
           (fun d => students_sound d
                     /\ departments d = departments db
                     /\ courses d = courses db));
    [|split; [exact Hsound | by split]].
  intros d r (Hs & Hd & Hc).
  destruct (upsert_student_other_tables now d r) as (-> & -> & _).
  split; [by apply students_sound_upsert | by split].
Qed.

Lemma campus_sound : students_sound Samples.campus.
Proof. unfold students_sound. cbn. repeat split; constructor. Qed.

Lemma load_students_batch_keeps_sound_witness :
  students_sound
    (fst (load_students_batch 1000 Samples.campus Samples.ten_students 100)).
Proof.
  apply (load_students_batch_keeps_sound 1000 Samples.campus Samples.ten_students
           100 campus_sound).
Defined.

(** X15: When the labels of the frame are 0, 1, 2, ... in order and the batch
    size is positive, the commits keep up with the loop: after any number
    of records fewer than a batch are waiting for a commit, and when the
    loop is left the records waiting are the remainder of the frame's
    length by the batch size. *)
Theorem load_loop_commits_on_range (now batch_size : Z) (db : database)
    (rs : list (Z * student_data)) (st : stats) :
  0 < batch_size ->
  map fst rs = map Z.of_nat (seq 0 (length rs)) ->
  (forall m : nat,
      Z.of_nat (length (uncommitted
                          (fst (load_loop now batch_size (firstn m rs)
                                  (connect db) st))))
      < batch_size)
  /\ Z.of_nat (length (uncommitted
                         (fst (load_loop now batch_size rs (connect db) st))))
     = Z.of_nat (length rs) mod batch_size.
Proof.
  intros Hb Hlabels. split.
  - intros m. by apply LoaderProperties.uncommitted_bounded_on_range.
  - destruct (LoaderProperties.uncommitted_on_consecutive_labels now batch_size Hb
                rs 0%nat (connect db) st Hlabels)
      as (conn' & st' & -> & Hlen).
    + cbn. by rewrite Z.mod_0_l by lia.
    + exact Hlen.
Qed.

Lemma load_loop_commits_on_range_witness :
  Z.of_nat (length (uncommitted
                      (fst (load_loop 1000 4 (records Samples.ten_students)
                              (connect Samples.campus) (Stats 10 0 0 0 [])))))
  = 2.
Proof.
  destruct (load_loop_commits_on_range 1000 4 Samples.campus
              (records Samples.ten_students) (Stats 10 0 0 0 [])) as [_ Hend].
  - lia.
  - reflexivity.
  - exact Hend.
Defined.

(** *** Department codes the store does not know *)

Lemma get_department_id_erased db db' r :
  departments db' = departments db ->
  get_department_id db' (sd_department_code (erase_unknown_department db r))
  = get_department_id db' (sd_department_code r).
Proof.
  intros Hd. unfold erase_unknown_department.
  destruct (get_department_id db (sd_department_code r)) eqn:Hg; [done|].
  cbn [sd_department_code]. unfold get_department_id in *. rewrite Hd.
  by destruct (sd_department_code r).
Qed.

Lemma upsert_student_erased now db db' r :
  departments db' = departments db ->
  upsert_student now db' (erase_unknown_department db r)
  = upsert_student now db' r.
Proof.
  intros Hd. unfold upsert_student.
  rewrite (get_department_id_erased db db' r Hd).
  assert (Hsame : same_student (erase_unknown_department db r) = same_student r).
  { unfold erase_unknown_department.
    by destruct (get_department_id db (sd_department_code r)). }
  assert (Hsent : sent_numbers (erase_unknown_department db r) = sent_numbers r).
  { unfold erase_unknown_department.
    by destruct (get_department_id db (sd_department_code r)). }
  assert (Hupd : forall d n, update_student now d (erase_unknown_department db r) n
                             = update_student now d r n).
  { intros d n. unfold erase_unknown_department.
    by destruct (get_department_id db (sd_department_code r)). }
  assert (Hnew : forall i d n, new_student i d (erase_unknown_department db r) n
                               = new_student i d r n).
  { intros i d n. unfold erase_unknown_department.
    by destruct (get_department_id db (sd_department_code r)). }
  rewrite Hsame, Hsent.
  destruct (List.find (same_student r) (students db'));
    destruct (sent_numbers r) as [n|]; try reflexivity.
  - by rewrite !Hupd.
  - by rewrite Hnew.
Qed.

(** X16: A department code that is not in [departments] is not an error
    for [upsert_student]: the record is written exactly as the same
    record without a department code, to the same row and with the same
    answer. *)
Theorem upsert_student_unknown_department (now : Z) (db : database)
    (r : student_data) :
  upsert_student now db (erase_unknown_department db r)
  = upsert_student now db r.
Proof. by apply upsert_student_erased. Qed.

(** *** [upsert_course] *)

Lemma courses_sound_upsert now db data :
  courses_sound db -> courses_sound (fst (upsert_course now db data)).
Proof.
  intros (Hids & Hnext & Hcodes). unfold upsert_course.
  destruct (get_department_id db (cd_department_code data)) as [dept|];
    [|by repeat split].
  destruct (existsb (same_course data) (courses db)) eqn:Hex.
  - destruct (first_violation _ _); [by repeat split|].
    unfold courses_sound. cbn [fst courses next_course_id with_courses].
    rewrite !map_map.
    rewrite (map_ext (fun c => course_id (if same_course data c then _ else c))
                     course_id)
      by (intros c; by destruct (same_course data c)).
    rewrite (map_ext (fun c => course_code (if same_course data c then _ else c))
                     course_code)
      by (intros c; by destruct (same_course data c)).
    repeat split; try done.
    apply List.Forall_forall. intros c' Hin.
    apply in_map_iff in Hin as (c & <- & Hin).
    rewrite List.Forall_forall in Hnext. specialize (Hnext c Hin).
    destruct (same_course data c); simpl; lia.
  - destruct (courses_check db _); [by repeat split|].
    unfold courses_sound. cbn [fst courses next_course_id with_courses].
    rewrite !map_app. cbn [map course_id course_code].
    repeat split.
    + apply NoDup_snoc; [done|]. rewrite in_map_iff. intros (c & Hc & Hin).
      rewrite List.Forall_forall in Hnext. specialize (Hnext c Hin). lia.
    + apply List.Forall_forall. intros c Hin.
      rewrite List.Forall_forall in Hnext.
      apply in_app_iff in Hin as [Hin|[<-|[]]];
        [specialize (Hnext c Hin); lia | simpl; lia].
    + apply present_snoc_fresh; [done|]. intros c Hin.
      destruct (sql_eq (cd_course_code data) (course_code c)) eqn:Hc; [|done].
      assert (existsb (same_course data) (courses db) = true); [|congruence].
      apply existsb_exists. by exists c.
Qed.

Lemma filter_fresh_code (l : list course) k :
  ~ In k (present (map course_code l)) ->
  List.filter (fun c => sql_eq (Some k) (course_code c)) l = [].
Proof.
  induction l as [|a l IH]; simpl; [done|].
  destruct (course_code a) as [ka|]; simpl; intros Hk.
  - destruct (String.eqb_spec k ka) as [->|_]; [tauto|]. apply IH. tauto.
  - by apply IH.
Qed.

(** Among courses with distinct codes a code selects at most one. *)
Lemma filter_same_course data (l : list course) c :
  List.NoDup (present (map course_code l)) ->
  In c l -> same_course data c = true ->
  List.filter (same_course data) l = [c].
Proof.
  unfold same_course. intros Hnd Hin Hc.
  apply sql_eq_true in Hc as (k & -> & Hck).
  induction l as [|a l IH]; [done|]. simpl in Hnd, Hin. cbn [List.filter].
  destruct (course_code a) as [ka|] eqn:Ha; simpl in Hnd |- *.
  - inversion Hnd as [|? ? Hfresh Hnd']; subst.
    destruct Hin as [->|Hin].
    + assert (ka = k) as -> by congruence.
      rewrite String.eqb_refl. f_equal. by apply filter_fresh_code.
    + assert (In k (present (map course_code l))).
      { apply in_present, in_map_iff. eauto. }
      destruct (String.eqb_spec k ka) as [->|_]; [done|]. by apply IH.
  - destruct Hin as [->|Hin]; [congruence|]. by apply IH.
Qed.

Lemma filter_map_same {A} (p : A -> bool) (f : A -> A) (l : list A) :
  (forall a, p (f a) = p a) ->
  List.filter p (map f l) = map f (List.filter p l).
Proof.
  intros Hp. induction l as [|a l IH]; simpl; [done|].
  rewrite Hp. destruct (p a); simpl; by rewrite IH.
Qed.

Lemma filter_none {A} (p : A -> bool) (l : list A) :
  existsb p l = false -> List.filter p l = [].
Proof.
  induction l as [|a l IH]; simpl; [done|].
  destruct (p a); [done | exact IH].
Qed.

(** X17: [upsert_course] and then a lookup.  On courses with distinct ids and
    codes, a successful upsert of data that has a course code leaves the
    courses distinct, and exactly one course under that code: it carries
    the name, the credits and the enrolment limit of the data (30 when
    the data has no limit). *)
Theorem upsert_course_then_lookup (now : Z) (db : database) (data : course_data) :
  courses_sound db ->
  cd_course_code data <> None ->
  fst (snd (upsert_course now db data)) = true ->
  courses_sound (fst (upsert_course now db data))
  /\ exists c,
       List.filter (same_course data) (courses (fst (upsert_course now db data)))
         = [c]
       /\ course_name c = cd_course_name data
       /\ credits c = cd_credits data
       /\ max_enrollment c = max_enrollment_of data.
Proof.
  intros Hsound Hcode Hok. split; [by apply courses_sound_upsert|].
  destruct Hsound as (_ & _ & Hcodes). revert Hok. unfold upsert_course.
  destruct (get_department_id db (cd_department_code data)) as [dept|];
    [|discriminate].
  destruct (existsb (same_course data) (courses db)) eqn:Hex.
  - destruct (first_violation _ _); [discriminate|]. intros _.
    apply existsb_exists in Hex as (x & Hin & Hx).
    exists (overwrite_course now data x).
    cbn [fst courses with_courses]. split; [|by repeat split].
    rewrite filter_map_same
      by (intros c; by destruct (same_course data c) eqn:Hc).
    rewrite (filter_same_course data _ x Hcodes Hin Hx). simpl. by rewrite Hx.
  - destruct (courses_check db _); [discriminate|]. intros _.
    exists (Course (next_course_id db) (cd_course_code data)
              (cd_course_name data) (cd_credits data) dept
              (max_enrollment_of data) None).
    cbn [fst courses with_courses].
    rewrite List.filter_app, (filter_none _ _ Hex). simpl.
    unfold same_course at 1. cbn [course_code].
    destruct (cd_course_code data) as [k|]; [|done]. simpl.
    rewrite String.eqb_refl. by repeat split.
Qed.

Lemma enrolled_courses_sound : courses_sound Samples.enrolled.
Proof.
  unfold courses_sound. cbn.
  repeat split; repeat constructor; simpl; try tauto; lia.
Qed.

Lemma upsert_course_then_lookup_witness :
  exists c,
    List.filter (same_course Samples.course_again)
      (courses (fst (upsert_course 1000 Samples.enrolled Samples.course_again)))
      = [c]
    /\ course_name c = None
    /\ credits c = SNum 3
    /\ max_enrollment c = SNum 30.
Proof.
  destruct (upsert_course_then_lookup 1000 Samples.enrolled Samples.course_again
              enrolled_courses_sound) as [_ Hc].
  - discriminate.
  - reflexivity.
  - exact Hc.
Defined.

End StoreProperties.

(** ** Properties of a whole run *)

Module RunProperties.
Import Transform DatabaseLoader LoadMeasures ETLPipeline Cli RunMeasures StoreShapes.

Lemma transform_students_shrinks df out :
  snd (transform_students df) = Return out ->
  (length (rows out) <= length (rows df))%nat.
Proof.
  intros Hret.
  destruct (Properties.transform_students_returns df out Hret) as [_ ->].
  cbn [rows].
  rewrite <- (Properties.apply_rows_length (Measures.cleaned_row df) (rows df)).
  rewrite <- Properties.validate_rows_rows.
  apply sublist_length. etransitivity; [apply TransformProperties.select_sublist|].
  apply TransformProperties.deduplicated_sublist.
Qed.

(** A batch size other than zero: the call returns, and its statistics
    add up. *)
Lemma load_students_batch_returns now db df batch_size :
  batch_size <> 0 ->
  exists db' st,
    load_students_batch now db df batch_size = (db', Return st)
    /\ total st = length (rows df)
    /\ (inserted st + updated st + failed st)%nat = length (rows df).
Proof.
  intros Hb. unfold load_students_batch.
  destruct (LoaderProperties.load_loop_returns now batch_size (records df) Hb
              (connect db) (Stats (length (rows df)) 0 0 0 []))
    as (conn' & st' & -> & Ht & Hsum & _).
  eexists _, st'. split; [reflexivity|]. cbn in Ht, Hsum.
  unfold records in Hsum. rewrite length_map in Hsum. by split.
Qed.

Lemma run_ending w src ty :
  ending w src ty (stats (fst (run w (init src ty)))) (snd (run w (init src ty))).
Proof.
  unfold run, extract.
  change (read_source w (with_log "EXTRACT PHASE STARTED"
            (with_stats (set_start (clock_at_start w) (stats (init src ty)))
               (init src ty))))
    with (read_source w (init src ty)).
  destruct (read_source w (init src ty)) as [df|e] eqn:Hsrc.
  - unfold transform. cbn [raw_data with_log].
    destruct (transform_students df) as [t [out|e]] eqn:Htr.
    + unfold get_validation_report.
      destruct (forallb has_row (firstn 10 (validation_errors t))) eqn:Hrep.
      * unfold load. cbn [transformed_data with_log].
        destruct (Nat.eqb_spec (length (rows out)) 0) as [Hlen|Hlen].
        -- eapply ends_before_load;
             [exact Hsrc | exact Htr | exact Hrep
             | by apply length_zero_iff_nil | ..];
             cbn; done.
        -- assert (Hrows : rows out <> []) by (intros H; by rewrite H in Hlen).
           destruct (database w) as [| |db] eqn:Hdb.
           ++ cbn. rewrite <- Hdb.
              eapply ends_without_store; eauto; try congruence; reflexivity.
           ++ cbn. rewrite <- Hdb.
              eapply ends_without_store; eauto; try congruence; reflexivity.
           ++ destruct (load_students_batch_returns (current_timestamp w) db out 100)
                as (db' & st & Hload & _); [lia|].
              rewrite Hload. cbn [fst snd stats with_stats set_end errors
                                  extract_count transform_count load_stats].
              eapply ends_loaded; eauto; reflexivity.
      * cbn. eapply ends_in_report; eauto.
    + cbn. eapply ends_in_transform; eauto.
  - cbn. eapply ends_in_extract; eauto.
Qed.

(** X18: The report of [run()] on a fresh pipeline.  No more records leave
    the transformer than were read, and at most one error is listed.
    The store is written only by a run that reports load statistics;
    such a run lists no error, had at least one record to load, and its
    statistics account for every transformed record as inserted, updated
    or failed. *)
Theorem run_report_counts (w : world) (src ty : string) :
  let s := stats (fst (run w (init src ty))) in
  (transform_count s <= extract_count s)%nat
  /\ (length (errors s) <= 1)%nat
  /\ (load_stats s = None -> snd (run w (init src ty)) = database w)
  /\ (forall st,
        load_stats s = Some st ->
        errors s = []
        /\ transform_count s <> 0%nat
        /\ total st = transform_count s
        /\ (inserted st + updated st + failed st)%nat = transform_count s).
Proof.
  intros s. subst s.
  pose proof (run_ending w src ty) as Hend.
  destruct (run w (init src ty)) as [p db]. cbn [fst snd] in *.
  inversion Hend as
    [ e s Hsrc He Ht Hl Herr
    | df t e s Hsrc Htr He Ht Hl Herr
    | df t out s Hsrc Htr Hrep He Ht Hl Herr
    | df t out s Hsrc Htr Hrep Hrows He Ht Hl Herr
    | df t out e s Hsrc Htr Hrep Hrows Hdb He Ht Hl Herr
    | df t out db0 db1 st0 s Hsrc Htr Hrep Hrows Hdb Hload He Ht Hl Herr ]; subst;
    rewrite He, Ht, Hl, Herr; cbn [length].
  - repeat split; try lia; try done.
  - repeat split; try lia; try done.
  - split; [|repeat split; try lia; try done].
    apply transform_students_shrinks. by rewrite Htr.
  - repeat split; try lia; try done.
  - split; [|repeat split; try lia; try done].
    apply transform_students_shrinks. by rewrite Htr.
  - split; [apply transform_students_shrinks; by rewrite Htr|].
    split; [lia|]. split; [done|]. intros st [= <-].
    destruct (load_students_batch_returns (current_timestamp w) db0 out 100)
      as (db' & st' & Hload' & Htotal & Hsum); [lia|].
    rewrite Hload in Hload'. injection Hload' as <- <-.
    split; [done|]. split; [|by split].
    intros Hlen. by apply length_zero_iff_nil in Hlen.
Qed.

(** The errors a dry run lists. *)
Lemma run_extract_transform_errors w src ty :
  errors (stats (run_extract_transform w (init src ty)))
  = match read_source w (init src ty) with
    | Raise e => [PhaseError "extract" e]
    | Return df =>
        match transform_students df with
        | (_, Raise e) => [PhaseError "transform" e]
        | (t, Return _) =>
            if forallb has_row (firstn 10 (validation_errors t)) then []
            else [PhaseError "transform" "'row'"]
        end
    end.
Proof.
  unfold run_extract_transform, extract.
  change (read_source w (with_log "EXTRACT PHASE STARTED"
            (with_stats (set_start (clock_at_start w) (stats (init src ty)))
               (init src ty))))
    with (read_source w (init src ty)).
  destruct (read_source w (init src ty)) as [df|e]; [|reflexivity].
  unfold transform. cbn [raw_data with_log].
  destruct (transform_students df) as [t [out|e]]; [|reflexivity].
  unfold get_validation_report.
  by destruct (forallb has_row (firstn 10 (validation_errors t))).
Qed.

(** What [main] reads: [--type] names one of the four extractors, so the
    unknown-type branch of [extract()] is never taken. *)
Lemma read_source_choice w src c :
  read_source w (init src (choice_name c))
  = match c with
    | Csv => extract_csv (sources w) src
    | Json => extract_json (sources w) src
    | Url => extract_from_url (sources w) src
    | GoogleSheet => extract_google_sheet (sources w) src
    end.
Proof. by destruct c. Qed.

(** X19: The exit status of [main] is 0 or 1, and it is 0 exactly when the
    chosen extractor returned a frame, [transform_students] returned on
    it, each of the first ten validation errors names a row and, unless
    [--dry-run] was given, the transformed frame is empty or the store
    can be reached.  Records that the transformer removed or that the
    store refused do not change it.  A dry run leaves the store as it
    was. *)
Theorem main_exit_status (w : world) (args : arguments) :
  let raw :=
    match arg_type args with
    | Csv => extract_csv (sources w) (arg_source args)
    | Json => extract_json (sources w) (arg_source args)
    | Url => extract_from_url (sources w) (arg_source args)
    | GoogleSheet => extract_google_sheet (sources w) (arg_source args)
    end in
  (snd (main w args) = 0 \/ snd (main w args) = 1)
  /\ (snd (main w args) = 0 <->
      exists df t out,
        raw = Return df
        /\ transform_students df = (t, Return out)
        /\ forallb has_row (firstn 10 (validation_errors t)) = true
        /\ (arg_dry_run args = true
            \/ rows out = []
            \/ exists db, database w = Reachable db))
  /\ (arg_dry_run args = true -> snd (fst (main w args)) = database w).
Proof.
  intros raw. subst raw. rewrite <- read_source_choice. unfold main.
  destruct (arg_dry_run args).
  - cbn [fst snd]. rewrite run_extract_transform_errors.
    destruct (read_source w _) as [df|e].
    + destruct (transform_students df) as [t [out|e]] eqn:Htr.
      * destruct (forallb has_row (firstn 10 (validation_errors t))) eqn:Hrep.
        -- split; [by left|]. split; [|done].
           split; [intros _; exists df, t, out; auto | done].
        -- split; [by right|]. split; [|done].
           split; [done|].
           intros (? & ? & ? & [= <-] & Hout & Hrep' & _).
           rewrite Htr in Hout. injection Hout as <- <-. congruence.
      * split; [by right|]. split; [|done].
        split; [done|]. intros (? & ? & ? & [= <-] & Hout & _).
        rewrite Htr in Hout. discriminate.
    + split; [by right|]. split; [|done].
      split; [done | intros (? & ? & ? & ? & _); congruence].
  - pose proof (run_ending w (arg_source args) (choice_name (arg_type args)))
      as Hend.
    destruct (run w _) as [p db]. cbn [fst snd] in *.
    split; [by destruct (errors (stats p)); [left | right]|].
    split; [|done].
    inversion Hend as
      [ e s Hsrc He Ht Hl Herr
      | df t e s Hsrc Htr He Ht Hl Herr
      | df t out s Hsrc Htr Hrep He Ht Hl Herr
      | df t out s Hsrc Htr Hrep Hrows He Ht Hl Herr
      | df t out e s Hsrc Htr Hrep Hrows Hdb He Ht Hl Herr
      | df t out db0 db1 st0 s Hsrc Htr Hrep Hrows Hdb Hload He Ht Hl Herr ];
      subst; rewrite Herr, Hsrc.
    + split; [done | intros (? & ? & ? & ? & _); congruence].
    + split; [done|]. intros (? & ? & ? & [= <-] & Hout & _).
      rewrite Htr in Hout. discriminate.
    + split; [done|]. intros (? & ? & ? & [= <-] & Hout & Hrep' & _).
      rewrite Htr in Hout. injection Hout as <- <-. congruence.
    + split; [intros _|done]. exists df, t, out.
      split; [done|]. split; [done|]. split; [done|]. right. by left.
    + split; [done|].
      intros (? & ? & out' & [= <-] & Hout & _ & [?|[Hnil|[db' Hdb']]]).
      * done.
      * rewrite Htr in Hout. injection Hout as <- <-. done.
      * by destruct (Hdb db').
    + split; [intros _|done]. exists df, t, out.
      split; [done|]. split; [done|]. split; [done|]. right. right. by exists db0.
Qed.

Lemma main_exit_status_cases :
  snd (main Samples.fractional_year (Args "students.csv" Csv false)) = 1
  /\ snd (main Samples.fractional_year (Args "students.csv" Csv true)) = 1
  /\ snd (main Samples.missing_file (Args "students.csv" Csv false)) = 1.
Proof. repeat split; vm_compute; reflexivity. Qed.

(** *** Transform, then load *)

Lemma find_all_false {A} (p : A -> bool) (l : list A) :
  (forall a, In a l -> p a = false) -> List.find p l = None.
Proof.
  induction l as [|a l IH]; intros Hp; simpl; [done|].
  rewrite (Hp a) by (by left). apply IH. intros b Hb. apply Hp. by right.
Qed.

Lemma sql_eq_distinct (a b : option string) : a <> b -> Db.sql_eq a b = false.
Proof.
  intros Hab. destruct (Db.sql_eq a b) eqn:E; [|done].
  apply StoreProperties.sql_eq_true in E as (x & -> & ->). done.
Qed.

(** A record that no stored student matches is not answered "updated";
    what it leaves in the tables matches no record with another email
    and another student code. *)
Lemma execute_upsert_unmatched now conn idx r rs st :
  ~ In (sd_email r) (map (fun ir => sd_email (snd ir)) rs) ->
  ~ In (sd_student_code r) (map (fun ir => sd_student_code (snd ir)) rs) ->
  unmatched (committed conn) ((idx, r) :: rs) ->
  unmatched (working conn) ((idx, r) :: rs) ->
  unmatched (committed (fst (execute_upsert now conn idx r))) rs
  /\ unmatched (working (fst (execute_upsert now conn idx r))) rs
  /\ updated (tally idx r (snd (execute_upsert now conn idx r)) st) = updated st.
Proof.
  intros Hemail Hcode Hc Hw.
  assert (Hc' : unmatched (committed conn) rs).
  { intros s ir Hs Hir. apply Hc; [done | by right]. }
  assert (Hw' : unmatched (working conn) rs).
  { intros s ir Hs Hir. apply Hw; [done | by right]. }
  unfold execute_upsert. destruct (aborted conn); [by repeat split|].
  assert (Hnone : List.find (same_student r) (Db.students (working conn)) = None).
  { apply find_all_false. intros s Hs. apply (Hw s (idx, r) Hs). by left. }
  destruct (LoaderProperties.upsert_student_cases now (working conn) r)
    as [(x & Hx & _) | (_ & [[e He] | (numbers & Hsent & He)])];
    [congruence | |];
    rewrite He; cbn [fst snd committed working tally];
    [by repeat split|].
  split; [exact Hc'|]. split; [|reflexivity].
  cbn [Db.students Db.with_students]. intros s ir Hs Hir.
  apply in_app_iff in Hs as [Hs|[<-|[]]]; [by apply Hw'|].
  unfold same_student. cbn [new_student Db.email Db.student_code].
  rewrite !sql_eq_distinct; [done | |].
  - intros E. apply Hcode. apply in_map_iff. exists ir. by split.
  - intros E. apply Hemail. apply in_map_iff. exists ir. by split.
Qed.

(** Records with pairwise distinct emails and codes, none of which is
    stored, are never answered "updated". *)
Lemma load_loop_never_updates now batch_size rs :
  forall conn st conn' st',
  List.NoDup (map (fun ir => sd_email (snd ir)) rs) ->
  List.NoDup (map (fun ir => sd_student_code (snd ir)) rs) ->
  unmatched (committed conn) rs ->
  unmatched (working conn) rs ->
  load_loop now batch_size rs conn st = (conn', Return st') ->
  updated st' = updated st.
Proof.
  induction rs as [|[idx r] rs IH];
    intros conn st conn' st' Hemails Hcodes Hc Hw Hrun.
  - simpl in Hrun. by injection Hrun as <- <-.
  - cbn [map fst snd] in Hemails, Hcodes.
    inversion Hemails as [|? ? Hemail Hemails']; subst.
    inversion Hcodes as [|? ? Hcode Hcodes']; subst.
    destruct (execute_upsert_unmatched now conn idx r rs st Hemail Hcode Hc Hw)
      as (Hc' & Hw' & Hupd).
    cbn [load_loop] in Hrun.
    destruct (execute_upsert now conn idx r) as [c o]. cbn [fst snd] in *.
    destruct (batch_size =? 0)%Z; [discriminate|].
    rewrite <- Hupd. eapply IH; [done | done | | | exact Hrun];
      destruct ((idx + 1) mod batch_size =? 0)%Z; try done;
      unfold commit; by destruct (aborted c).
Qed.

(** The emails and the student codes of the records of a frame that has
    the two columns are those of its rows. *)
Lemma records_keys df :
  has_column df "email" = true ->
  has_column df "student_code" = true ->
  map (fun ir => sd_email (snd ir)) (records df)
    = map (fun ir => email (snd ir)) (rows df)
  /\ map (fun ir => sd_student_code (snd ir)) (records df)
     = map (fun ir => student_code (snd ir)) (rows df).
Proof.
  intros He Hc. unfold records. rewrite !map_map.
  split; apply map_ext; intros [idx r]; cbn [snd to_dict sd_email sd_student_code];
    unfold get; by rewrite ?He, ?Hc.
Qed.

(** X20: Transform, then load into a store without students, with any batch
    size other than zero.  What [transform_students] returns for a frame
    with a student code column is loaded record by record without any
    record meeting another: the call returns, no record is counted as
    updated, each is counted as inserted or as failed. *)
Theorem transformed_frame_loads_without_updates (now : Z) (db : Db.database)
    (df out : table) (batch_size : Z) :
  snd (transform_students df) = Return out ->
  has_column df "student_code" = true ->
  Db.students db = [] ->
  batch_size <> 0 ->
  exists db' st,
    load_students_batch now db out batch_size = (db', Return st)
    /\ updated st = 0%nat
    /\ (inserted st + failed st)%nat = length (rows out).
Proof.
  intros Hret Hcol Hempty Hb.
  destruct (TransformProperties.transform_students_distinct df out Hret)
    as (_ & Hemails & Hcodes).
  specialize (Hcodes Hcol).
  destruct (load_students_batch_returns now db out batch_size Hb)
    as (db' & st & Hload & _ & Hsum).
  exists db', st. split; [exact Hload|].
  assert (Hupd : updated st = 0%nat).
  { unfold load_students_batch in Hload.
    destruct (load_loop now batch_size (records out) (connect db)
                (Stats (length (rows out)) 0 0 0 [])) as [conn [st'|e]] eqn:Hrun;
      [|discriminate].
    injection Hload as _ <-.
    destruct (rows out) as [|ir rs] eqn:Hrows.
    { unfold records in Hrun. rewrite Hrows in Hrun. simpl in Hrun.
      by injection Hrun as _ <-. }
    assert (Hcolumns : columns out = columns df).
    { destruct (Properties.transform_students_returns df out Hret) as [_ Hout].
      rewrite Hout in Hrows |- *. cbn [columns rows] in *.
      unfold masked_columns.
      destruct (Measures.deduplicated df); [discriminate | reflexivity]. }
    destruct (records_keys out) as [Hre Hrc].
    { unfold has_column. rewrite Hcolumns.
      by destruct (Properties.transform_students_returns df out Hret). }
    { unfold has_column. rewrite Hcolumns. exact Hcol. }
    rewrite Hrows in Hre, Hrc.
    apply (load_loop_never_updates now batch_size (records out) (connect db)
             (Stats (length (ir :: rs)) 0 0 0 []) conn st');
      [by rewrite Hre | by rewrite Hrc | | | exact Hrun];
      intros s ir' Hs; cbn [connect committed working] in Hs;
      by rewrite Hempty in Hs. }
  split; [exact Hupd | lia].
Qed.

Lemma transformed_frame_loads_without_updates_witness :
  exists out db' st,
    snd (transform_students Samples.five_with_repeats) = Return out
    /\ load_students_batch 1000 Samples.campus out 100 = (db', Return st)
    /\ updated st = 0%nat
    /\ (inserted st + failed st)%nat = length (rows out).
Proof.
  eexists.
  match goal with
  | |- exists db' st, snd (transform_students ?df) = Return ?out /\ _ =>
    destruct (transformed_frame_loads_without_updates 1000 Samples.campus df out 100)
      as (db' & st & Hload & Hupd & Hsum) end.
  - vm_compute; reflexivity.
  - reflexivity.
  - reflexivity.
  - lia.
  - exists db', st. split; [vm_compute; reflexivity|].
    split; [exact Hload|]. split; [exact Hupd | exact Hsum].
Defined.

End RunProperties.

(** ** Properties of the course and enrollment loaders *)

Module EnrollmentProperties.
Import Db DatabaseLoader StoreShapes Enrollments EnrollmentShapes.

(** *** [upsert_enrollment] *)

(** The answers of [upsert_enrollment], by the branch taken. *)
Lemma upsert_enrollment_cases now reg data :
  (List.find (fun s => sql_eq (ed_student_code data) (student_code s))
             (students (tables reg)) = None
   /\ upsert_enrollment now reg data = (reg, (false, "Student not found")))
  \/ (exists s,
        List.find (fun s => sql_eq (ed_student_code data) (student_code s))
                  (students (tables reg)) = Some s
        /\ List.find (fun c => sql_eq (ed_course_code data) (course_code c))
                     (courses (tables reg)) = None
        /\ upsert_enrollment now reg data = (reg, (false, "Course not found")))
  \/ (exists s c,
        List.find (fun s => sql_eq (ed_student_code data) (student_code s))
                  (students (tables reg)) = Some s
        /\ List.find (fun c => sql_eq (ed_course_code data) (course_code c))
                     (courses (tables reg)) = Some c
        /\ ((exists e, upsert_enrollment now reg data = (reg, (false, e)))
            \/ (existsb (same_enrollment (student_id s) (course_id c))
                        (enrollments reg) = true
                /\ upsert_enrollment now reg data
                   = (with_enrollments
                        (map (fun e => if same_enrollment (student_id s) (course_id c) e
                                       then regrade now data e else e)
                             (enrollments reg)) reg,
                      (true, "upserted")))
            \/ (existsb (same_enrollment (student_id s) (course_id c))
                        (enrollments reg) = false
                /\ upsert_enrollment now reg data
                   = (with_enrollments
                        (enrollments reg
                           ++ [Enrollment (student_id s) (course_id c)
                                 (ed_grade data) "Enrolled" None]) reg,
                      (true, "upserted"))))).
Proof.
  unfold upsert_enrollment.
  destruct (List.find _ (students (tables reg))) as [s|]; [|by left].
  right. destruct (List.find _ (courses (tables reg))) as [c|];
    [right | left; by exists s].
  exists s, c. split; [done|]. split; [done|].
  destruct (existsb _ (enrollments reg)).
  - destruct (first_violation _ _) as [e|]; [left; by exists e|].
    right. left. by split.
  - destruct (enrollments_check reg _) as [e|]; [left; by exists e|].
    right. right. by split.
Qed.

Lemma same_enrollment_pair sid cid e :
  same_enrollment sid cid e = true
  <-> (enrolled_student e, enrolled_course e) = (sid, cid).
Proof.
  unfold same_enrollment. rewrite andb_true_iff, !Z.eqb_eq.
  split; [intros [-> ->]; done | intros [= -> ->]; done].
Qed.

Lemma enrollments_sound_upsert now reg data :
  enrollments_sound reg ->
  enrollments_sound (fst (upsert_enrollment now reg data))
  /\ tables (fst (upsert_enrollment now reg data)) = tables reg.
Proof.
  intros [Hrefs Hpairs].
  destruct (upsert_enrollment_cases now reg data)
    as [[_ ->] | [(s & _ & _ & ->)
       | (s & c & Hs & Hc & [[e ->] | [[_ ->] | [Hnew ->]]])]];
    cbn [fst]; try (split; [by split | done]).
  - split; [|done]. unfold enrollments_sound.
    cbn [enrollments tables with_enrollments]. split.
    + apply List.Forall_forall. intros e' Hin.
      apply in_map_iff in Hin as (e & <- & Hin).
      rewrite List.Forall_forall in Hrefs. specialize (Hrefs e Hin).
      by destruct (same_enrollment _ _ e).
    + rewrite map_map.
      rewrite (map_ext _ (fun e => (enrolled_student e, enrolled_course e)));
        [done|].
      intros e. by destruct (same_enrollment _ _ e).
  - split; [|done]. unfold enrollments_sound.
    cbn [enrollments tables with_enrollments]. split.
    + apply List.Forall_forall. intros e Hin.
      rewrite List.Forall_forall in Hrefs.
      apply in_app_iff in Hin as [Hin|[<-|[]]]; [by apply Hrefs|].
      cbn [enrolled_student enrolled_course].
      apply find_some in Hs as [Hs _]. apply find_some in Hc as [Hc _].
      split; apply in_map_iff; eauto.
    + rewrite map_app. cbn [map enrolled_student enrolled_course].
      apply StoreProperties.NoDup_snoc; [done|].
      rewrite in_map_iff. intros (e & He & Hin).
      assert (existsb (same_enrollment (student_id s) (course_id c))
                      (enrollments reg) = true); [|congruence].
      apply existsb_exists. exists e. split; [done|].
      by apply same_enrollment_pair.
Qed.

Lemma term_sound : enrollments_sound MoreSamples.term.
Proof. split; constructor. Qed.

(** Among enrollments with distinct pairs a pair selects at most one. *)
Lemma filter_same_enrollment sid cid (l : list enrollment) e :
  List.NoDup (map (fun e => (enrolled_student e, enrolled_course e)) l) ->
  In e l -> same_enrollment sid cid e = true ->
  List.filter (same_enrollment sid cid) l = [e].
Proof.
  intros Hnd Hin He. apply same_enrollment_pair in He.
  induction l as [|a l IH]; [done|]. simpl in Hnd, Hin. cbn [List.filter].
  inversion Hnd as [|? ? Hfresh Hnd']; subst.
  destruct Hin as [->|Hin].
  - rewrite (proj2 (same_enrollment_pair sid cid e) He). f_equal.
    apply StoreProperties.filter_none.
    destruct (existsb (same_enrollment sid cid) l) eqn:Hex; [|done].
    apply existsb_exists in Hex as (b & Hb & Hsame).
    apply same_enrollment_pair in Hsame.
    destruct Hfresh. apply in_map_iff. exists b. split; [congruence | done].
  - destruct (same_enrollment sid cid a) eqn:Ha; [|by apply IH].
    apply same_enrollment_pair in Ha.
    destruct Hfresh. apply in_map_iff. exists e. split; [congruence | done].
Qed.

(** X22: [upsert_enrollment] and then a lookup.  When the enrollments are
    sound and the upsert succeeds, the student code and the course code
    of the data are those of a stored student and a stored course, and
    exactly one enrollment of that student in that course is stored
    afterwards: it carries the grade of the data, absent included. *)
Theorem upsert_enrollment_then_lookup (now : Z) (reg : registry)
    (data : enrollment_data) :
  enrollments_sound reg ->
  fst (snd (upsert_enrollment now reg data)) = true ->
  exists s c e,
    In s (students (tables reg))
    /\ student_code s = ed_student_code data
    /\ In c (courses (tables reg))
    /\ course_code c = ed_course_code data
    /\ ed_student_code data <> None
    /\ ed_course_code data <> None
    /\ List.filter (same_enrollment (student_id s) (course_id c))
                   (enrollments (fst (upsert_enrollment now reg data)))
       = [e]
    /\ grade e = ed_grade data.
Proof.
  intros [_ Hpairs] Hok.
  destruct (upsert_enrollment_cases now reg data)
    as [[_ He] | [(s & _ & _ & He)
       | (s & c & Hs & Hc & [[e He] | [[Hex He] | [Hnew He]]])]];
    rewrite He in Hok |- *; cbn [fst snd] in Hok |- *; try discriminate Hok;
    apply find_some in Hs as [Hs Hscode];
    apply find_some in Hc as [Hc Hccode];
    apply StoreProperties.sql_eq_true in Hscode as (ks & Hks & Hks');
    apply StoreProperties.sql_eq_true in Hccode as (kc & Hkc & Hkc').
  - apply existsb_exists in Hex as (x & Hin & Hx).
    exists s, c, (regrade now data x).
    repeat split; try congruence. cbn [enrollments with_enrollments].
    rewrite StoreProperties.filter_map_same
      by (intros e; by destruct (same_enrollment _ _ e) eqn:E).
    rewrite (filter_same_enrollment _ _ _ x Hpairs Hin Hx). simpl.
    by rewrite Hx.
  - exists s, c, (Enrollment (student_id s) (course_id c) (ed_grade data)
                    "Enrolled" None).
    repeat split; try congruence. cbn [enrollments with_enrollments].
    rewrite List.filter_app, (StoreProperties.filter_none _ _ Hnew). simpl.
    unfold same_enrollment. cbn [enrolled_student enrolled_course].
    by rewrite !Z.eqb_refl.
Qed.

Lemma upsert_enrollment_then_lookup_witness :
  exists e,
    List.filter (same_enrollment 7 3)
      (enrollments (fst (upsert_enrollment 1000 MoreSamples.term
                           MoreSamples.ada_in_programming)))
      = [e]
    /\ grade e = SText "A".
Proof.
  destruct (upsert_enrollment_then_lookup 1000 MoreSamples.term
              MoreSamples.ada_in_programming term_sound)
    as (s & c & e & Hs & _ & Hc & _ & _ & _ & He & Hg); [reflexivity|].
  destruct Hs as [<-|[]]. destruct Hc as [<-|[]].
  exists e. split; [exact He | exact Hg].
Defined.

Lemma find_unknown {A} (col : A -> option string) (l : list A) k :
  ~ In (Some k) (map col l) ->
  List.find (fun x => sql_eq (Some k) (col x)) l = None.
Proof.
  intros Hk. induction l as [|a l IH]; [done|]. cbn [List.find].
  destruct (sql_eq (Some k) (col a)) eqn:Ha.
  - apply StoreProperties.sql_eq_true in Ha as (x & [= ->] & Hx).
    destruct Hk. simpl. by left.
  - apply IH. simpl in Hk. tauto.
Qed.

(** X23: What [upsert_enrollment] refuses.  A student code that no stored
    student carries is answered "Student not found", whatever the
    course; with a stored student, a course code that no stored course
    carries is answered "Course not found"; and every refusal, these or
    one by the store, leaves the tables as they were. *)
Theorem upsert_enrollment_refusals (now : Z) (reg : registry)
    (data : enrollment_data) :
  (forall k,
      ed_student_code data = Some k ->
      ~ In (Some k) (map student_code (students (tables reg))) ->
      upsert_enrollment now reg data = (reg, (false, "Student not found")))
  /\ (forall k k',
      ed_student_code data = Some k ->
      In (Some k) (map student_code (students (tables reg))) ->
      ed_course_code data = Some k' ->
      ~ In (Some k') (map course_code (courses (tables reg))) ->
      upsert_enrollment now reg data = (reg, (false, "Course not found")))
  /\ (fst (snd (upsert_enrollment now reg data)) = false ->
      fst (upsert_enrollment now reg data) = reg).
Proof.
  split; [|split].
  - intros k Hk Hunknown. unfold upsert_enrollment.
    by rewrite Hk, (find_unknown _ _ _ Hunknown).
  - intros k k' Hk Hin Hk' Hunknown. unfold upsert_enrollment.
    rewrite Hk, Hk'.
    destruct (List.find _ (students (tables reg))) as [s|] eqn:Hs.
    + by rewrite (find_unknown _ _ _ Hunknown).
    + apply in_map_iff in Hin as (s & Hcode & Hin).
      pose proof (find_none _ _ Hs s Hin) as Hno. cbn beta in Hno.
      rewrite Hcode in Hno. simpl in Hno. by rewrite String.eqb_refl in Hno.
  - destruct (upsert_enrollment_cases now reg data)
      as [[_ ->] | [(s & _ & _ & ->)
         | (s & c & Hs & Hc & [[e ->] | [[_ ->] | [Hnew ->]]])]];
      cbn [fst snd]; done.
Qed.

End EnrollmentProperties.
